(** * sbfi-knime-utils: the download waiter and its logger

    A shallow embedding of [wait_download_file]
    (src/sbfi_knime_utils/chrome_utils.py) together with the collaborators
    it talks to: Python's [str] methods, [os.path], [os], [shutil], [time]
    and the package's [Logger].

    Conventions of the embedding.
    - A Python [str] is a [string]; the model covers ASCII text, on which
      [str.lower] only touches the letters A..Z.
    - Paths follow [posixpath]: separator "/", case-sensitive names.
    - The file system is an explicit state (a "world") threaded through the
      calls; a failing call yields the text of the [OSError] it raises.
    - [waiting_time] is an IEEE-754 binary64 number, as in CPython, so that
      the accumulated [0.2]s round exactly like the running program.
    - [while True] is run with fuel; [None] means the fuel ran out before
      the call produced its outcome. *)

From Stdlib Require Import ZArith Ascii String List Bool Lia.
From Stdlib Require Import Numbers.DecimalString Floats.SpecFloat.
From stdpp Require Import base option list strings gmap fin_maps.

Local Open Scope string_scope.
Local Open Scope list_scope.

(** ** Python strings *)

Module PyStr.

(** [c.lower()] on one ASCII character. *)
Definition lower_ascii (c : ascii) : ascii :=
  let n := nat_of_ascii c in
  if (65 <=? n)%nat && (n <=? 90)%nat then ascii_of_nat (n + 32) else c.

(** [s.lower()]. *)
Fixpoint lower (s : string) : string :=
  match s with
  | EmptyString => EmptyString
  | String c s' => String (lower_ascii c) (lower s')
  end.

(** [s.lstrip(c)] for a one-character set. *)
Fixpoint lstrip (c : ascii) (s : string) : string :=
  match s with
  | EmptyString => EmptyString
  | String a s' => if Ascii.eqb a c then lstrip c s' else s
  end.

(** [s.startswith(p)]. *)
Fixpoint startswith (s p : string) : bool :=
  match p, s with
  | EmptyString, _ => true
  | String _ _, EmptyString => false
  | String b p', String a s' => Ascii.eqb a b && startswith s' p'
  end.

(** [s.endswith(suf)]: some tail of [s] is [suf]. *)
Fixpoint endswith (s suf : string) : bool :=
  if String.eqb s suf then true
  else match s with
       | EmptyString => false
       | String _ s' => endswith s' suf
       end.

(** The cut of [s] at its last occurrence of [sep], when there is one. *)
Fixpoint rcut (sep : ascii) (s : string) : option (string * string) :=
  match s with
  | EmptyString => None
  | String c s' =>
      match rcut sep s' with
      | Some (a, b) => Some (String c a, b)
      | None => if Ascii.eqb c sep then Some (EmptyString, s') else None
      end
  end.

(** [s.rsplit(sep, 1)] for a one-character separator: one or two pieces. *)
Definition rsplit1 (sep : ascii) (s : string) : list string :=
  match rcut sep s with
  | Some (a, b) => [a; b]
  | None => [s]
  end.

(** [s.split(sep)] for a one-character separator. *)
Fixpoint split (sep : ascii) (s : string) : list string :=
  match s with
  | EmptyString => [EmptyString]
  | String c s' =>
      if Ascii.eqb c sep then EmptyString :: split sep s'
      else match split sep s' with
           | x :: xs => String c x :: xs
           | [] => [String c EmptyString]
           end
  end.

(** [sep.join(l)]. *)
Fixpoint join (sep : string) (l : list string) : string :=
  match l with
  | [] => ""
  | [x] => x
  | x :: xs => x ++ sep ++ join sep xs
  end.

(** [str(n)] for an [int]. *)
Definition str_of_int (n : Z) : string :=
  NilZero.string_of_int (Z.to_int n).

Definition contains (c : ascii) (s : string) : bool :=
  existsb (Ascii.eqb c) (list_ascii_of_string s).

Definition hex_digit (n : nat) : ascii :=
  if (n <? 10)%nat then ascii_of_nat (48 + n) else ascii_of_nat (87 + n).

(** One character of [repr(s)], inside quotes [q]. *)
Definition repr_char (q c : ascii) : string :=
  let n := nat_of_ascii c in
  if Ascii.eqb c q || Ascii.eqb c "\"%char then String "\"%char (String c "")
  else if (n =? 9)%nat then "\t"
  else if (n =? 10)%nat then "\n"
  else if (n =? 13)%nat then "\r"
  else if (n <? 32)%nat || (127 <=? n)%nat then
    String "\"%char (String "x"%char
      (String (hex_digit (n / 16)) (String (hex_digit (n mod 16)) "")))
  else String c "".

(** The double-quote character. *)
Definition double_quote : ascii := ascii_of_nat 34.

(** [repr(s)]: single quotes, unless [s] holds a single quote and no
    double quote. *)
Definition repr (s : string) : string :=
  let q := if contains "'"%char s && negb (contains double_quote s)
           then double_quote else "'"%char in
  String q (String.concat "" (map (repr_char q) (list_ascii_of_string s)))
    ++ String q "".

(** [repr(l)] for a list of strings, as an f-string prints it. *)
Definition repr_list (l : list string) : string :=
  "[" ++ join ", " (map repr l) ++ "]".

End PyStr.

(** ** binary64 arithmetic for [waiting_time] *)

Module PyFloat.

Definition float := spec_float.

Definition add : float -> float -> float := SFadd 53 1024.

(** The literal [0] of [waiting_time = 0], once it meets a float. *)
Definition zero : float := S754_zero false.

(** The literal [0.2]: the double nearest to 1/5,
    [0x1.999999999999ap-3]. *)
Definition poll_interval : float :=
  S754_finite false 7205759403792794 (-55).

(** [x >= n] for a float [x] and an [int] [n]; Python compares the two
    exactly. *)
Definition ge_int (x : float) (n : Z) : bool :=
  match x with
  | S754_zero _ => (n <=? 0)%Z
  | S754_infinity s => negb s
  | S754_nan => false
  | S754_finite s m e =>
      let v := if s then Z.neg m else Z.pos m in
      if (0 <=? e)%Z then (n <=? v * 2 ^ e)%Z
      else (n * 2 ^ (- e) <=? v)%Z
  end.

End PyFloat.

(** ** The logger *)

Module Logger.

(** Modelled from the spec: the [LogEntry] record of logger.py, which is
    not among the sources: timestamp, originating function, message and
    error flag. *)
Record LogEntry := {
  timestamp : Z;
  function : string;
  message : string;
  is_error : bool
}.

(** Modelled from the spec: the [Logger] class of logger.py: an ordered,
    append-only sequence of entries. *)
Definition t := list LogEntry.

(** Modelled from the spec: [Logger()], a logger without entries. *)
Definition new : t := [].

(** Modelled from the spec: [Logger.log(function, message, is_error)]
    appends an entry stamped with the current time [now]; it never
    fails. *)
Definition log (now : Z) (fn msg : string) (err : bool) (l : t) : t :=
  l ++ [ {| timestamp := now; function := fn; message := msg;
            is_error := err |} ].

(** A cell of the table; [CNull] is the missing value. *)
Inductive cell :=
| CNull
| CDate (d : Z)
| CStr (s : string)
| CBool (b : bool).

Record DataFrame := {
  columns : list string;
  rows : list (list cell)
}.

Definition row_of (e : LogEntry) : list cell :=
  [CDate (timestamp e); CStr (function e); CStr (message e);
   CBool (is_error e)].

(** Modelled from the spec: [Logger.get_log_dataframe()]: the entries as
    rows under the fixed columns, in append order. *)
Definition get_log_dataframe (l : t) : DataFrame :=
  {| columns := ["Date"; "Function"; "Message"; "IsError"];
     rows := map row_of l |}.

(** [row[col]]: the cell of [row] under the column named [col]. *)
Fixpoint cell_at (cols : list string) (row : list cell) (col : string)
  : option cell :=
  match cols, row with
  | c :: cols', x :: row' =>
      if String.eqb c col then Some x else cell_at cols' row' col
  | _, _ => None
  end.

End Logger.

(** ** The file-system provider *)

(** What a call that changes the file system yields: the new world, or the
    text of the [OSError] it raised and the world it left behind. *)
Inductive fs_result (W : Type) :=
| Ok (w : W)
| Err (e : string) (w : W).
Arguments Ok {W} w.
Arguments Err {W} e w.

(** The calls of [os], [os.path], [shutil], [time] and [datetime] that the
    waiter makes, over a world [W]. *)
Class FileSystem (W : Type) := {
  (** [os.makedirs(path, exist_ok=True)] *)
  os_makedirs : string -> W -> fs_result W;
  os_path_isdir : string -> W -> bool;
  os_path_isfile : string -> W -> bool;
  os_path_exists : string -> W -> bool;
  (** [os.listdir(path)]: the names, or the text of the [OSError] *)
  os_listdir : string -> W -> string + list string;
  (** [shutil.move(src, dst)] *)
  shutil_move : string -> string -> W -> fs_result W;
  os_remove : string -> W -> fs_result W;
  (** [time.sleep(0.2)]: whatever the rest of the system does meanwhile *)
  time_sleep : W -> W;
  (** [datetime.now()] *)
  datetime_now : W -> Z
}.

(** [os.path.join(a, b)] of posixpath. *)
Definition os_path_join (a b : string) : string :=
  if PyStr.startswith b "/" then b
  else if String.eqb a "" || PyStr.endswith a "/" then a ++ b
  else a ++ "/" ++ b.

(** [os.path.isabs(p)] of posixpath. *)
Definition os_path_isabs (p : string) : bool := PyStr.startswith p "/".

(** ** wait_download_file *)

Inductive exn :=
| ValueError (msg : string)
| OSError (msg : string)
| TimeoutError (msg : string).

Inductive completion :=
| Return (output_file : list (list string))
| Raise (e : exn).

(** How a call ends: the world and the logger it leaves, and what the
    caller gets. *)
Record run (W : Type) := Run {
  final_world : W;
  final_logger : option Logger.t;
  result : completion
}.
Arguments Run {W} _ _ _.
Arguments final_world {W} _.
Arguments final_logger {W} _.
Arguments result {W} _.

Section Waiter.
Context {W : Type} `{FileSystem W}.

(** [if logger: logger.log(function, message, is_error=...)] *)
Definition log_if (logger : option Logger.t) (w : W)
    (fn msg : string) (err : bool) : option Logger.t :=
  match logger with
  | Some l => Some (Logger.log (datetime_now w) fn msg err l)
  | None => None
  end.

Section Loop.
Variables (folder_to_check folder_storage : string).
Variable (replace_filename : option string).

(** [replace_filename if replace_filename else downloaded_file_name]:
    [None] and the empty string are both falsy. *)
Definition new_file_name_of (downloaded_file_name : string) : string :=
  match replace_filename with
  | Some r => if String.eqb r "" then downloaded_file_name else r
  | None => downloaded_file_name
  end.

(** The body of [for path_file_report in path_file_reports], lines
    122-163, followed by [return output_file]. *)
Fixpoint process_files (path_file_reports : list string) (w : W)
    (logger : option Logger.t) (output_file : list (list string))
    : run W :=
  match path_file_reports with
  | [] => Run w logger (Return output_file)
  | path_file_report :: rest =>
      let downloaded_file_path :=
        os_path_join folder_to_check path_file_report in
      match PyStr.rsplit1 "." (PyStr.lower path_file_report) with
      | [downloaded_file_name; downloaded_file_extension] =>
          let new_file_name := new_file_name_of downloaded_file_name in
          let output_file_path :=
            os_path_join folder_storage
              (new_file_name ++ "." ++ downloaded_file_extension) in
          match shutil_move downloaded_file_path output_file_path w with
          | Err e w1 =>
              Run w1
                (log_if logger w1 "wait_download_file"
                   ("Failed to move file " ++ downloaded_file_path
                      ++ ": " ++ e) true)
                (Raise (OSError e))
          | Ok w1 =>
              let logger1 :=
                log_if logger w1 "wait_download_file"
                  ("Moved file from " ++ downloaded_file_path ++ " to "
                     ++ output_file_path) false in
              let output_file1 :=
                output_file ++
                  [[new_file_name; output_file_path;
                    downloaded_file_extension]] in
              if os_path_exists downloaded_file_path w1 then
                match os_remove downloaded_file_path w1 with
                | Ok w2 =>
                    process_files rest w2
                      (log_if logger1 w2 "wait_download_file"
                         ("Removed file: " ++ downloaded_file_path) false)
                      output_file1
                | Err e w2 =>
                    process_files rest w2
                      (log_if logger1 w2 "wait_download_file"
                         ("Failed to remove file " ++ downloaded_file_path
                            ++ ": " ++ e) true)
                      output_file1
                end
              else process_files rest w1 logger1 output_file1
          end
      | _ =>
          Run w logger
            (Raise (ValueError
                      "not enough values to unpack (expected 2, got 1)"))
      end
  end.

Variable (max_waiting_download : Z).

(** The list comprehension of lines 109-112, given the listing. *)
Definition matching_files (extension : string) (names : list string)
    (w : W) : list string :=
  List.filter
    (fun f =>
       os_path_isfile (os_path_join folder_to_check f) w
       && PyStr.endswith (PyStr.lower f) ("." ++ extension))
    names.

(** [while True:] of lines 108-177; one unit of fuel per pass. *)
Fixpoint poll (fuel : nat) (extension : string)
    (waiting_time : PyFloat.float) (w : W) (logger : option Logger.t)
    : option (run W) :=
  match fuel with
  | O => None
  | S fuel' =>
      match os_listdir folder_to_check w with
      | inl e => Some (Run w logger (Raise (OSError e)))
      | inr names =>
          match matching_files extension names w with
          | (_ :: _) as path_file_reports =>
              Some (process_files path_file_reports w
                      (log_if logger w "wait_download_file"
                         ("Found downloaded files: "
                            ++ PyStr.repr_list path_file_reports) false)
                      [])
          | [] =>
              let waiting_time' :=
                PyFloat.add waiting_time PyFloat.poll_interval in
              if PyFloat.ge_int waiting_time' max_waiting_download then
                Some (Run w
                        (log_if logger w "wait_download_file"
                           ("Timeout waiting for download after "
                              ++ PyStr.str_of_int max_waiting_download
                              ++ " seconds") true)
                        (Raise (TimeoutError
                                  "Timeout waiting for download")))
              else poll fuel' extension waiting_time' (time_sleep w) logger
          end
      end
  end.

End Loop.

(** [wait_download_file], lines 62-177, arguments in the order of the
    source; [fuel] bounds the number of passes and [w] is the world the
    call starts in. *)
Definition wait_download_file (folder_to_check extension
    folder_storage : string) (replace_filename : option string)
    (max_waiting_download : Z) (logger : option Logger.t)
    (fuel : nat) (w : W) : option (run W) :=
  if String.eqb folder_to_check "" || String.eqb folder_storage "" then
    Some (Run w logger (Raise (ValueError "Folder paths cannot be empty")))
  else if String.eqb extension "" then
    Some (Run w logger (Raise (ValueError "Extension cannot be empty")))
  else
    let extension := PyStr.lower (PyStr.lstrip "." extension) in
    match os_makedirs folder_to_check w with
    | Err e w1 =>
        Some (Run w1 logger
                (Raise (OSError ("Failed to create folders: " ++ e))))
    | Ok w1 =>
        match os_makedirs folder_storage w1 with
        | Err e w2 =>
            Some (Run w2 logger
                    (Raise (OSError ("Failed to create folders: " ++ e))))
        | Ok w2 =>
            if negb (os_path_isdir folder_to_check w2)
               || negb (os_path_isdir folder_storage w2)
            then Some (Run w2 logger
                         (Raise (ValueError "Invalid folder paths")))
            else poll folder_to_check folder_storage replace_filename
                   max_waiting_download fuel extension PyFloat.zero w2
                   logger
        end
    end.

End Waiter.

(** ** An in-memory POSIX file system *)

Module MemFS.

Inductive node :=
| File (data : string)
| Dir.

(** The world: working directory ([os.getcwd()]), the tree as a map from
    resolved paths (component lists from the root) to nodes, a clock
    counted in poll intervals, and the files the downloading browser will
    have written by the end of each coming sleep. *)
Record t := Build {
  cwd : string;
  nodes : gmap (list string) node;
  clock : Z;
  arrivals : list (list (string * string))
}.

Definition with_nodes (fs : t) (m : gmap (list string) node) : t :=
  Build (cwd fs) m (clock fs) (arrivals fs).

(** One component of path resolution; there are no symbolic links, so
    ".." is the parent of what was resolved so far. *)
Definition step (acc : list string) (c : string) : list string :=
  if String.eqb c "" || String.eqb c "." then acc
  else if String.eqb c ".." then removelast acc
  else acc ++ [c].

Definition normpath (comps : list string) : list string :=
  fold_left step comps [].

(** The components of [os.path.abspath(p)]: [p] is taken from the
    working directory unless it is absolute. *)
Definition resolve (fs : t) (p : string) : list string :=
  normpath (PyStr.split "/" (os_path_join (cwd fs) p)).

(** A proper entry name: not empty, not "." or "..", no separator. *)
Definition plain (c : string) : bool :=
  negb (String.eqb c "") && negb (String.eqb c ".")
  && negb (String.eqb c "..") && negb (PyStr.contains "/" c).

(** The node at a resolved path; the root is always a directory. *)
Definition stat (m : gmap (list string) node) (r : list string)
  : option node :=
  match r with
  | [] => Some Dir
  | _ => m !! r
  end.

Definition isdir (p : string) (fs : t) : bool :=
  match stat (nodes fs) (resolve fs p) with
  | Some Dir => true
  | _ => false
  end.

Definition isfile (p : string) (fs : t) : bool :=
  match stat (nodes fs) (resolve fs p) with
  | Some (File _) => true
  | _ => false
  end.

Definition exists_ (p : string) (fs : t) : bool :=
  match stat (nodes fs) (resolve fs p) with
  | Some _ => true
  | None => false
  end.

Definition enoent (p : string) : string :=
  "[Errno 2] No such file or directory: " ++ PyStr.repr p.
Definition eexist (p : string) : string :=
  "[Errno 17] File exists: " ++ PyStr.repr p.
Definition enotdir (p : string) : string :=
  "[Errno 20] Not a directory: " ++ PyStr.repr p.
Definition eisdir (p : string) : string :=
  "[Errno 21] Is a directory: " ++ PyStr.repr p.

(** Create the directories along [rest] below [pre]; a regular file in
    the way stops it. *)
Fixpoint mkdirs (pre rest : list string) (m : gmap (list string) node)
  : option (gmap (list string) node) :=
  match rest with
  | [] => Some m
  | c :: rest' =>
      let q := pre ++ [c] in
      match m !! q with
      | Some Dir => mkdirs q rest' m
      | Some (File _) => None
      | None => mkdirs q rest' (<[q := Dir]> m)
      end
  end.

(** [os.makedirs(p, exist_ok=True)]: an existing directory is left
    alone; an existing regular file raises [FileExistsError] even with
    [exist_ok]. *)
Definition makedirs (p : string) (fs : t) : fs_result t :=
  let r := resolve fs p in
  match stat (nodes fs) r with
  | Some Dir => Ok fs
  | Some (File _) => Err (eexist p) fs
  | None =>
      match mkdirs [] r (nodes fs) with
      | Some m => Ok (with_nodes fs m)
      | None => Err (enotdir p) fs
      end
  end.

Fixpoint strip_prefix (r k : list string) : option (list string) :=
  match r, k with
  | [], _ => Some k
  | a :: r', b :: k' => if String.eqb a b then strip_prefix r' k' else None
  | _ :: _, [] => None
  end.

(** The name under which [k] is an entry of the directory [r]. *)
Definition child_of (r k : list string) : option string :=
  match strip_prefix r k with
  | Some [n] => Some n
  | _ => None
  end.

Definition children (r : list string) (m : gmap (list string) node)
  : list string :=
  omap (fun kv => child_of r (fst kv)) (map_to_list m).

Definition listdir (p : string) (fs : t) : string + list string :=
  let r := resolve fs p in
  match stat (nodes fs) r with
  | Some Dir => inr (children r (nodes fs))
  | Some (File _) => inl (enotdir p)
  | None => inl (enoent p)
  end.

Definition basename (r : list string) : string := List.last r "".

(** [os.rename] of a directory: every path below [rs] moves below
    [rd]. *)
Definition rekey (rs rd : list string) (m : gmap (list string) node)
  : gmap (list string) node :=
  list_to_map
    (map (fun kv =>
            match strip_prefix rs (fst kv) with
            | Some rest => (rd ++ rest, snd kv)
            | None => kv
            end)
       (map_to_list m)).

(** [shutil.move(src, dst)]: into [dst] when that is a directory, else
    [os.rename], which replaces a regular file at the destination. *)
Definition move (src dst : string) (fs : t) : fs_result t :=
  let m := nodes fs in
  let rs := resolve fs src in
  let rd := resolve fs dst in
  match stat m rs with
  | None => Err (enoent src) fs
  | Some nd =>
      let into := match stat m rd with Some Dir => true | _ => false end in
      let real := if into then rd ++ [basename rs] else rd in
      if into && bool_decide (is_Some (stat m real)) then
        Err ("Destination path " ++ PyStr.repr (os_path_join dst (basename rs))
               ++ " already exists") fs
      else
        match stat m (removelast real) with
        | Some Dir =>
            match nd with
            | File data =>
                Ok (with_nodes fs (<[real := File data]> (delete rs m)))
            | Dir =>
                if bool_decide (is_Some (strip_prefix rs real))
                then Err ("Cannot move a directory " ++ PyStr.repr src
                            ++ " into itself " ++ PyStr.repr dst ++ ".") fs
                else if bool_decide (is_Some (stat m real))
                then Err (enotdir src) fs
                else Ok (with_nodes fs
                           (<[real := Dir]> (rekey rs real (delete rs m))))
            end
        | _ => Err (enoent dst) fs
        end
  end.

(** [os.remove(p)]. *)
Definition remove (p : string) (fs : t) : fs_result t :=
  let r := resolve fs p in
  match stat (nodes fs) r with
  | Some (File _) => Ok (with_nodes fs (delete r (nodes fs)))
  | Some Dir => Err (eisdir p) fs
  | None => Err (enoent p) fs
  end.

(** The browser finishes writing [data] to [p]. *)
Definition write_file (fs : t) (pd : string * string) : t :=
  let r := resolve fs (fst pd) in
  match stat (nodes fs) (removelast r), stat (nodes fs) r with
  | Some Dir, Some Dir => fs
  | Some Dir, _ => with_nodes fs (<[r := File (snd pd)]> (nodes fs))
  | _, _ => fs
  end.

(** [time.sleep(0.2)]: the clock moves on by one poll interval and the
    files that arrived meanwhile are there. *)
Definition sleep (fs : t) : t :=
  match arrivals fs with
  | [] => Build (cwd fs) (nodes fs) (clock fs + 1) []
  | batch :: later =>
      fold_left write_file batch
        (Build (cwd fs) (nodes fs) (clock fs + 1) later)
  end.

#[global] Instance file_system : FileSystem t := {
  os_makedirs := makedirs;
  os_path_isdir := isdir;
  os_path_isfile := isfile;
  os_path_exists := exists_;
  os_listdir := listdir;
  shutil_move := move;
  os_remove := remove;
  time_sleep := sleep;
  datetime_now := clock
}.

End MemFS.

(** ** Helper functions of the statements *)

(** [n] poll intervals added up the way line 167 does it. *)
Fixpoint accumulated (n : nat) : PyFloat.float :=
  match n with
  | O => PyFloat.zero
  | S k => PyFloat.add (accumulated k) PyFloat.poll_interval
  end.

(** The world at the start of pass [k] (the first pass is pass 0): [k]
    sleeps after [w]. *)
Fixpoint world_at {W : Type} `{FileSystem W} (w : W) (k : nat) : W :=
  match k with
  | O => w
  | S k' => world_at (time_sleep w) k'
  end.

(** A pass in world [w] lists the folder and finds no matching file. *)
Definition no_match {W : Type} `{FileSystem W}
    (folder_to_check extension : string) (w : W) : bool :=
  match os_listdir folder_to_check w with
  | inr names =>
      match matching_files folder_to_check extension names w with
      | [] => true
      | _ :: _ => false
      end
  | inl _ => false
  end.

(** The normal form line 94 gives the extension. *)
Definition normalized (extension : string) : string :=
  PyStr.lower (PyStr.lstrip "." extension).

(** The result triple of one matched file, lines 124-138. *)
Definition result_row (folder_storage : string)
    (replace_filename : option string) (path_file_report : string)
    : list string :=
  match PyStr.rsplit1 "." (PyStr.lower path_file_report) with
  | [downloaded_file_name; downloaded_file_extension] =>
      let new_file_name :=
        new_file_name_of replace_filename downloaded_file_name in
      [new_file_name;
       os_path_join folder_storage
         (new_file_name ++ "." ++ downloaded_file_extension);
       downloaded_file_extension]
  | _ => []
  end.

(** The entries a logger holds beyond the [before] it started with. *)
Definition received (before : Logger.t) (after : option Logger.t)
    : list Logger.LogEntry :=
  match after with
  | Some l => drop (length before) l
  | None => []
  end.

Definition error_entries (l : list Logger.LogEntry)
    : list Logger.LogEntry :=
  List.filter Logger.is_error l.

(** The entries the waiter writes on its error paths. *)
Definition move_failure_entry (now : Z) (src cause : string)
    : Logger.LogEntry :=
  {| Logger.timestamp := now; Logger.function := "wait_download_file";
     Logger.message := "Failed to move file " ++ src ++ ": " ++ cause;
     Logger.is_error := true |}.

Definition remove_failure_entry (now : Z) (src cause : string)
    : Logger.LogEntry :=
  {| Logger.timestamp := now; Logger.function := "wait_download_file";
     Logger.message := "Failed to remove file " ++ src ++ ": " ++ cause;
     Logger.is_error := true |}.

Definition timeout_entry (now : Z) (max_waiting_download : Z)
    : Logger.LogEntry :=
  {| Logger.timestamp := now; Logger.function := "wait_download_file";
     Logger.message := "Timeout waiting for download after "
                         ++ PyStr.str_of_int max_waiting_download
                         ++ " seconds";
     Logger.is_error := true |}.

(** The error entries of [l], if any, record failed clean-ups only. *)
Definition only_remove_failures (l : list Logger.LogEntry) : Prop :=
  Forall (fun en => Logger.is_error en = true ->
                    exists now src cause,
                      en = remove_failure_entry now src cause) l.

(** The name passes the suffix test of line 111. *)
Definition matched (extension : string) (f : string) : Prop :=
  PyStr.endswith (PyStr.lower f) ("." ++ extension) = true.

(** Where the matched file [f] is moved to: the second component of its
    result triple. *)
Definition output_path (folder_storage : string)
    (replace_filename : option string) (f : string) : string :=
  List.nth 1 (result_row folder_storage replace_filename f) "".

(** The reading of "every raising run leaves exactly one error entry":
    the run [r], started with the logger [before], raised and the entries
    it added hold exactly one error entry. *)
Definition logs_one_error_on_raise {W : Type} (before : Logger.t)
    (r : run W) : Prop :=
  (exists e, result r = Raise e) ->
  length (error_entries (received before (final_logger r))) = 1%nat.

(** ** A provider whose mover copies *)

(** The provider the check of line 149 is written for: [move] copies the
    file and leaves the source behind, and a read-only disk refuses to
    delete it. *)
Module CopyFS.

Record t := Build {
  disk : MemFS.t;
  read_only : bool
}.

Definition lift (op : MemFS.t -> fs_result MemFS.t) (w : t)
  : fs_result t :=
  match op (disk w) with
  | Ok d => Ok (Build d (read_only w))
  | Err e d => Err e (Build d (read_only w))
  end.

Definition move (src dst : string) (w : t) : fs_result t :=
  let d := disk w in
  match MemFS.stat (MemFS.nodes d) (MemFS.resolve d src) with
  | Some (MemFS.File data) =>
      Ok (Build (MemFS.write_file d (dst, data)) (read_only w))
  | _ => Err (MemFS.enoent src) w
  end.

Definition remove (p : string) (w : t) : fs_result t :=
  if read_only w
  then Err ("[Errno 13] Permission denied: " ++ PyStr.repr p) w
  else lift (MemFS.remove p) w.

#[global] Instance file_system : FileSystem t := {
  os_makedirs p := lift (MemFS.makedirs p);
  os_path_isdir p w := MemFS.isdir p (disk w);
  os_path_isfile p w := MemFS.isfile p (disk w);
  os_path_exists p w := MemFS.exists_ p (disk w);
  os_listdir p w := MemFS.listdir p (disk w);
  shutil_move := move;
  os_remove := remove;
  time_sleep w := Build (MemFS.sleep (disk w)) (read_only w);
  datetime_now w := MemFS.clock (disk w)
}.

End CopyFS.

(** ** Worlds used as examples *)

Module Examples.
Import MemFS.

(** /home/downloads holds the single file report.PDF. *)
Definition home_fs : MemFS.t :=
  Build "/home"
    (list_to_map
       [(["home"], Dir);
        (["home"; "downloads"], Dir);
        (["home"; "downloads"; "report.PDF"], File "%PDF-1.7")])
    0 [].

(** Both folders exist and nothing is ever downloaded. *)
Definition idle_fs : MemFS.t :=
  Build "/home"
    (list_to_map
       [(["home"], Dir);
        (["home"; "downloads"], Dir);
        (["home"; "storage"], Dir)])
    0 [].

(** Two files of the same extension wait in /home/downloads. *)
Definition csv_fs : MemFS.t :=
  Build "/home"
    (list_to_map
       [(["home"], Dir);
        (["home"; "downloads"], Dir);
        (["home"; "downloads"; "a.csv"], File "alpha");
        (["home"; "downloads"; "b.csv"], File "beta")])
    0 [].

(** One csv file waits in /home/downloads. *)
Definition one_csv_fs : MemFS.t :=
  Build "/home"
    (list_to_map
       [(["home"], Dir);
        (["home"; "downloads"], Dir);
        (["home"; "downloads"; "a.csv"], File "alpha")])
    0 [].

(** "downloads" is a regular file. *)
Definition blocked_fs : MemFS.t :=
  Build "/home"
    (list_to_map
       [(["home"], Dir);
        (["home"; "downloads"], File "not a folder")])
    0 [].

(** The destination of b.csv, the first file listed, is a directory that
    already holds an entry of that name, so [shutil.move] refuses. *)
Definition clash_fs : MemFS.t :=
  Build "/home"
    (list_to_map
       [(["home"], Dir);
        (["home"; "downloads"], Dir);
        (["home"; "downloads"; "a.csv"], File "alpha");
        (["home"; "downloads"; "b.csv"], File "beta");
        (["home"; "storage"], Dir);
        (["home"; "storage"; "b.csv"], Dir);
        (["home"; "storage"; "b.csv"; "b.csv"], File "old")])
    0 [].

(** The copying provider on a read-only disk. *)
Definition sticky_fs : CopyFS.t :=
  CopyFS.Build
    (Build "/home"
       (list_to_map
          [(["home"], Dir);
           (["home"; "downloads"], Dir);
           (["home"; "downloads"; "a.csv"], File "alpha");
           (["home"; "storage"], Dir)])
       0 [])
    true.

(** The file report.pdf is written during the second sleep. *)
Definition late_fs : MemFS.t :=
  Build "/home"
    (list_to_map
       [(["home"], Dir);
        (["home"; "downloads"], Dir)])
    0 [[]; [("downloads/report.pdf", "%PDF-1.7")]].

(** The name the download would get in /home/storage is taken by a
    directory. *)
Definition taken_fs : MemFS.t :=
  Build "/home"
    (list_to_map
       [(["home"], Dir);
        (["home"; "downloads"], Dir);
        (["home"; "downloads"; "report.PDF"], File "%PDF-1.7");
        (["home"; "storage"], Dir);
        (["home"; "storage"; "report.pdf"], Dir)])
    0 [].

End Examples.

(** ** posixpath.normpath and abspath *)

Module PyPath.

(** The leading slashes [normpath] keeps: none, one, or exactly two. *)
Definition initial_slashes (path : string) : nat :=
  if PyStr.startswith path "/" then
    if PyStr.startswith path "//" && negb (PyStr.startswith path "///")
    then 2 else 1
  else 0.

(** One turn of the loop over the components in [normpath]. *)
Definition normpath_step (slashes : nat) (new_comps : list string)
    (comp : string) : list string :=
  if String.eqb comp "" || String.eqb comp "." then new_comps
  else if negb (String.eqb comp "..")
          || (Nat.eqb slashes 0
              && match new_comps with [] => true | _ => false end)
          || match new_comps with
             | [] => false
             | _ => String.eqb (List.last new_comps "") ".."
             end
       then new_comps ++ [comp]
       else match new_comps with
            | [] => new_comps
            | _ => removelast new_comps
            end.

Fixpoint slashes_string (n : nat) : string :=
  match n with
  | O => ""
  | S k => String "/" (slashes_string k)
  end.

(** [os.path.normpath(path)]. *)
Definition normpath (path : string) : string :=
  if String.eqb path "" then "."
  else
    let slashes := initial_slashes path in
    let comps :=
      fold_left (normpath_step slashes) (PyStr.split "/" path) [] in
    let path' := (slashes_string slashes ++ PyStr.join "/" comps)%string in
    if String.eqb path' "" then "." else path'.

(** [os.path.abspath(path)], given [os.getcwd()]. *)
Definition abspath (cwd path : string) : string :=
  if os_path_isabs path then normpath path
  else normpath (os_path_join cwd path).

End PyPath.

(** ** The rest of the host *)

(** What the browser functions ask of the operating system beyond the
    file-system provider. *)
Class OsHost (W : Type) := {
  os_getcwd : W -> string;
  (** [os.access(path, os.W_OK)] *)
  os_access_w_ok : string -> W -> bool
}.

(** [os.path.abspath(path)] in the world [w]. *)
Definition os_path_abspath {W : Type} `{OsHost W} (path : string) (w : W)
    : string :=
  PyPath.abspath (os_getcwd w) path.

(** What the functions of this file raise besides the exceptions of the
    waiter: a plain [Exception]. *)
Inductive py_error :=
| Builtin (e : exn)
| Exception (msg : string).

(** ** enable_download_headless *)

(** The [params] dictionary of lines 50-53. *)
Record send_command_params := {
  cmd : string;
  behavior : string;
  downloadPath : string
}.

(** The two things the function does to the browser; each may raise, and
    the text of what it raised is kept. *)
Class WebDriver (B : Type) := {
  (** [browser.command_executor._commands[name] = (method, url)] *)
  set_command : string -> string * string -> B -> fs_result B;
  (** [browser.execute(name, params)] *)
  execute : string -> send_command_params -> B -> fs_result B
}.

(** How a call of [enable_download_headless] ends; [None] in [hr_raised]
    is the normal return. *)
Record headless_run (W B : Type) := HeadlessRun {
  hr_world : W;
  hr_browser : B;
  hr_logger : option Logger.t;
  hr_raised : option py_error
}.
Arguments HeadlessRun {W B} _ _ _ _.
Arguments hr_world {W B} _.
Arguments hr_browser {W B} _.
Arguments hr_logger {W B} _.
Arguments hr_raised {W B} _.

Section Headless.
Context {W B : Type} `{FileSystem W} `{OsHost W} `{WebDriver B}.

(** [enable_download_headless], lines 14-60. *)
Definition enable_download_headless (browser : B) (download_dir : string)
    (logger : option Logger.t) (w : W) : headless_run W B :=
  if String.eqb download_dir "" then
    HeadlessRun w browser logger
      (Some (Builtin (ValueError "Download directory cannot be empty")))
  else
    match os_makedirs download_dir w with
    | Err e w1 =>
        HeadlessRun w1 browser logger
          (Some (Builtin
                   (OSError ("Failed to create download directory '"
                               ++ download_dir ++ "': " ++ e))))
    | Ok w1 =>
        if negb (os_path_isdir download_dir w1) then
          HeadlessRun w1 browser logger
            (Some (Builtin
                     (ValueError ("'" ++ download_dir
                                    ++ "' is not a directory"))))
        else
          match set_command "send_command"
                  ("POST", "/session/$sessionId/chromium/send_command")
                  browser with
          | Err e b1 =>
              HeadlessRun w1 b1 logger
                (Some (Exception
                         ("Failed to configure browser for downloads: "
                            ++ e)))
          | Ok b1 =>
              let params :=
                {| cmd := "Page.setDownloadBehavior";
                   behavior := "allow";
                   downloadPath := os_path_abspath download_dir w1 |} in
              match execute "send_command" params b1 with
              | Err e b2 =>
                  HeadlessRun w1 b2 logger
                    (Some (Exception
                             ("Failed to configure browser for downloads: "
                                ++ e)))
              | Ok b2 =>
                  HeadlessRun w1 b2
                    (log_if logger w1 "enable_download_headless"
                       ("Enabled downloads to " ++ download_dir) false)
                    None
              end
          end
    end.

End Headless.

(** ** create_chrome_driver *)

(** The [prefs] dictionary of lines 265-272. *)
Record Prefs := {
  download_default_directory : string;
  download_prompt_for_download : bool;
  download_directory_upgrade : bool;
  profile_default_content_settings_popups : bool;
  plugins_always_open_pdf_externally : bool;
  pdfjs_disabled : bool
}.

(** The values handed to [add_experimental_option]. *)
Inductive option_value :=
| OptStrings (l : list string)
| OptPrefs (p : Prefs)
| OptBool (b : bool).

(** Selenium's [Options]: the argument list and the dictionary of
    experimental options. *)
Record Options := {
  arguments : list string;
  experimental_options : gmap string option_value
}.

(** [Options()] *)
Definition new_options : Options :=
  {| arguments := []; experimental_options := ∅ |}.

(** [options.add_argument(a)] for a non-empty [a]. *)
Definition add_argument (a : string) (o : Options) : Options :=
  {| arguments := arguments o ++ [a];
     experimental_options := experimental_options o |}.

(** [options.add_experimental_option(name, value)] *)
Definition add_experimental_option (name : string) (v : option_value)
    (o : Options) : Options :=
  {| arguments := arguments o;
     experimental_options := <[name := v]> (experimental_options o) |}.

(** Consecutive [add_argument] calls. *)
Definition add_arguments (l : list string) (o : Options) : Options :=
  fold_left (fun o a => add_argument a o) l o.

(** Lines 259-262: the origin Chrome is told to trust. *)
Definition origin_of (domain : string) : string :=
  if PyStr.startswith domain "http://" || PyStr.startswith domain "https://"
  then domain
  else "http://" ++ domain.

(** The flag of line 263. *)
Definition origin_flag (domain : string) : string :=
  "--unsafely-treat-insecure-origin-as-secure=" ++ origin_of domain.

(** The arguments added unconditionally, lines 218-240. *)
Definition base_arguments : list string :=
  ["--start-maximized"; "--window-size=1920x1080"; "--kiosk-printing";
   "--no-sandbox"; "--disable-dev-shm-usage"; "--disable-gpu";
   "--disable-software-rasterizer";
   "--disable-extensions"; "--disable-popup-blocking";
   "--no-default-browser-check"; "--no-first-run";
   "--disable-notifications"; "--disable-default-apps";
   "--disable-background-networking"; "--disable-sync";
   "--disable-translate";
   "--disable-blink-features=AutomationControlled"].

(** The arguments of lines 250-255. *)
Definition web_security_arguments : list string :=
  ["--disable-web-security"; "--allow-running-insecure-content";
   "--ignore-certificate-errors"; "--allow-insecure-localhost";
   "--disable-client-side-phishing-detection";
   "--disable-features=BlockInsecurePrivateNetworkRequests"].

(** Lines 216-274: the options, given the absolute download directory
    that line 266 computes. *)
Definition chrome_options_of (abs_download_dir : string)
    (headless disable_web_security : bool)
    (domain_skip_security : option (list string))
    (enable_incognito : bool) : Options :=
  let o := add_arguments base_arguments new_options in
  let o :=
    add_experimental_option "excludeSwitches"
      (OptStrings ["enable-logging"]) o in
  let o := if enable_incognito then add_argument "--incognito" o else o in
  let o := if headless then add_argument "--headless=new" o else o in
  let o :=
    if disable_web_security then
      let o := add_arguments web_security_arguments o in
      match domain_skip_security with
      | Some ((_ :: _) as domains) =>
          fold_left (fun o domain => add_argument (origin_flag domain) o)
            domains o
      | _ => o
      end
    else o in
  let prefs :=
    {| download_default_directory := abs_download_dir;
       download_prompt_for_download := false;
       download_directory_upgrade := true;
       profile_default_content_settings_popups := false;
       plugins_always_open_pdf_externally := true;
       pdfjs_disabled := true |} in
  let o := add_experimental_option "prefs" (OptPrefs prefs) o in
  add_experimental_option "useAutomationExtension" (OptBool false) o.

(** The two collaborators of [create_chrome_driver] that are not part of
    the sources: [file_utils.clear_folder], and the start of the driver
    ([Service(ChromeDriverManager().install())] followed by
    [webdriver.Chrome(service=..., options=...)]), which yields the driver
    or the text of the exception. *)
Class ChromeHost (W D : Type) := {
  clear_folder : string -> bool -> W -> option py_error * W;
  webdriver_chrome : Options -> W -> (string + D) * W
}.

(** How a call of [create_chrome_driver] ends. *)
Record driver_run (W D : Type) := DriverRun {
  dr_world : W;
  dr_logger : option Logger.t;
  dr_result : py_error + D
}.
Arguments DriverRun {W D} _ _ _.
Arguments dr_world {W D} _.
Arguments dr_logger {W D} _.
Arguments dr_result {W D} _.

Section Driver.
Context {W D : Type} `{FileSystem W} `{OsHost W} `{ChromeHost W D}.

(** The directory of lines 208-209. *)
Definition download_dir_of (download_dir : option string) (w : W)
    : string :=
  match download_dir with
  | None => os_path_join (os_path_join (os_getcwd w) "data") "download"
  | Some d => d
  end.

(** [create_chrome_driver], lines 179-295. *)
Definition create_chrome_driver (download_dir : option string)
    (headless clear_download_dir disable_web_security : bool)
    (domain_skip_security : option (list string))
    (enable_incognito : bool) (logger : option Logger.t) (w : W)
    : driver_run W D :=
  let download_dir := download_dir_of download_dir w in
  match clear_folder download_dir clear_download_dir w with
  | (Some e, w1) => DriverRun w1 logger (inl e)
  | (None, w1) =>
      if negb (os_access_w_ok download_dir w1) then
        DriverRun w1 logger
          (inl (Builtin (OSError ("Download directory '" ++ download_dir
                                    ++ "' is not writable"))))
      else
        let chrome_options :=
          chrome_options_of (os_path_abspath download_dir w1) headless
            disable_web_security domain_skip_security enable_incognito in
        match webdriver_chrome chrome_options w1 with
        | (inr driver, w2) =>
            DriverRun w2
              (log_if logger w2 "create_chrome_driver"
                 ("Created Chrome WebDriver with download directory "
                    ++ download_dir) false)
              (inr driver)
        | (inl ex, w2) =>
            DriverRun w2
              (log_if logger w2 "create_chrome_driver"
                 ("Failed to create Chrome WebDriver: " ++ ex) true)
              (inl (Exception
                      ("Failed to create Chrome WebDriver: " ++ ex)))
        end
  end.

End Driver.

(** ** The in-memory host *)

Module MemHost.

(** [open(p).read()]: the contents of the regular file at [p]. *)
Definition read_file (p : string) (fs : MemFS.t) : option string :=
  match MemFS.stat (MemFS.nodes fs) (MemFS.resolve fs p) with
  | Some (MemFS.File data) => Some data
  | _ => None
  end.

(** The in-memory file system has no permissions: whatever exists can be
    written. *)
#[global] Instance os_host : OsHost MemFS.t := {
  os_getcwd := MemFS.cwd;
  os_access_w_ok := MemFS.exists_
}.

(** A browser in the manner of the test suite's [Mock]: it records the
    registered commands and the executed calls, and refuses [execute]
    with the text in [refuses], when there is one. *)
Record browser := Browser {
  commands : gmap string (string * string);
  executed : list (string * send_command_params);
  refuses : option string
}.

#[global] Instance web_driver : WebDriver browser := {
  set_command name c b :=
    Ok (Browser (<[name := c]> (commands b)) (executed b) (refuses b));
  execute name params b :=
    match refuses b with
    | Some e => Err e b
    | None =>
        Ok (Browser (commands b) (executed b ++ [(name, params)])
              (refuses b))
    end
}.

(** A stand-in for the two absent collaborators: [clear_folder] only
    makes sure the folder exists, and the driver (here: the arguments it
    was started with) starts when a chromedriver binary is installed at
    /usr/bin/chromedriver. *)
#[global] Instance chrome_host : ChromeHost MemFS.t (list string) := {
  clear_folder path clear_files fs :=
    match MemFS.makedirs path fs with
    | Ok fs1 => (None, fs1)
    | Err e fs1 => (Some (Builtin (OSError e)), fs1)
    end;
  webdriver_chrome o fs :=
    if MemFS.isfile "/usr/bin/chromedriver" fs
    then (inr (arguments o), fs)
    else (inl "chromedriver not found", fs)
}.

(** A blank browser. *)
Definition blank : browser := Browser ∅ [] None.

(** A browser that refuses every command. *)
Definition broken : browser := Browser ∅ [] (Some "session not created").

(** /home/downloads exists and chromedriver is installed. *)
Definition driver_fs : MemFS.t :=
  MemFS.Build "/home"
    (list_to_map
       [(["home"], MemFS.Dir);
        (["home"; "downloads"], MemFS.Dir);
        (["usr"], MemFS.Dir);
        (["usr"; "bin"], MemFS.Dir);
        (["usr"; "bin"; "chromedriver"], MemFS.File "ELF")])
    0 [].

End MemHost.

(** ** Helper functions of the further statements *)

(** The entry was written under the waiter's name. *)
Definition by_waiter (en : Logger.LogEntry) : Prop :=
  Logger.function en = "wait_download_file".

(** The entries of a successful pass. *)
Definition found_entry (now : Z) (names : list string) : Logger.LogEntry :=
  {| Logger.timestamp := now; Logger.function := "wait_download_file";
     Logger.message := "Found downloaded files: " ++ PyStr.repr_list names;
     Logger.is_error := false |}.

Definition moved_entry (now : Z) (src dst : string) : Logger.LogEntry :=
  {| Logger.timestamp := now; Logger.function := "wait_download_file";
     Logger.message := "Moved file from " ++ src ++ " to " ++ dst;
     Logger.is_error := false |}.

Definition removed_entry (now : Z) (src : string) : Logger.LogEntry :=
  {| Logger.timestamp := now; Logger.function := "wait_download_file";
     Logger.message := "Removed file: " ++ src;
     Logger.is_error := false |}.

(** The log of a pass over [files] that went through: per file, in
    order, its "Moved" entry, followed by at most one entry about the
    clean-up of its source. *)
Inductive pass_log (folder_to_check folder_storage : string)
    (replace_filename : option string)
    : list string -> list Logger.LogEntry -> Prop :=
| pass_log_nil :
    pass_log folder_to_check folder_storage replace_filename [] []
| pass_log_moved f files now l :
    pass_log folder_to_check folder_storage replace_filename files l ->
    pass_log folder_to_check folder_storage replace_filename (f :: files)
      (moved_entry now (os_path_join folder_to_check f)
         (output_path folder_storage replace_filename f) :: l)
| pass_log_cleaned f files now now' cleanup l :
    cleanup = removed_entry now' (os_path_join folder_to_check f)
    \/ (exists cause,
          cleanup = remove_failure_entry now'
                      (os_path_join folder_to_check f) cause) ->
    pass_log folder_to_check folder_storage replace_filename files l ->
    pass_log folder_to_check folder_storage replace_filename (f :: files)
      (moved_entry now (os_path_join folder_to_check f)
         (output_path folder_storage replace_filename f)
       :: cleanup :: l).

(** The file name a matched file gets in the storage folder, lines
    124-127. *)
Definition output_name (replace_filename : option string)
    (path_file_report : string) : string :=
  match PyStr.rsplit1 "." (PyStr.lower path_file_report) with
  | [downloaded_file_name; downloaded_file_extension] =>
      new_file_name_of replace_filename downloaded_file_name
        ++ "." ++ downloaded_file_extension
  | _ => ""
  end.

(** The accumulated times after passes 0, 1, ..., [n - 1], continuing
    from [waiting_time]. *)
Fixpoint waiting_times (n : nat) (waiting_time : PyFloat.float)
    : list PyFloat.float :=
  match n with
  | O => []
  | S k =>
      let t := PyFloat.add waiting_time PyFloat.poll_interval in
      t :: waiting_times k t
  end.

(** The index of the first time of [times] that has reached the limit. *)
Fixpoint first_reached (max_waiting_download : Z)
    (times : list PyFloat.float) : option nat :=
  match times with
  | [] => None
  | t :: times' =>
      if PyFloat.ge_int t max_waiting_download then Some O
      else option_map S (first_reached max_waiting_download times')
  end.

(** The limits 1..[n] all time out after 5 x limit or 5 x limit + 1
    passes. *)
Definition passes_within_one (times : list PyFloat.float) (n : nat)
    : bool :=
  forallb
    (fun m =>
       match first_reached (Z.of_nat m) times with
       | Some j => Nat.eqb (S j) (5 * m) || Nat.eqb (S j) (5 * m + 1)
       | None => false
       end)
    (seq 1 n).

(** The origin carries a scheme, the test of line 259. *)
Definition has_scheme (origin : string) : bool :=
  PyStr.startswith origin "http://" || PyStr.startswith origin "https://".

(** The argument is a flag of line 263. *)
Definition is_origin_flag (a : string) : bool :=
  PyStr.startswith a "--unsafely-treat-insecure-origin-as-secure=".

(** The argument [a] is on the command line of [o]. *)
Definition has_argument (a : string) (o : Options) : bool :=
  existsb (String.eqb a) (arguments o).

(** ** The moves of a pass *)

(** No component of [p] is "." or "..": such a path names the same entry
    whether it is resolved by name, as the in-memory file system does, or
    by walking the tree, as the operating system does. *)
Definition dotless (p : string) : bool :=
  forallb (fun c => negb (String.eqb c ".") && negb (String.eqb c ".."))
    (PyStr.split "/" p).

(** The way a file is named: not by the empty path, with no "." or ".."
    component and no trailing separator. *)
Definition file_path (p : string) : bool :=
  negb (String.eqb p "") && dotless p && negb (PyStr.endswith p "/").

(** The world the clean-up of lines 148-163 leaves behind: the source is
    removed when it still exists, and a failure of [os.remove] is
    swallowed. *)
Definition after_cleanup {W : Type} `{FileSystem W} (src : string) (w1 : W)
    : W :=
  if os_path_exists src w1 then
    match os_remove src w1 with
    | Ok w2 => w2
    | Err _ w2 => w2
    end
  else w1.

(** The moves of a pass over [files] that went through, from the world
    [w] to the world [w']: file by file, [shutil.move] was called with
    the source path and the output path of the file, the second
    component of its triple, and returned. *)
Inductive pass_moves {W : Type} `{FileSystem W}
    (folder_to_check folder_storage : string)
    (replace_filename : option string) : list string -> W -> W -> Prop :=
| pass_moves_nil w :
    pass_moves folder_to_check folder_storage replace_filename [] w w
| pass_moves_cons f files w w1 w' :
    shutil_move (os_path_join folder_to_check f)
      (output_path folder_storage replace_filename f) w = Ok w1 ->
    pass_moves folder_to_check folder_storage replace_filename files
      (after_cleanup (os_path_join folder_to_check f) w1) w' ->
    pass_moves folder_to_check folder_storage replace_filename
      (f :: files) w w'.

(** What a pass that sends several files to the one destination [dst]
    needs of each file [f], in the in-memory file system: a proper name
    that matches the extension and is sent to [dst], a regular file in the
    watched folder, and not [dst] itself. *)
Definition file_to_overwrite (watchDir storageDir : string)
    (replace_filename : option string) (extension dst : string)
    (fs : MemFS.t) (f : string) : Prop :=
  MemFS.plain f = true
  /\ matched extension f
  /\ output_path storageDir replace_filename f = dst
  /\ MemFS.isfile (os_path_join watchDir f) fs = true
  /\ MemFS.resolve fs (os_path_join watchDir f) <> MemFS.resolve fs dst.
(** ** String facts *)

Section StringFacts.

Lemma lower_ascii_dot c :
  Ascii.eqb (PyStr.lower_ascii c) "." = Ascii.eqb c ".".
Proof.
  destruct c as [[] [] [] [] [] [] [] []]; vm_compute; reflexivity.
Qed.

Lemma lower_lstrip s :
  PyStr.lower (PyStr.lstrip "." s) = PyStr.lstrip "." (PyStr.lower s).
Proof.
  induction s as [|c s IH]; simpl; [reflexivity|].
  rewrite lower_ascii_dot. destruct (Ascii.eqb c "."); [exact IH|].
  reflexivity.
Qed.

Lemma eqb_empty_false s : s <> "" -> String.eqb s "" = false.
Proof. intros Hs. apply String.eqb_neq. exact Hs. Qed.

Lemma rcut_some sep s a b :
  PyStr.rcut sep s = Some (a, b) ->
  s = (a ++ String sep b)%string /\ PyStr.rcut sep b = None.
Proof.
  revert a b. induction s as [|c s IH]; intros a b; simpl; [discriminate|].
  destruct (PyStr.rcut sep s) as [[a' b']|] eqn:E.
  - intros [= <- <-]. destruct (IH _ _ eq_refl) as [-> Hb].
    split; [reflexivity | exact Hb].
  - destruct (Ascii.eqb c sep) eqn:Ec; [|discriminate].
    intros [= <- <-]. apply Ascii.eqb_eq in Ec. subst c.
    split; [reflexivity | exact E].
Qed.

Lemma rcut_none sep s :
  PyStr.rcut sep s = None -> PyStr.contains sep s = false.
Proof.
  unfold PyStr.contains.
  induction s as [|c s IH]; simpl; [reflexivity|].
  destruct (PyStr.rcut sep s) as [[a b]|]; [discriminate|].
  destruct (Ascii.eqb c sep) eqn:Ec; [discriminate|].
  intros _. rewrite Ascii.eqb_sym, Ec. simpl. apply IH. reflexivity.
Qed.

Lemma rcut_head sep s : is_Some (PyStr.rcut sep (String sep s)).
Proof.
  simpl. destruct (PyStr.rcut sep s) as [[a b]|]; [eauto|].
  rewrite Ascii.eqb_refl. eauto.
Qed.

Lemma endswith_unfold s suf :
  PyStr.endswith s suf =
  if String.eqb s suf then true
  else match s with
       | EmptyString => false
       | String _ s' => PyStr.endswith s' suf
       end.
Proof. destruct s; reflexivity. Qed.

Lemma rcut_cons sep c s :
  PyStr.rcut sep (String c s) =
  match PyStr.rcut sep s with
  | Some (a, b) => Some (String c a, b)
  | None => if Ascii.eqb c sep then Some (EmptyString, s) else None
  end.
Proof. reflexivity. Qed.

Lemma endswith_rcut sep s e :
  PyStr.endswith s (String sep e) = true -> is_Some (PyStr.rcut sep s).
Proof.
  induction s as [|c s IH]; rewrite endswith_unfold.
  - simpl. discriminate.
  - destruct (String.eqb (String c s) (String sep e)) eqn:E.
    + apply String.eqb_eq in E. injection E as -> ->. intros _.
      apply rcut_head.
    + intros Hs. destruct (IH Hs) as [[a b] Hab].
      rewrite rcut_cons, Hab. eauto.
Qed.

(** A name that passed the filter splits into exactly two pieces. *)
Lemma matched_rsplit1 f extension :
  PyStr.endswith (PyStr.lower f) ("." ++ extension) = true ->
  exists name ext,
    PyStr.rsplit1 "." (PyStr.lower f) = [name; ext]
    /\ PyStr.lower f = (name ++ "." ++ ext)%string
    /\ PyStr.contains "." ext = false.
Proof.
  intros Hm. destruct (endswith_rcut _ _ _ Hm) as [[a b] Hab].
  exists a, b. unfold PyStr.rsplit1. rewrite Hab.
  destruct (rcut_some _ _ _ _ Hab) as [Hs Hb].
  split; [reflexivity|]. split; [exact Hs|]. apply rcut_none, Hb.
Qed.

Lemma startswith_nil s : PyStr.startswith s "" = true.
Proof. destruct s; reflexivity. Qed.

Lemma isabs_join a b :
  os_path_isabs (os_path_join a b) = os_path_isabs b || os_path_isabs a.
Proof.
  unfold os_path_isabs, os_path_join.
  destruct (PyStr.startswith b "/") eqn:Eb; [rewrite Eb; reflexivity|].
  simpl. destruct a as [|c a].
  - simpl. exact Eb.
  - destruct (String.eqb (String c a) "" || PyStr.endswith (String c a) "/");
      simpl; rewrite !startswith_nil; reflexivity.
Qed.

End StringFacts.

Section MoreStringFacts.

Lemma endswith_app s suf :
  PyStr.endswith s suf = true -> exists pre, s = (pre ++ suf)%string.
Proof.
  induction s as [|c s IH]; rewrite endswith_unfold.
  - destruct (String.eqb "" suf) eqn:E; [|discriminate].
    apply String.eqb_eq in E. subst suf. exists "". reflexivity.
  - destruct (String.eqb (String c s) suf) eqn:E.
    + apply String.eqb_eq in E. subst suf. exists "". reflexivity.
    + intros Hs. destruct (IH Hs) as [pre ->].
      exists (String c pre). reflexivity.
Qed.

Lemma rcut_app sep pre e :
  PyStr.rcut sep e = None ->
  PyStr.rcut sep (pre ++ String sep e) = Some (pre, e).
Proof.
  intros He. induction pre as [|c pre IH].
  - simpl. rewrite He, Ascii.eqb_refl. reflexivity.
  - change (String c pre ++ String sep e)%string
      with (String c (pre ++ String sep e)).
    rewrite rcut_cons, IH. reflexivity.
Qed.

Lemma contains_rcut sep s :
  PyStr.contains sep s = false -> PyStr.rcut sep s = None.
Proof.
  unfold PyStr.contains. induction s as [|c s IH]; [reflexivity|].
  simpl. intros Hc. apply orb_false_elim in Hc. destruct Hc as [Hc Hs].
  rewrite (IH Hs), Ascii.eqb_sym, Hc. reflexivity.
Qed.

(** The triple of a matched file, spelled out. *)
Lemma result_row_matched folder_storage replace_filename extension f :
  matched extension f ->
  exists base e,
    PyStr.lower f = (base ++ "." ++ e)%string
    /\ PyStr.contains "." e = false
    /\ result_row folder_storage replace_filename f
       = [new_file_name_of replace_filename base;
          os_path_join folder_storage
            (new_file_name_of replace_filename base ++ "." ++ e);
          e].
Proof.
  intros Hf. destruct (matched_rsplit1 _ _ Hf) as (a & b & Hab & Hl & Hb).
  exists a, b. split; [exact Hl|]. split; [exact Hb|].
  unfold result_row. rewrite Hab. reflexivity.
Qed.

(** With a dot-free extension the last piece is the extension itself. *)
Lemma result_row_plain folder_storage replace_filename extension f :
  PyStr.contains "." extension = false ->
  matched extension f ->
  exists base,
    PyStr.lower f = (base ++ "." ++ extension)%string
    /\ result_row folder_storage replace_filename f
       = [new_file_name_of replace_filename base;
          os_path_join folder_storage
            (new_file_name_of replace_filename base ++ "." ++ extension);
          extension].
Proof.
  intros He Hf. destruct (endswith_app _ _ Hf) as [pre Hpre].
  exists pre. split; [exact Hpre|].
  unfold result_row, PyStr.rsplit1. rewrite Hpre.
  change (pre ++ "." ++ extension)%string
    with (pre ++ String "." extension)%string.
  rewrite rcut_app by (apply contains_rcut, He). reflexivity.
Qed.

Lemma isabs_name_dot name e :
  os_path_isabs (name ++ "." ++ e) = os_path_isabs name.
Proof.
  unfold os_path_isabs. destruct name as [|c name]; simpl;
    rewrite ?startswith_nil; reflexivity.
Qed.

End MoreStringFacts.

(** ** The processing pass *)

Section ProcessFacts.
Context {W : Type} `{FileSystem W}.
Variables (folder_to_check folder_storage : string).
Variable (replace_filename : option string).

Local Abbreviation process :=
  (process_files folder_to_check folder_storage replace_filename).
Local Abbreviation row := (result_row folder_storage replace_filename).

Lemma log_if_some l w fn msg err :
  log_if (Some l) w fn msg err =
  Some (l ++ [ {| Logger.timestamp := datetime_now w;
                  Logger.function := fn;
                  Logger.message := msg;
                  Logger.is_error := err |} ]).
Proof. reflexivity. Qed.

(** A pass that returns has appended one triple per file, in order. *)
Lemma process_files_return files : forall w logger out r out',
  process files w logger out = r ->
  result r = Return out' ->
  out' = out ++ map row files.
Proof.
  induction files as [|f rest IH]; intros w logger out r out' <-.
  - simpl. intros [= <-]. rewrite app_nil_r. reflexivity.
  - cbn [process_files map]. unfold result_row at 1.
    destruct (PyStr.rsplit1 "." (PyStr.lower f)) as [|a [|b [|c l]]];
      try (simpl; discriminate).
    destruct (shutil_move _ _ w) as [w1|e w1]; [|simpl; discriminate].
    destruct (os_path_exists _ w1).
    + destruct (os_remove _ w1) as [w2|e w2]; intros Hr;
        rewrite (IH _ _ _ _ _ eq_refl Hr), <- app_assoc; reflexivity.
    + intros Hr.
      rewrite (IH _ _ _ _ _ eq_refl Hr), <- app_assoc; reflexivity.
Qed.

(** A pass over matched files can only raise through a failed move, and
    then its last log entry records that move. *)
Lemma process_files_raise extension files : forall w l out r e,
  Forall (matched extension) files ->
  process files w (Some l) out = r ->
  result r = Raise e ->
  exists pre f w0 w1 cause,
    In f files
    /\ shutil_move (os_path_join folder_to_check f)
         (output_path folder_storage replace_filename f) w0 = Err cause w1
    /\ e = OSError cause
    /\ final_world r = w1
    /\ final_logger r =
         Some (l ++ pre ++ [move_failure_entry (datetime_now w1)
                              (os_path_join folder_to_check f) cause])
    /\ only_remove_failures pre.
Proof.
  induction files as [|f rest IH]; intros w l out r e HF <-.
  - simpl. discriminate.
  - inversion HF as [|? ? Hf HF']; subst.
    destruct (matched_rsplit1 _ _ Hf) as (a & b & Hab & _).
    cbn [process_files]. unfold output_path, result_row. rewrite Hab.
    destruct (shutil_move _ _ w) as [w1|c w1] eqn:Hmv.
    + destruct (os_path_exists _ w1).
      * destruct (os_remove _ w1) as [w2|c w2]; rewrite !log_if_some;
          intros Hr;
          destruct (IH _ _ _ _ _ HF' eq_refl Hr)
            as (pre & f' & w0 & w1' & cause & Hin & Hm & He & Hw & Hl & Hp);
          eexists (_ :: _ :: pre), f', w0, w1', cause;
          (split; [right; exact Hin|]); (split; [exact Hm|]);
          (split; [exact He|]); (split; [exact Hw|]);
          (split; [etransitivity; [exact Hl|]; rewrite <- !app_assoc;
                   reflexivity|]);
          repeat constructor; try exact Hp; simpl; try discriminate.
        intros _. eexists _, _, _. reflexivity.
      * rewrite !log_if_some; intros Hr;
          destruct (IH _ _ _ _ _ HF' eq_refl Hr)
            as (pre & f' & w0 & w1' & cause & Hin & Hm & He & Hw & Hl & Hp);
          eexists (_ :: pre), f', w0, w1', cause;
          (split; [right; exact Hin|]); (split; [exact Hm|]);
          (split; [exact He|]); (split; [exact Hw|]);
          (split; [etransitivity; [exact Hl|]; rewrite <- !app_assoc;
                   reflexivity|]);
          repeat constructor; try exact Hp; simpl; try discriminate.
    + simpl. intros [= <-]. exists [], f, w, w1, c.
      split; [left; reflexivity|]. simpl. rewrite Hab. simpl.
      split; [exact Hmv|]. repeat split. constructor.
Qed.

Lemma matching_files_matched extension names w :
  Forall (matched extension)
    (matching_files folder_to_check extension names w).
Proof.
  apply Forall_forall. intros f Hf. unfold matching_files in Hf.
  apply list_elem_of_In, List.filter_In in Hf. destruct Hf as [_ Hf].
  apply andb_prop in Hf. exact (proj2 Hf).
Qed.

End ProcessFacts.

(** Over matched names the pass never fails to unpack. *)
Lemma process_files_unpacks {W : Type} `{FileSystem W}
    folder_to_check folder_storage replace_filename extension files :
  Forall (matched extension) files ->
  forall w logger out msg,
    result (process_files folder_to_check folder_storage replace_filename
              files w logger out) <> Raise (ValueError msg).
Proof.
  induction files as [|f rest IH]; intros HF w logger out msg.
  - simpl. discriminate.
  - inversion HF as [|? ? Hf HF']; subst.
    destruct (matched_rsplit1 _ _ Hf) as (a & b & Hab & _).
    cbn [process_files]. rewrite Hab.
    destruct (shutil_move _ _ w) as [w1|c w1]; [|simpl; discriminate].
    destruct (os_path_exists _ w1); [|apply IH; exact HF'].
    destruct (os_remove _ w1); apply IH; exact HF'.
Qed.

(** ** The polling loop *)

Section PollFacts.
Context {W : Type} `{FileSystem W}.
Variables (folder_to_check folder_storage : string).
Variable (replace_filename : option string).
Variable (max_waiting_download : Z).

Local Abbreviation pollf :=
  (poll folder_to_check folder_storage replace_filename
     max_waiting_download).
Local Abbreviation row := (result_row folder_storage replace_filename).

Lemma poll_unfold fuel extension waiting_time w logger :
  pollf (S fuel) extension waiting_time w logger =
  match os_listdir folder_to_check w with
  | inl e => Some (Run w logger (Raise (OSError e)))
  | inr names =>
      match matching_files folder_to_check extension names w with
      | (_ :: _) as path_file_reports =>
          Some (process_files folder_to_check folder_storage
                  replace_filename path_file_reports w
                  (log_if logger w "wait_download_file"
                     ("Found downloaded files: "
                        ++ PyStr.repr_list path_file_reports) false)
                  [])
      | [] =>
          let waiting_time' :=
            PyFloat.add waiting_time PyFloat.poll_interval in
          if PyFloat.ge_int waiting_time' max_waiting_download then
            Some (Run w
                    (log_if logger w "wait_download_file"
                       ("Timeout waiting for download after "
                          ++ PyStr.str_of_int max_waiting_download
                          ++ " seconds") true)
                    (Raise (TimeoutError "Timeout waiting for download")))
          else pollf fuel extension waiting_time' (time_sleep w) logger
      end
  end.
Proof. reflexivity. Qed.

(** A call that returns does so from the one pass that found files. *)
Lemma poll_return extension : forall fuel waiting_time w logger r out,
  pollf fuel extension waiting_time w logger = Some r ->
  result r = Return out ->
  exists w' names,
    os_listdir folder_to_check w' = inr names
    /\ matching_files folder_to_check extension names w' <> []
    /\ out = map row (matching_files folder_to_check extension names w').
Proof.
  induction fuel as [|fuel IH]; intros wt w logger r out; [discriminate|].
  rewrite poll_unfold.
  destruct (os_listdir folder_to_check w) as [e|names] eqn:Hls.
  - intros [= <-]. discriminate.
  - destruct (matching_files folder_to_check extension names w)
      as [|f fs] eqn:Hm.
    + cbv zeta.
      destruct (PyFloat.ge_int _ _).
      * intros [= <-]. discriminate.
      * apply IH.
    + intros Heq%(inj Some) Hr. exists w, names. split; [exact Hls|].
      rewrite Hm. split; [discriminate|].
      apply (process_files_return _ _ _ _ _ _ _ _ _ Heq Hr).
Qed.

(** The ways a call can raise once it polls, and what it has logged. *)
Lemma poll_raise extension : forall fuel waiting_time w l r e,
  pollf fuel extension waiting_time w (Some l) = Some r ->
  result r = Raise e ->
  (exists cause w', os_listdir folder_to_check w' = inl cause
                    /\ e = OSError cause /\ final_logger r = Some l)
  \/ (e = TimeoutError "Timeout waiting for download"
      /\ final_logger r =
           Some (l ++ [timeout_entry (datetime_now (final_world r))
                         max_waiting_download]))
  \/ (exists pre f w0 w1 cause,
        shutil_move (os_path_join folder_to_check f)
          (output_path folder_storage replace_filename f) w0 = Err cause w1
        /\ e = OSError cause
        /\ final_logger r =
             Some (l ++ pre ++ [move_failure_entry (datetime_now w1)
                                  (os_path_join folder_to_check f) cause])
        /\ only_remove_failures pre).
Proof.
  induction fuel as [|fuel IH]; intros wt w l r e; [discriminate|].
  rewrite poll_unfold.
  destruct (os_listdir folder_to_check w) as [c|names] eqn:Hls.
  - intros [= <-] [= <-]. left. exists c, w. auto.
  - destruct (matching_files folder_to_check extension names w)
      as [|f fs] eqn:Hm.
    + cbv zeta.
      destruct (PyFloat.ge_int _ _).
      * intros [= <-] [= <-]. right. left. split; reflexivity.
      * apply IH.
    + intros Heq%(inj Some) Hr. right. right.
      pose proof (matching_files_matched folder_to_check extension names w)
        as HF.
      rewrite Hm in HF. rewrite log_if_some in Heq.
      destruct (process_files_raise _ _ _ _ _ _ _ _ _ _ HF Heq Hr)
        as (pre & f' & w0 & w1 & cause & _ & Hmv & He & _ & Hl & Hp).
      eexists (_ :: pre), f', w0, w1, cause.
      split; [exact Hmv|]. split; [exact He|].
      split; [etransitivity; [exact Hl|]; rewrite <- app_assoc;
              reflexivity|].
      constructor; [simpl; discriminate | exact Hp].
Qed.

(** Passes [i..n] find nothing and the time after pass [n] has reached
    the limit: the call times out at the first pass whose accumulated
    time reaches it. *)
Lemma poll_timeout extension logger w n : forall d i,
  i + d = n ->
  (forall k, i <= k <= n ->
             no_match folder_to_check extension (world_at w k) = true) ->
  PyFloat.ge_int (accumulated (S n)) max_waiting_download = true ->
  exists j,
    i <= j <= n
    /\ (forall k, i <= k < j ->
          PyFloat.ge_int (accumulated (S k)) max_waiting_download = false)
    /\ PyFloat.ge_int (accumulated (S j)) max_waiting_download = true
    /\ forall fuel, j - i < fuel ->
         pollf fuel extension (accumulated i) (world_at w i) logger =
         Some (Run (world_at w j)
                 (log_if logger (world_at w j) "wait_download_file"
                    ("Timeout waiting for download after "
                       ++ PyStr.str_of_int max_waiting_download
                       ++ " seconds") true)
                 (Raise (TimeoutError "Timeout waiting for download"))).
Proof.
  induction d as [|d IH]; intros i Hi Hno Hge.
  - assert (i = n) by lia. subst i. exists n.
    split; [lia|]. split; [intros; lia|]. split; [exact Hge|].
    intros [|fuel] Hf; [lia|]. rewrite poll_unfold.
    specialize (Hno n (conj (le_n _) (le_n _))). unfold no_match in Hno.
    destruct (os_listdir folder_to_check (world_at w n)); [discriminate|].
    destruct (matching_files _ _ _ _); [|discriminate].
    cbv zeta. change (PyFloat.add (accumulated n) PyFloat.poll_interval)
      with (accumulated (S n)). rewrite Hge. reflexivity.
  - destruct (PyFloat.ge_int (accumulated (S i)) max_waiting_download)
      eqn:Hgi.
    + exists i. split; [lia|]. split; [intros; lia|]. split; [exact Hgi|].
      intros [|fuel] Hf; [lia|]. rewrite poll_unfold.
      specialize (Hno i ltac:(lia)). unfold no_match in Hno.
      destruct (os_listdir folder_to_check (world_at w i)); [discriminate|].
      destruct (matching_files _ _ _ _); [|discriminate].
      cbv zeta. change (PyFloat.add (accumulated i) PyFloat.poll_interval)
        with (accumulated (S i)). rewrite Hgi. reflexivity.
    + destruct (IH (S i) ltac:(lia) ltac:(intros; apply Hno; lia) Hge)
        as (j & Hj & Hlt & Hgj & Hrun).
      exists j. split; [lia|]. split.
      { intros k Hk. destruct (decide (k = i)) as [->|]; [exact Hgi|].
        apply Hlt. lia. }
      split; [exact Hgj|].
      intros [|fuel] Hf; [lia|]. rewrite poll_unfold.
      pose proof (Hno i ltac:(lia)) as Hn. unfold no_match in Hn.
      destruct (os_listdir folder_to_check (world_at w i)); [discriminate|].
      destruct (matching_files _ _ _ _); [|discriminate].
      cbv zeta. change (PyFloat.add (accumulated i) PyFloat.poll_interval)
        with (accumulated (S i)). rewrite Hgi.
      replace (time_sleep (world_at w i)) with (world_at w (S i)).
      * apply Hrun. lia.
      * clear. revert w. induction i; intros w; simpl; [reflexivity|].
        apply IHi.
Qed.

End PollFacts.

(** ** The whole call *)

Section CallFacts.
Context {W : Type} `{FileSystem W}.

(** Once validation and set-up pass, the call is its polling loop. *)
Lemma wait_polls folder_to_check extension folder_storage replace_filename
    max_waiting_download logger fuel w w1 w2 :
  folder_to_check <> "" -> folder_storage <> "" -> extension <> "" ->
  os_makedirs folder_to_check w = Ok w1 ->
  os_makedirs folder_storage w1 = Ok w2 ->
  os_path_isdir folder_to_check w2 = true ->
  os_path_isdir folder_storage w2 = true ->
  wait_download_file folder_to_check extension folder_storage
    replace_filename max_waiting_download logger fuel w =
  poll folder_to_check folder_storage replace_filename
    max_waiting_download fuel (normalized extension) PyFloat.zero w2 logger.
Proof.
  intros Hc Hs He Hm1 Hm2 Hd1 Hd2. unfold wait_download_file.
  rewrite (eqb_empty_false _ Hc), (eqb_empty_false _ Hs),
    (eqb_empty_false _ He), Hm1, Hm2, Hd1, Hd2.
  reflexivity.
Qed.

(** Every way the call can end before it polls leaves the logger as it
    was. *)
Lemma wait_inv folder_to_check extension folder_storage replace_filename
    max_waiting_download logger fuel w r :
  wait_download_file folder_to_check extension folder_storage
    replace_filename max_waiting_download logger fuel w = Some r ->
  (final_logger r = logger
   /\ (result r = Raise (ValueError "Folder paths cannot be empty")
       \/ result r = Raise (ValueError "Extension cannot be empty")
       \/ result r = Raise (ValueError "Invalid folder paths")
       \/ exists cause w0 w1,
            (os_makedirs folder_to_check w0 = Err cause w1
             \/ os_makedirs folder_storage w0 = Err cause w1)
            /\ result r =
                 Raise (OSError ("Failed to create folders: " ++ cause))))
  \/ (extension <> ""
      /\ exists w2,
           poll folder_to_check folder_storage replace_filename
             max_waiting_download fuel (normalized extension)
             PyFloat.zero w2 logger = Some r).
Proof.
  unfold wait_download_file.
  destruct (String.eqb folder_to_check "" || String.eqb folder_storage "").
  { intros [= <-]. left. simpl. auto. }
  destruct (String.eqb extension "") eqn:He.
  { intros [= <-]. left. simpl. auto. }
  apply String.eqb_neq in He.
  destruct (os_makedirs folder_to_check w) as [w1|c w1] eqn:Hm1.
  2:{ intros [= <-]. left. simpl. split; [reflexivity|].
      do 3 right. exists c, w, w1. auto. }
  destruct (os_makedirs folder_storage w1) as [w2|c w2] eqn:Hm2.
  2:{ intros [= <-]. left. simpl. split; [reflexivity|].
      do 3 right. exists c, w1, w2. auto. }
  destruct (negb (os_path_isdir folder_to_check w2)
            || negb (os_path_isdir folder_storage w2)).
  { intros [= <-]. left. simpl. auto. }
  intros Hp. right. split; [exact He|]. exists w2. exact Hp.
Qed.

End CallFacts.

(** ** The in-memory file system *)

Section MemFSFacts.
Import MemFS.

Lemma append_cons x (a b : string) :
  (String x a ++ b)%string = String x (a ++ b).
Proof. reflexivity. Qed.

Lemma append_assoc (a b c : string) :
  (a ++ (b ++ c) = (a ++ b) ++ c)%string.
Proof.
  induction a as [|x a IH]; [reflexivity|].
  rewrite !append_cons, IH. reflexivity.
Qed.

Lemma length_append (a b : string) :
  String.length (a ++ b) = String.length a + String.length b.
Proof.
  induction a as [|x a IH]; [reflexivity|].
  rewrite append_cons. simpl. rewrite IH. reflexivity.
Qed.

Lemma split_nonempty sep s : PyStr.split sep s <> [].
Proof.
  destruct s as [|c s]; simpl; [discriminate|].
  destruct (Ascii.eqb c sep); [discriminate|].
  destruct (PyStr.split sep s); discriminate.
Qed.

Lemma split_cons sep c s :
  PyStr.split sep (String c s) =
  if Ascii.eqb c sep then EmptyString :: PyStr.split sep s
  else match PyStr.split sep s with
       | x :: xs => String c x :: xs
       | [] => [String c EmptyString]
       end.
Proof. reflexivity. Qed.

(** Splitting distributes over a separator in the middle. *)
Lemma split_app sep a b :
  PyStr.split sep (a ++ String sep b)
  = PyStr.split sep a ++ PyStr.split sep b.
Proof.
  induction a as [|c a IH].
  - simpl. rewrite Ascii.eqb_refl. reflexivity.
  - change (String c a ++ String sep b)%string
      with (String c (a ++ String sep b)).
    rewrite !split_cons, IH.
    destruct (Ascii.eqb c sep); [reflexivity|].
    pose proof (split_nonempty sep a) as Hne.
    destruct (PyStr.split sep a); [congruence | reflexivity].
Qed.

Lemma split_plain sep s :
  PyStr.contains sep s = false -> PyStr.split sep s = [s].
Proof.
  unfold PyStr.contains. induction s as [|c s IH]; [reflexivity|].
  simpl. intros Hc. apply orb_false_elim in Hc. destruct Hc as [Hc Hs].
  rewrite Ascii.eqb_sym, Hc, (IH Hs). reflexivity.
Qed.

Lemma split_no_sep sep s :
  Forall (fun c => PyStr.contains sep c = false) (PyStr.split sep s).
Proof.
  induction s as [|c s IH]; [repeat constructor|].
  rewrite split_cons. destruct (Ascii.eqb c sep) eqn:Ec.
  - constructor; [reflexivity | exact IH].
  - destruct (PyStr.split sep s) as [|x xs]; [repeat constructor|].
    + unfold PyStr.contains. simpl. rewrite Ascii.eqb_sym, Ec. reflexivity.
    + inversion IH as [|? ? Hx Hxs]; subst. constructor; [|exact Hxs].
      unfold PyStr.contains in *. simpl.
      rewrite Ascii.eqb_sym, Ec. exact Hx.
Qed.

Lemma plain_spec c :
  plain c = true ->
  c <> "" /\ c <> "." /\ c <> ".." /\ PyStr.contains "/" c = false.
Proof.
  unfold plain. intros Hp.
  apply andb_prop in Hp. destruct Hp as [Hp H4].
  apply andb_prop in Hp. destruct Hp as [Hp H3].
  apply andb_prop in Hp. destruct Hp as [H1 H2].
  apply negb_true_iff in H1, H2, H3, H4.
  apply String.eqb_neq in H1, H2, H3. auto.
Qed.

Lemma step_plain acc c : plain c = true -> step acc c = acc ++ [c].
Proof.
  intros Hp. destruct (plain_spec c Hp) as (H1 & H2 & H3 & _).
  unfold step. apply String.eqb_neq in H1, H2, H3.
  rewrite H1, H2, H3. reflexivity.
Qed.

Lemma step_forall_plain acc c :
  PyStr.contains "/" c = false ->
  Forall (fun x => plain x = true) acc ->
  Forall (fun x => plain x = true) (step acc c).
Proof.
  intros Hc Hacc. unfold step.
  destruct (String.eqb c "") eqn:E1; [exact Hacc|].
  destruct (String.eqb c ".") eqn:E2; [exact Hacc|]. simpl.
  destruct (String.eqb c "..") eqn:E3.
  - clear -Hacc. induction Hacc as [|x l Hx Hl IH]; [constructor|].
    simpl. destruct l; [constructor|]. constructor; [exact Hx | exact IH].
  - apply Forall_app. split; [exact Hacc|]. constructor; [|constructor].
    unfold plain. rewrite E1, E2, E3, Hc. reflexivity.
Qed.

Lemma fold_step_plain comps : forall acc,
  Forall (fun c => PyStr.contains "/" c = false) comps ->
  Forall (fun x => plain x = true) acc ->
  Forall (fun x => plain x = true) (fold_left step comps acc).
Proof.
  induction comps as [|c comps IH]; intros acc Hc Hacc; [exact Hacc|].
  inversion Hc; subst. simpl. apply IH; [assumption|].
  apply step_forall_plain; assumption.
Qed.

(** Every component of a resolved path is a proper name. *)
Lemma resolve_plain fs p : Forall (fun x => plain x = true) (resolve fs p).
Proof.
  unfold resolve, normpath. apply fold_step_plain; [|constructor].
  apply split_no_sep.
Qed.

Lemma normpath_snoc comps n :
  plain n = true -> normpath (comps ++ [n]) = normpath comps ++ [n].
Proof.
  intros Hn. unfold normpath. rewrite fold_left_app. simpl.
  apply step_plain, Hn.
Qed.

Lemma normpath_snoc_empty comps :
  normpath (comps ++ [""]) = normpath comps.
Proof. unfold normpath. rewrite fold_left_app. reflexivity. Qed.

(** [os.path.join] with a proper name adds one component. *)
Lemma normpath_join x n :
  plain n = true ->
  normpath (PyStr.split "/"
              (if PyStr.endswith x "/" then x ++ n else x ++ "/" ++ n))
  = normpath (PyStr.split "/" x) ++ [n].
Proof.
  intros Hn. destruct (plain_spec n Hn) as (_ & _ & _ & Hs).
  destruct (PyStr.endswith x "/") eqn:Ex.
  - destruct (endswith_app _ _ Ex) as [x' ->].
    rewrite <- append_assoc.
    change ("/" ++ n)%string with (String "/" n).
    change (x' ++ "/")%string with (x' ++ String "/" "")%string.
    rewrite !split_app, (split_plain _ _ Hs). simpl PyStr.split.
    rewrite normpath_snoc by exact Hn.
    rewrite normpath_snoc_empty. reflexivity.
  - change ("/" ++ n)%string with (String "/" n).
    rewrite split_app, (split_plain _ _ Hs).
    apply normpath_snoc, Hn.
Qed.

Lemma contains_cons sep c s :
  PyStr.contains sep (String c s)
  = Ascii.eqb sep c || PyStr.contains sep s.
Proof. reflexivity. Qed.

Lemma startswith_one c s p :
  PyStr.startswith (String c s) (String p "") = Ascii.eqb c p.
Proof.
  change (PyStr.startswith (String c s) (String p ""))
    with (Ascii.eqb c p && PyStr.startswith s "").
  rewrite startswith_nil. apply andb_true_r.
Qed.

Lemma plain_not_abs n : plain n = true -> PyStr.startswith n "/" = false.
Proof.
  intros Hn. destruct (plain_spec n Hn) as (_ & _ & _ & Hs).
  destruct n as [|c n]; [reflexivity|].
  rewrite contains_cons in Hs.
  apply orb_false_elim in Hs. destruct Hs as [Hc _].
  rewrite startswith_one, Ascii.eqb_sym. exact Hc.
Qed.

Lemma endswith_snoc s suf : PyStr.endswith (s ++ suf) suf = true.
Proof.
  induction s as [|c s IH].
  - change ("" ++ suf)%string with suf. rewrite endswith_unfold.
    rewrite String.eqb_refl. reflexivity.
  - rewrite append_cons, endswith_unfold, IH.
    destruct (String.eqb _ _); reflexivity.
Qed.

Lemma endswith_app_r a b suf :
  b <> "" -> PyStr.endswith (a ++ b) suf = true ->
  String.length suf <= String.length b -> PyStr.endswith b suf = true.
Proof.
  intros Hb. induction a as [|c a IH]; [auto|].
  change (String c a ++ b)%string with (String c (a ++ b)).
  rewrite endswith_unfold.
  destruct (String.eqb (String c (a ++ b)) suf) eqn:E.
  - apply String.eqb_eq in E. subst suf. intros _ Hlen. simpl in Hlen.
    rewrite length_append in Hlen. lia.
  - exact IH.
Qed.

Lemma resolve_join fs d n :
  d <> "" -> plain n = true ->
  resolve fs (os_path_join d n) = resolve fs d ++ [n].
Proof.
  intros Hd Hn. unfold resolve.
  pose proof (plain_not_abs n Hn) as Hna.
  assert (Hj : os_path_join d n
               = if PyStr.endswith d "/" then (d ++ n)%string
                 else (d ++ "/" ++ n)%string).
  { unfold os_path_join. rewrite Hna, (eqb_empty_false _ Hd). reflexivity. }
  rewrite Hj. clear Hj.
  destruct (PyStr.startswith d "/") eqn:Hda.
  - (* absolute: the working directory plays no role *)
    assert (Hx : forall y, PyStr.startswith y "/" = true ->
                           os_path_join (cwd fs) y = y).
    { intros y Hy. unfold os_path_join. rewrite Hy. reflexivity. }
    rewrite (Hx d Hda), Hx.
    + apply normpath_join, Hn.
    + destruct d as [|c d]; [congruence|].
      destruct (PyStr.endswith (String c d) "/");
        rewrite append_cons, startswith_one;
        rewrite startswith_one in Hda; exact Hda.
  - assert (Hrel : forall y, PyStr.startswith y "/" = false ->
              os_path_join (cwd fs) y
              = ((if String.eqb (cwd fs) "" || PyStr.endswith (cwd fs) "/"
                  then cwd fs else cwd fs ++ "/") ++ y)%string).
    { intros y Hy. unfold os_path_join. rewrite Hy.
      destruct (String.eqb (cwd fs) "" || PyStr.endswith (cwd fs) "/");
        [reflexivity|]. rewrite append_assoc. reflexivity. }
    rewrite (Hrel d Hda), Hrel.
    2:{ destruct d as [|c d]; [congruence|].
        destruct (PyStr.endswith (String c d) "/");
          rewrite append_cons, startswith_one;
          rewrite startswith_one in Hda; exact Hda. }
    set (pre := if String.eqb (cwd fs) "" || PyStr.endswith (cwd fs) "/"
                then cwd fs else (cwd fs ++ "/")%string).
    rewrite <- (normpath_join (pre ++ d) n Hn).
    assert (He : PyStr.endswith (pre ++ d) "/" = PyStr.endswith d "/").
    { destruct (PyStr.endswith d "/") eqn:Ed.
      - destruct (endswith_app _ _ Ed) as [d' ->].
        rewrite append_assoc. apply endswith_snoc.
      - destruct (PyStr.endswith (pre ++ d) "/") eqn:Ep; [|reflexivity].
        apply endswith_app_r in Ep; [congruence | exact Hd |].
        destruct d; [congruence | simpl; lia]. }
    rewrite He. destruct (PyStr.endswith d "/");
      rewrite ?append_assoc; reflexivity.
Qed.

End MemFSFacts.

Section MemFSTree.
Import MemFS.

Lemma stat_lookup (m : gmap (list string) node) (r : list string)
    (c : string) :
  stat m (r ++ [c]) = m !! (r ++ [c]).
Proof. destruct r; reflexivity. Qed.

Lemma strip_prefix_spec r : forall k rest,
  strip_prefix r k = Some rest <-> k = r ++ rest.
Proof.
  induction r as [|a r IH]; intros k rest; simpl.
  - split; [intros [= ->]; reflexivity | intros ->; reflexivity].
  - destruct k as [|b k]; [split; discriminate|].
    destruct (String.eqb a b) eqn:E.
    + apply String.eqb_eq in E. subst b. rewrite IH.
      split; [intros ->; reflexivity | intros [= ->]; reflexivity].
    + apply String.eqb_neq in E. split; [discriminate|].
      intros [= -> _]. congruence.
Qed.

Lemma child_of_spec r k n : child_of r k = Some n <-> k = r ++ [n].
Proof.
  unfold child_of. rewrite <- strip_prefix_spec.
  destruct (strip_prefix r k) as [[|x [|y l]]|]; split;
    try discriminate; congruence.
Qed.

Lemma elem_of_children (r : list string) (m : gmap (list string) node)
    (n : string) :
  n ∈ children r m <-> is_Some (m !! (r ++ [n])).
Proof.
  unfold children. rewrite list_elem_of_omap. split.
  - intros ([k v] & Hkv & Hc). apply elem_of_map_to_list in Hkv.
    apply child_of_spec in Hc. simpl in Hc. subst k. eauto.
  - intros [v Hv]. exists (r ++ [n], v). split.
    + apply elem_of_map_to_list. exact Hv.
    + apply child_of_spec. reflexivity.
Qed.

Lemma NoDup_children (r : list string) (m : gmap (list string) node) :
  NoDup (children r m).
Proof.
  unfold children.
  pose proof (NoDup_fst_map_to_list m) as Hnd.
  induction (map_to_list m) as [|[k v] l IH]; [constructor|].
  rewrite fmap_cons in Hnd. apply NoDup_cons in Hnd.
  destruct Hnd as [Hk Hnd]. simpl.
  destruct (child_of r k) as [n|] eqn:Hc; [|apply IH, Hnd].
  apply NoDup_cons. split; [|apply IH, Hnd].
  rewrite list_elem_of_omap. intros ([k' v'] & Hin & Hc').
  apply child_of_spec in Hc, Hc'. simpl in *. subst k k'.
  apply Hk. apply list_elem_of_fmap. exists (r ++ [n], v'). auto.
Qed.

(** What [mkdirs] leaves: all that was there, plus directories along
    the path. *)
Lemma mkdirs_spec rest : forall pre (m m1 : gmap (list string) node),
  mkdirs pre rest m = Some m1 ->
  (forall k v, m !! k = Some v -> m1 !! k = Some v)
  /\ (forall k v, m1 !! k = Some v ->
        m !! k = Some v
        \/ (v = Dir /\ exists a b, a <> [] /\ rest = a ++ b
                                  /\ k = pre ++ a))
  /\ (rest <> [] -> m1 !! (pre ++ rest) = Some Dir).
Proof.
  induction rest as [|c rest IH]; intros pre m m1.
  - intros [= <-]. split; [auto|]. split; [auto|]. congruence.
  - cbn [mkdirs].
    destruct (m !! (pre ++ [c])) as [[data|]|] eqn:Hq; [discriminate| |].
    + intros Hm. destruct (IH _ _ _ Hm) as (P1 & P2 & P3).
      split; [exact P1|]. split.
      * intros k v Hk. destruct (P2 k v Hk) as [?|(-> & a & b & Ha & -> & ->)];
          [auto|].
        right. split; [reflexivity|]. exists (c :: a), b.
        split; [discriminate|]. split; [reflexivity|].
        rewrite <- app_assoc. reflexivity.
      * intros _. destruct rest as [|c' rest'].
        -- injection Hm as <-. exact Hq.
        -- rewrite <- P3 by discriminate. f_equal.
           rewrite <- app_assoc. reflexivity.
    + intros Hm. destruct (IH _ _ _ Hm) as (P1 & P2 & P3).
      split; [|split].
      * intros k v Hk. apply P1. rewrite lookup_insert_ne; [exact Hk|].
        intros <-. congruence.
      * intros k v Hk.
        destruct (P2 k v Hk) as [Hk'|(-> & a & b & Ha & -> & ->)].
        -- destruct (decide (pre ++ [c] = k)) as [<-|Hne].
           ++ rewrite lookup_insert_eq in Hk'. injection Hk' as <-.
              right. split; [reflexivity|]. exists [c], rest.
              split; [discriminate|]. split; reflexivity.
           ++ rewrite lookup_insert_ne in Hk' by exact Hne. auto.
        -- right. split; [reflexivity|]. exists (c :: a), b.
           split; [discriminate|]. split; [reflexivity|].
           rewrite <- app_assoc. reflexivity.
      * intros _. destruct rest as [|c' rest'].
        -- injection Hm as <-. apply lookup_insert_eq.
        -- rewrite <- P3 by discriminate. f_equal.
           rewrite <- app_assoc. reflexivity.
Qed.

(** What a successful [makedirs] leaves. *)
Lemma makedirs_spec p fs fs1 :
  makedirs p fs = Ok fs1 ->
  cwd fs1 = cwd fs
  /\ (forall k v, nodes fs !! k = Some v -> nodes fs1 !! k = Some v)
  /\ (forall k v, nodes fs1 !! k = Some v ->
        nodes fs !! k = Some v
        \/ (v = Dir /\ exists a b, a <> [] /\ resolve fs p = a ++ b
                                  /\ k = a))
  /\ stat (nodes fs1) (resolve fs p) = Some Dir.
Proof.
  unfold makedirs.
  destruct (stat (nodes fs) (resolve fs p)) as [[data|]|] eqn:Hs.
  - discriminate.
  - intros [= <-]. auto.
  - destruct (mkdirs [] (resolve fs p) (nodes fs)) as [m1|] eqn:Hm;
      [|discriminate].
    intros [= <-]. destruct (mkdirs_spec _ _ _ _ Hm) as (P1 & P2 & P3).
    simpl. split; [reflexivity|]. split; [exact P1|]. split; [exact P2|].
    destruct (resolve fs p) as [|c r] eqn:Hr; [reflexivity|].
    apply P3. discriminate.
Qed.

Lemma resolve_cwd fs fs' p : cwd fs' = cwd fs -> resolve fs' p = resolve fs p.
Proof. unfold resolve. intros ->. reflexivity. Qed.

(** A list without repetition in which [x] is the only element passing
    the test filters to [[x]]. *)
Lemma filter_single {A} (P : A -> bool) (l : list A) x :
  NoDup l -> x ∈ l -> P x = true ->
  (forall y, y ∈ l -> P y = true -> y = x) ->
  List.filter P l = [x].
Proof.
  induction l as [|a l IH]; intros Hnd Hin Hx Huniq.
  - inversion Hin.
  - apply NoDup_cons in Hnd. destruct Hnd as [Ha Hnd]. simpl.
    destruct (P a) eqn:Hpa.
    + assert (a = x) by (apply Huniq; [left | exact Hpa]). subst a.
      f_equal. clear IH Hin.
      induction l as [|b l IHl]; [reflexivity|]. simpl.
      destruct (P b) eqn:Hpb.
      * exfalso. apply Ha. rewrite (Huniq b); [left| right; left |exact Hpb].
      * apply IHl.
        -- intros Hin. apply Ha. right. exact Hin.
        -- apply NoDup_cons in Hnd. tauto.
        -- intros y Hy. apply Huniq. inversion Hy; subst;
             [left | right; right; assumption].
    + apply IH; [exact Hnd | | exact Hx |].
      * inversion Hin; subst; [congruence | assumption].
      * intros y Hy. apply Huniq. right. exact Hy.
Qed.

End MemFSTree.

Section MemFSCalls.
Import MemFS.

Lemma stat_mono (m m1 : gmap (list string) node) (r : list string) v :
  (forall k v, m !! k = Some v -> m1 !! k = Some v) ->
  stat m r = Some v -> stat m1 r = Some v.
Proof. intros Hsub. destruct r; [auto|]. simpl. apply Hsub. Qed.

Lemma resolve_with_nodes fs m p :
  resolve (with_nodes fs m) p = resolve fs p.
Proof. reflexivity. Qed.

Lemma removelast_snoc {A} (l : list A) x : removelast (l ++ [x]) = l.
Proof. apply removelast_last. Qed.

(** Moving a regular file to a free or file-occupied name inside an
    existing directory renames it. *)
Lemma move_file src dst fs data (rsrc rdst : list string) c :
  resolve fs src = rsrc ->
  resolve fs dst = rdst ++ [c] ->
  stat (nodes fs) rsrc = Some (File data) ->
  nodes fs !! (rdst ++ [c]) <> Some Dir ->
  stat (nodes fs) rdst = Some Dir ->
  move src dst fs
  = Ok (with_nodes fs (<[rdst ++ [c] := File data]> (delete rsrc (nodes fs)))).
Proof.
  intros Hs Hd Hstat Hnd Hpar. unfold move. rewrite Hs, Hd, Hstat.
  rewrite stat_lookup.
  destruct (nodes fs !! (rdst ++ [c])) as [[d|]|] eqn:Hl;
    try congruence; simpl; rewrite removelast_snoc, Hpar; reflexivity.
Qed.

End MemFSCalls.

(** The polling loop at work: the file is written during the second
    sleep and the third pass finds and moves it. *)
Example late_arrival :
  exists r,
    wait_download_file "downloads" "pdf" "storage" None 5 None 3
      Examples.late_fs = Some r
    /\ result r = Return [["report"; "storage/report.pdf"; "pdf"]]
    /\ datetime_now (final_world r) = 2%Z
    /\ wait_download_file "downloads" "pdf" "storage" None 5 None 2
         Examples.late_fs = None.
Proof.
  eexists. split; [vm_compute; reflexivity|].
  repeat split; vm_compute; reflexivity.
Qed.

(** ** The log of a call *)

Section LogFacts.
Context {W : Type} `{FileSystem W}.
Variables (folder_to_check folder_storage : string).
Variable (replace_filename : option string).

Local Abbreviation process :=
  (process_files folder_to_check folder_storage replace_filename).

Lemma log_if_none w fn msg err : log_if None w fn msg err = None.
Proof. reflexivity. Qed.

(** Without a logger none appears. *)
Lemma process_files_no_logger files : forall w out,
  final_logger (process files w None out) = None.
Proof.
  induction files as [|f rest IH]; intros w out; [reflexivity|].
  cbn [process_files].
  destruct (PyStr.rsplit1 "." (PyStr.lower f)) as [|a [|b [|c l]]];
    try reflexivity.
  destruct (shutil_move _ _ w) as [w1|e w1]; [|reflexivity].
  destruct (os_path_exists _ w1); [|apply IH].
  destruct (os_remove _ w1); apply IH.
Qed.

(** A pass only appends, under the waiter's name. *)
Lemma process_files_appends files : forall w l out,
  exists added,
    final_logger (process files w (Some l) out) = Some (l ++ added)
    /\ Forall by_waiter added.
Proof.
  induction files as [|f rest IH]; intros w l out.
  - exists []. rewrite app_nil_r. split; [reflexivity | constructor].
  - cbn [process_files].
    destruct (PyStr.rsplit1 "." (PyStr.lower f)) as [|a [|b [|c l0]]];
      try (exists []; rewrite app_nil_r; split; [reflexivity | constructor]).
    destruct (shutil_move _ _ w) as [w1|e w1].
    + destruct (os_path_exists _ w1).
      * destruct (os_remove _ w1) as [w2|e w2]; rewrite !log_if_some;
          match goal with
          | |- context [process rest ?w' (Some ?l') ?o] =>
              destruct (IH w' l' o) as (added & Hl & Ha)
          end;
          eexists (_ :: _ :: added);
          (split; [etransitivity; [exact Hl|]; rewrite <- !app_assoc;
                   reflexivity|]);
          repeat constructor; exact Ha.
      * rewrite !log_if_some.
        match goal with
        | |- context [process rest ?w' (Some ?l') ?o] =>
            destruct (IH w' l' o) as (added & Hl & Ha)
        end.
        eexists (_ :: added).
        split; [etransitivity; [exact Hl|]; rewrite <- !app_assoc;
                reflexivity|].
        repeat constructor; exact Ha.
    + rewrite log_if_some. eexists [_]. split; [reflexivity|].
      repeat constructor.
Qed.

(** The log of a pass that went through. *)
Lemma process_files_pass_log files : forall w l out out',
  result (process files w (Some l) out) = Return out' ->
  exists rest,
    final_logger (process files w (Some l) out) = Some (l ++ rest)
    /\ pass_log folder_to_check folder_storage replace_filename files rest.
Proof.
  induction files as [|f files IH]; intros w l out out'.
  - intros _. exists []. rewrite app_nil_r. split; [reflexivity|constructor].
  - cbn [process_files].
    assert (Hout : forall a b,
      PyStr.rsplit1 "." (PyStr.lower f) = [a; b] ->
      os_path_join folder_storage
        (new_file_name_of replace_filename a ++ "." ++ b)
      = output_path folder_storage replace_filename f).
    { intros a b Hab. unfold output_path, result_row. rewrite Hab.
      reflexivity. }
    destruct (PyStr.rsplit1 "." (PyStr.lower f)) as [|a [|b [|c l0]]];
      try (simpl; discriminate).
    rewrite (Hout a b eq_refl).
    destruct (shutil_move _ _ w) as [w1|e w1]; [|simpl; discriminate].
    destruct (os_path_exists _ w1).
    + destruct (os_remove _ w1) as [w2|e w2]; rewrite !log_if_some;
        intros Hr; destruct (IH _ _ _ _ Hr) as (rest & Hl & Hp);
        eexists (_ :: _ :: rest);
        (split; [etransitivity; [exact Hl|]; rewrite <- !app_assoc;
                 reflexivity|]);
        eapply (pass_log_cleaned _ _ _ f files (datetime_now w1)
                  (datetime_now w2)); try exact Hp.
      * left. reflexivity.
      * right. exists e. reflexivity.
    + rewrite !log_if_some. intros Hr.
      destruct (IH _ _ _ _ Hr) as (rest & Hl & Hp).
      eexists (_ :: rest).
      split; [etransitivity; [exact Hl|]; rewrite <- !app_assoc;
              reflexivity|].
      apply (pass_log_moved _ _ _ f files (datetime_now w1)). exact Hp.
Qed.

Variable (max_waiting_download : Z).

Local Abbreviation pollf :=
  (poll folder_to_check folder_storage replace_filename
     max_waiting_download).

Lemma poll_no_logger extension : forall fuel waiting_time w r,
  pollf fuel extension waiting_time w None = Some r ->
  final_logger r = None.
Proof.
  induction fuel as [|fuel IH]; intros wt w r; [discriminate|].
  rewrite poll_unfold.
  destruct (os_listdir folder_to_check w) as [e|names].
  - intros [= <-]. reflexivity.
  - destruct (matching_files folder_to_check extension names w).
    + cbv zeta. destruct (PyFloat.ge_int _ _); [|apply IH].
      intros [= <-]. reflexivity.
    + intros Heq%(inj Some). rewrite <- Heq, log_if_none.
      apply process_files_no_logger.
Qed.

Lemma poll_appends extension : forall fuel waiting_time w l r,
  pollf fuel extension waiting_time w (Some l) = Some r ->
  exists added,
    final_logger r = Some (l ++ added) /\ Forall by_waiter added.
Proof.
  induction fuel as [|fuel IH]; intros wt w l r; [discriminate|].
  rewrite poll_unfold.
  destruct (os_listdir folder_to_check w) as [e|names].
  - intros [= <-]. exists []. rewrite app_nil_r.
    split; [reflexivity | constructor].
  - destruct (matching_files folder_to_check extension names w)
      as [|f fs].
    + cbv zeta. destruct (PyFloat.ge_int _ _); [|apply IH].
      intros [= <-]. eexists [_]. split; [reflexivity|].
      repeat constructor.
    + intros Heq%(inj Some). rewrite <- Heq, log_if_some.
      match goal with
      | |- context [process_files _ _ _ ?fl ?w' (Some ?l') ?o] =>
          destruct (process_files_appends fl w' l' o) as (added & Hl & Ha)
      end.
      eexists (_ :: added).
      split; [etransitivity; [exact Hl|]; rewrite <- !app_assoc;
              reflexivity|].
      repeat constructor; exact Ha.
Qed.

Lemma poll_return_log extension : forall fuel waiting_time w l r out,
  pollf fuel extension waiting_time w (Some l) = Some r ->
  result r = Return out ->
  exists w' names rest,
    os_listdir folder_to_check w' = inr names
    /\ final_logger r
       = Some (l ++ found_entry (datetime_now w')
                      (matching_files folder_to_check extension names w')
                 :: rest)
    /\ pass_log folder_to_check folder_storage replace_filename
         (matching_files folder_to_check extension names w') rest
    /\ out = map (result_row folder_storage replace_filename)
               (matching_files folder_to_check extension names w').
Proof.
  induction fuel as [|fuel IH]; intros wt w l r out; [discriminate|].
  rewrite poll_unfold.
  destruct (os_listdir folder_to_check w) as [e|names] eqn:Hls.
  - intros [= <-]. discriminate.
  - destruct (matching_files folder_to_check extension names w)
      as [|f fs] eqn:Hm.
    + cbv zeta. destruct (PyFloat.ge_int _ _); [|apply IH].
      intros [= <-]. discriminate.
    + intros Heq%(inj Some) Hr. rewrite <- Heq in Hr |- *.
      rewrite log_if_some in Hr |- *.
      destruct (process_files_pass_log _ _ _ _ _ Hr) as (rest & Hl & Hp).
      exists w, names, rest. rewrite Hm.
      split; [exact Hls|].
      split; [etransitivity; [exact Hl|]; rewrite <- app_assoc;
              reflexivity|].
      split; [exact Hp|].
      exact (process_files_return _ _ _ _ _ _ _ _ _ eq_refl Hr).
Qed.

(** Passes [i..k-1] find nothing and do not exhaust the time, pass [k]
    finds files: the call is the processing pass over them. *)
Lemma poll_found extension logger w k names : forall d i,
  i + d = k ->
  (forall j, i <= j < k ->
     no_match folder_to_check extension (world_at w j) = true
     /\ PyFloat.ge_int (accumulated (S j)) max_waiting_download = false) ->
  os_listdir folder_to_check (world_at w k) = inr names ->
  matching_files folder_to_check extension names (world_at w k) <> [] ->
  forall fuel, d < fuel ->
    pollf fuel extension (accumulated i) (world_at w i) logger
    = Some (process
              (matching_files folder_to_check extension names (world_at w k))
              (world_at w k)
              (log_if logger (world_at w k) "wait_download_file"
                 ("Found downloaded files: "
                    ++ PyStr.repr_list
                         (matching_files folder_to_check extension names
                            (world_at w k))) false)
              []).
Proof.
  induction d as [|d IH]; intros i Hi Hno Hls Hne fuel Hf.
  - assert (i = k) by lia. subst i.
    destruct fuel as [|fuel]; [lia|]. rewrite poll_unfold, Hls.
    destruct (matching_files folder_to_check extension names (world_at w k));
      [congruence | reflexivity].
  - destruct fuel as [|fuel]; [lia|]. rewrite poll_unfold.
    destruct (Hno i ltac:(lia)) as [Hn Hg]. unfold no_match in Hn.
    destruct (os_listdir folder_to_check (world_at w i)); [discriminate|].
    destruct (matching_files _ _ _ (world_at w i)); [|discriminate].
    cbv zeta. change (PyFloat.add (accumulated i) PyFloat.poll_interval)
      with (accumulated (S i)). rewrite Hg.
    replace (time_sleep (world_at w i)) with (world_at w (S i)).
    + apply IH; [lia | intros; apply Hno; lia | exact Hls | exact Hne | lia].
    + clear. revert w. induction i; intros w; simpl; [reflexivity|].
      apply IHi.
Qed.

End LogFacts.

(** ** Counting passes *)

Section PassCount.

Lemma accumulated_S n :
  PyFloat.add (accumulated n) PyFloat.poll_interval = accumulated (S n).
Proof. reflexivity. Qed.

Lemma waiting_times_nth n : forall i j,
  j < n ->
  nth j (waiting_times n (accumulated i)) PyFloat.zero
  = accumulated (S (i + j)).
Proof.
  induction n as [|n IH]; intros i j Hj; [lia|].
  cbn [waiting_times]. cbv zeta. rewrite accumulated_S.
  destruct j as [|j].
  - rewrite Nat.add_0_r. reflexivity.
  - cbn [nth]. rewrite (IH (S i) j) by lia.
    replace (i + S j) with (S i + j) by lia. reflexivity.
Qed.

Lemma waiting_times_length n t : length (waiting_times n t) = n.
Proof.
  revert t. induction n as [|n IH]; intros t; [reflexivity|].
  cbn [waiting_times]. cbv zeta. simpl. f_equal. apply IH.
Qed.

Lemma first_reached_spec limit times : forall j,
  first_reached limit times = Some j ->
  j < length times
  /\ (forall k, k < j ->
        PyFloat.ge_int (nth k times PyFloat.zero) limit = false)
  /\ PyFloat.ge_int (nth j times PyFloat.zero) limit = true.
Proof.
  induction times as [|t times IH]; intros j; [discriminate|].
  cbn [first_reached].
  destruct (PyFloat.ge_int t limit) eqn:Ht.
  - intros [= <-]. split; [simpl; lia|]. split; [intros; lia | exact Ht].
  - destruct (first_reached limit times) as [j'|]; [|discriminate].
    intros [= <-]. destruct (IH j' eq_refl) as (Hlen & Hlt & Hge).
    split; [simpl; lia|]. split; [|exact Hge].
    intros [|k] Hk; [exact Ht|]. apply Hlt. lia.
Qed.

Lemma waiting_times_nth_zero n j :
  j < n ->
  nth j (waiting_times n PyFloat.zero) PyFloat.zero = accumulated (S j).
Proof. intros Hj. exact (waiting_times_nth n 0 j Hj). Qed.

(** What the check [passes_within_one] establishes. *)
Lemma passes_within_one_spec (budget n : nat) (limit : Z) :
  passes_within_one (waiting_times budget PyFloat.zero) n = true ->
  (1 <= limit <= Z.of_nat n)%Z ->
  exists j,
    (S j = 5 * Z.to_nat limit \/ S j = 5 * Z.to_nat limit + 1)
    /\ (forall k, k < j ->
          PyFloat.ge_int (accumulated (S k)) limit = false)
    /\ PyFloat.ge_int (accumulated (S j)) limit = true.
Proof.
  intros Hc Hl.
  unfold passes_within_one in Hc.
  pose proof (proj1 (forallb_forall _ _) Hc (Z.to_nat limit)) as Hm.
  cbv beta in Hm. rewrite Z2Nat.id in Hm by lia.
  assert (Hin : In (Z.to_nat limit) (seq 1 n)) by (apply in_seq; lia).
  specialize (Hm Hin).
  destruct (first_reached limit (waiting_times budget PyFloat.zero))
    as [j|] eqn:Hf; [|discriminate].
  destruct (first_reached_spec _ _ _ Hf) as (Hlen & Hlt & Hge).
  rewrite waiting_times_length in Hlen.
  exists j. split.
  - apply orb_prop in Hm. destruct Hm as [Hm|Hm];
      apply Nat.eqb_eq in Hm; [left | right]; exact Hm.
  - split.
    + intros k Hk. specialize (Hlt k Hk).
      rewrite waiting_times_nth_zero in Hlt by lia. exact Hlt.
    + rewrite waiting_times_nth_zero in Hge by lia. exact Hge.
Qed.

(** The check for the limits 1..300, the default being 300. *)
Lemma default_range_checked :
  passes_within_one (waiting_times 1502 PyFloat.zero) 300 = true.
Proof. vm_compute. reflexivity. Qed.

Lemma first_timeout_in_range (limit : Z) :
  (1 <= limit <= 300)%Z ->
  exists j,
    (S j = 5 * Z.to_nat limit \/ S j = 5 * Z.to_nat limit + 1)
    /\ (forall k, k < j ->
          PyFloat.ge_int (accumulated (S k)) limit = false)
    /\ PyFloat.ge_int (accumulated (S j)) limit = true.
Proof.
  intros Hl.
  exact (passes_within_one_spec 1502 300 limit default_range_checked Hl).
Qed.

Lemma ge_int_first_nonpositive (limit : Z) :
  (limit <= 0)%Z -> PyFloat.ge_int (accumulated 1) limit = true.
Proof.
  intros Hl.
  change (accumulated 1) with
    (PyFloat.add PyFloat.zero PyFloat.poll_interval).
  replace (PyFloat.add PyFloat.zero PyFloat.poll_interval)
    with PyFloat.poll_interval by (vm_compute; reflexivity).
  unfold PyFloat.ge_int, PyFloat.poll_interval.
  change (0 <=? -55)%Z with false. cbv iota.
  apply Z.leb_le. change (- -55)%Z with 55%Z.
  assert (0 < 2 ^ 55)%Z by (apply Z.pow_pos_nonneg; lia). nia.
Qed.

End PassCount.

(** ** Calls on the in-memory file system *)

Section MemFSRuns.
Import MemFS.

Lemma makedirs_isdir p fs fs1 :
  makedirs p fs = Ok fs1 -> isdir p fs1 = true.
Proof.
  intros Hmk. destruct (makedirs_spec _ _ _ Hmk) as (Hcwd & _ & _ & P3).
  unfold isdir. rewrite (resolve_cwd _ _ _ Hcwd), P3. reflexivity.
Qed.

Lemma makedirs_keeps_isdir p q fs fs1 :
  makedirs p fs = Ok fs1 -> isdir q fs = true -> isdir q fs1 = true.
Proof.
  intros Hmk. destruct (makedirs_spec _ _ _ Hmk) as (Hcwd & P1 & _ & _).
  unfold isdir. rewrite (resolve_cwd _ _ _ Hcwd).
  destruct (stat (nodes fs) (resolve fs q)) as [[d|]|] eqn:Hs;
    try discriminate.
  rewrite (stat_mono _ _ _ _ P1 Hs). reflexivity.
Qed.

Lemma output_path_name folder_storage replace_filename extension f :
  matched extension f ->
  output_path folder_storage replace_filename f
  = os_path_join folder_storage (output_name replace_filename f).
Proof.
  intros Hf. destruct (matched_rsplit1 _ _ Hf) as (a & b & Hab & _).
  unfold output_path, output_name, result_row. rewrite Hab. reflexivity.
Qed.

(** Set-up and the finding pass when the watched folder lists one
    matching regular file. *)
Lemma single_file_pass (fs fs1 : MemFS.t)
    (watchDir extension storageDir f data : string)
    (replace_filename : option string) (max_waiting_download : Z)
    (logger : option Logger.t) (fuel : nat) :
  watchDir <> "" -> storageDir <> "" -> extension <> "" ->
  listdir watchDir fs = inr [f] ->
  plain f = true ->
  MemHost.read_file (os_path_join watchDir f) fs = Some data ->
  matched (normalized extension) f ->
  makedirs storageDir fs = Ok fs1 ->
  wait_download_file watchDir extension storageDir replace_filename
    max_waiting_download logger (S fuel) fs
  = Some (process_files watchDir storageDir replace_filename [f] fs1
            (log_if logger fs1 "wait_download_file"
               ("Found downloaded files: " ++ PyStr.repr_list [f]) false)
            [])
  /\ (forall p, resolve fs1 p = resolve fs p)
  /\ nodes fs1 !! (resolve fs watchDir ++ [f]) = Some (File data)
  /\ stat (nodes fs1) (resolve fs watchDir) = Some Dir
  /\ stat (nodes fs1) (resolve fs storageDir) = Some Dir
  /\ (forall k v, nodes fs1 !! k = Some v ->
        nodes fs !! k = Some v
        \/ (v = Dir /\ exists a b, a <> [] /\ resolve fs storageDir = a ++ b
                                  /\ k = a)).
Proof.
  intros Hw Hs He Hls Hpf Hread Hmatch Hmk.
  set (rw := resolve fs watchDir) in *.
  set (rs := resolve fs storageDir) in *.
  unfold listdir in Hls. fold rw in Hls.
  destruct (stat (nodes fs) rw) as [[d|]|] eqn:Hst; try discriminate.
  injection Hls as Hch.
  pose proof (resolve_join fs watchDir _ Hw Hpf) as Hsrc. fold rw in Hsrc.
  unfold MemHost.read_file in Hread. rewrite Hsrc, stat_lookup in Hread.
  assert (Hf : nodes fs !! (rw ++ [f]) = Some (File data)).
  { destruct (nodes fs !! (rw ++ [f])) as [[d|]|]; try discriminate.
    congruence. }
  clear Hread.
  assert (Hmkw : makedirs watchDir fs = Ok fs).
  { unfold makedirs. fold rw. rewrite Hst. reflexivity. }
  destruct (makedirs_spec _ _ _ Hmk) as (Hcwd & P1 & P2 & P3).
  fold rs in P2, P3.
  assert (Hres : forall p, resolve fs1 p = resolve fs p).
  { intros p. apply resolve_cwd, Hcwd. }
  assert (Hst1 : stat (nodes fs1) rw = Some Dir).
  { apply (stat_mono _ _ _ _ P1 Hst). }
  assert (Hf1 : nodes fs1 !! (rw ++ [f]) = Some (File data))
    by (apply P1, Hf).
  assert (Hfound :
    matching_files watchDir (normalized extension)
      (children rw (nodes fs1)) fs1 = [f]).
  { unfold matching_files. apply filter_single.
    - apply NoDup_children.
    - apply elem_of_children. rewrite Hf1. eauto.
    - apply andb_true_intro. split; [|exact Hmatch].
      change (isfile (os_path_join watchDir f) fs1 = true).
      unfold isfile. rewrite Hres, Hsrc, stat_lookup, Hf1. reflexivity.
    - intros y Hy Hpy. apply andb_prop in Hpy. destruct Hpy as [Hyf _].
      change (isfile (os_path_join watchDir y) fs1 = true) in Hyf.
      apply elem_of_children in Hy. destruct Hy as [v Hv].
      destruct (P2 _ _ Hv) as [Hv0|(-> & a & b & Ha & Hab & Hk)].
      + assert (Hin : y ∈ children rw (nodes fs)).
        { apply elem_of_children. eauto. }
        rewrite Hch in Hin. apply list_elem_of_singleton in Hin. exact Hin.
      + exfalso. assert (Hpy : plain y = true).
        { pose proof (resolve_plain fs storageDir) as Hall. fold rs in Hall.
          rewrite Hab, <- Hk in Hall. apply Forall_app in Hall.
          destruct Hall as [Hall _]. apply Forall_app in Hall.
          destruct Hall as [_ Hall]. inversion Hall; assumption. }
        unfold isfile in Hyf.
        rewrite Hres, (resolve_join fs watchDir y Hw Hpy) in Hyf.
        fold rw in Hyf. rewrite stat_lookup, Hv in Hyf. discriminate. }
  split; [|repeat split; assumption].
  rewrite (@wait_polls MemFS.t MemFS.file_system watchDir extension
             storageDir replace_filename max_waiting_download logger
             (S fuel) fs fs fs1 Hw Hs He Hmkw Hmk).
  - rewrite poll_unfold.
    change (os_listdir watchDir fs1) with (listdir watchDir fs1).
    unfold listdir. rewrite Hres. fold rw. rewrite Hst1, Hfound.
    reflexivity.
  - change (isdir watchDir fs1 = true). unfold isdir.
    rewrite Hres. fold rw. rewrite Hst1. reflexivity.
  - change (isdir storageDir fs1 = true). unfold isdir.
    rewrite Hres. fold rs. rewrite P3. reflexivity.
Qed.

(** The pass over one matched file whose move succeeds. *)
Lemma process_one (W : Type) (FS : FileSystem W)
    folder_to_check folder_storage replace_filename extension f
    (w w1 : W) logger :
  matched extension f ->
  shutil_move (os_path_join folder_to_check f)
    (output_path folder_storage replace_filename f) w = Ok w1 ->
  process_files folder_to_check folder_storage replace_filename [f] w
    logger []
  = (let logger1 :=
       log_if logger w1 "wait_download_file"
         ("Moved file from " ++ os_path_join folder_to_check f ++ " to "
            ++ output_path folder_storage replace_filename f) false in
     let out := [result_row folder_storage replace_filename f] in
     if os_path_exists (os_path_join folder_to_check f) w1 then
       match os_remove (os_path_join folder_to_check f) w1 with
       | Ok w2 =>
           Run w2
             (log_if logger1 w2 "wait_download_file"
                ("Removed file: " ++ os_path_join folder_to_check f) false)
             (Return out)
       | Err e w2 =>
           Run w2
             (log_if logger1 w2 "wait_download_file"
                ("Failed to remove file " ++ os_path_join folder_to_check f
                   ++ ": " ++ e) true)
             (Return out)
       end
     else Run w1 logger1 (Return out)).
Proof.
  intros Hf Hmv. destruct (matched_rsplit1 _ _ Hf) as (a & b & Hab & _).
  assert (Hdst : output_path folder_storage replace_filename f
                 = os_path_join folder_storage
                     (new_file_name_of replace_filename a ++ "." ++ b)).
  { unfold output_path, result_row. rewrite Hab. reflexivity. }
  assert (Hrow : result_row folder_storage replace_filename f
                 = [new_file_name_of replace_filename a;
                    output_path folder_storage replace_filename f; b]).
  { unfold result_row. rewrite Hab, Hdst. reflexivity. }
  cbn [process_files]. rewrite Hab. cbv zeta.
  rewrite <- Hdst, Hmv, Hrow.
  destruct (os_path_exists _ w1); [|reflexivity].
  destruct (os_remove _ w1); reflexivity.
Qed.

End MemFSRuns.

(** ** Paths and flags *)

Section PathFacts.

Lemma poll_no_value_error {W : Type} `{FileSystem W}
    folder_to_check folder_storage replace_filename max_waiting_download
    extension msg : forall fuel waiting_time w logger r,
  poll folder_to_check folder_storage replace_filename max_waiting_download
    fuel extension waiting_time w logger = Some r ->
  result r <> Raise (ValueError msg).
Proof.
  induction fuel as [|fuel IH]; intros wt w logger r; [discriminate|].
  rewrite poll_unfold.
  destruct (os_listdir folder_to_check w) as [e|names].
  - intros [= <-]. discriminate.
  - destruct (matching_files folder_to_check extension names w)
      as [|f fs] eqn:Hm.
    + cbv zeta. destruct (PyFloat.ge_int _ _); [|apply IH].
      intros [= <-]. discriminate.
    + intros Heq%(inj Some). rewrite <- Heq.
      apply (process_files_unpacks _ _ _ extension).
      rewrite <- Hm. apply matching_files_matched.
Qed.

Lemma startswith_app p s : PyStr.startswith (p ++ s) p = true.
Proof.
  induction p as [|c p IH]; [apply startswith_nil|].
  rewrite append_cons.
  change (Ascii.eqb c c && PyStr.startswith (p ++ s) p = true).
  rewrite Ascii.eqb_refl, IH. reflexivity.
Qed.

Lemma startswith_neq a b p :
  PyStr.startswith a p = true -> PyStr.startswith b p = false -> a <> b.
Proof. intros Ha Hb ->. congruence. Qed.

Lemma isabs_nonempty p : os_path_isabs p = true -> p <> "".
Proof. intros Hp ->. discriminate. Qed.

Lemma isabs_after_slashes n x :
  os_path_isabs
    (if String.eqb (PyPath.slashes_string (S n) ++ x) ""
     then "." else (PyPath.slashes_string (S n) ++ x)%string) = true.
Proof.
  change (PyPath.slashes_string (S n) ++ x)%string
    with (String "/" (PyPath.slashes_string n ++ x)).
  change (String.eqb (String "/" (PyPath.slashes_string n ++ x)) "")
    with false.
  cbv iota. unfold os_path_isabs. apply startswith_one.
Qed.

(** An absolute path stays absolute under [normpath]. *)
Lemma normpath_isabs path :
  os_path_isabs path = true -> os_path_isabs (PyPath.normpath path) = true.
Proof.
  intros Hp. unfold PyPath.normpath.
  rewrite (eqb_empty_false _ (isabs_nonempty _ Hp)).
  cbv zeta. unfold PyPath.initial_slashes.
  unfold os_path_isabs in Hp. rewrite Hp.
  destruct (PyStr.startswith path "//" && negb (PyStr.startswith path "///"));
    apply isabs_after_slashes.
Qed.

(** With an absolute working directory [abspath] is absolute. *)
Lemma abspath_isabs cwd path :
  os_path_isabs cwd = true -> os_path_isabs (PyPath.abspath cwd path) = true.
Proof.
  intros Hc. unfold PyPath.abspath.
  destruct (os_path_isabs path) eqn:Hp; apply normpath_isabs; [exact Hp|].
  rewrite isabs_join, Hc. apply orb_true_r.
Qed.

Lemma add_arguments_arguments l o :
  arguments (add_arguments l o) = arguments o ++ l.
Proof.
  unfold add_arguments. revert o.
  induction l as [|a l IH]; intros o; simpl.
  - rewrite app_nil_r. reflexivity.
  - rewrite IH. simpl. rewrite <- app_assoc. reflexivity.
Qed.

Lemma add_arguments_options l o :
  experimental_options (add_arguments l o) = experimental_options o.
Proof.
  unfold add_arguments. revert o.
  induction l as [|a l IH]; intros o; simpl; [reflexivity|].
  rewrite IH. reflexivity.
Qed.

Lemma origin_flags_arguments domains o :
  arguments
    (fold_left (fun o domain => add_argument (origin_flag domain) o)
       domains o)
  = arguments o ++ map origin_flag domains.
Proof.
  revert o. induction domains as [|d ds IH]; intros o; simpl.
  - rewrite app_nil_r. reflexivity.
  - rewrite IH. simpl. rewrite <- app_assoc. reflexivity.
Qed.

Lemma origin_flags_options domains o :
  experimental_options
    (fold_left (fun o domain => add_argument (origin_flag domain) o)
       domains o)
  = experimental_options o.
Proof.
  revert o. induction domains as [|d ds IH]; intros o; simpl; [reflexivity|].
  rewrite IH. reflexivity.
Qed.

Lemma arguments_add_experimental_option name v o :
  arguments (add_experimental_option name v o) = arguments o.
Proof. reflexivity. Qed.

Lemma arguments_add_argument a o :
  arguments (add_argument a o) = arguments o ++ [a].
Proof. reflexivity. Qed.

(** The argument list of the options, spelled out. *)
Lemma chrome_arguments dir headless dws domains incognito :
  arguments (chrome_options_of dir headless dws domains incognito)
  = base_arguments
      ++ (if incognito then ["--incognito"] else [])
      ++ (if headless then ["--headless=new"] else [])
      ++ (if dws
          then web_security_arguments
                 ++ map origin_flag (default [] domains)
          else []).
Proof.
  unfold chrome_options_of. cbv zeta.
  destruct incognito, headless, dws;
    try destruct domains as [[|d ds]|];
    cbv iota;
    repeat first
      [ rewrite arguments_add_experimental_option
      | rewrite arguments_add_argument
      | rewrite origin_flags_arguments
      | rewrite add_arguments_arguments ];
    change (arguments new_options) with (@nil string);
    cbn [default id app map]; rewrite <- ?app_assoc, ?app_nil_r; reflexivity.
Qed.

Lemma origin_flag_prefix d :
  PyStr.startswith (origin_flag d) "--u" = true.
Proof.
  unfold origin_flag.
  change ("--unsafely-treat-insecure-origin-as-secure=" ++ origin_of d)%string
    with ("--u" ++ ("nsafely-treat-insecure-origin-as-secure="
                      ++ origin_of d))%string.
  apply startswith_app.
Qed.

End PathFacts.


(** ** The options of the driver *)

Section FlagFacts.

Lemma origin_of_has_scheme d : has_scheme (origin_of d) = true.
Proof.
  unfold origin_of.
  destruct (PyStr.startswith d "http://" || PyStr.startswith d "https://")
    eqn:E; [exact E|].
  unfold has_scheme. rewrite startswith_app. reflexivity.
Qed.

Lemma origin_of_fixed d : has_scheme d = true -> origin_of d = d.
Proof. unfold has_scheme, origin_of. intros ->. reflexivity. Qed.

Lemma is_origin_flag_origin_flag d : is_origin_flag (origin_flag d) = true.
Proof. apply startswith_app. Qed.

Lemma filter_origin_flags ds :
  List.filter is_origin_flag (map origin_flag ds) = map origin_flag ds.
Proof.
  induction ds as [|d ds IH]; [reflexivity|].
  cbn [map List.filter]. rewrite is_origin_flag_origin_flag, IH.
  reflexivity.
Qed.

Lemma existsb_origin_flags a ds :
  PyStr.startswith a "--u" = false ->
  existsb (String.eqb a) (map origin_flag ds) = false.
Proof.
  intros Ha. induction ds as [|d ds IH]; [reflexivity|].
  cbn [map existsb]. rewrite IH, orb_false_r.
  apply String.eqb_neq. intros ->.
  rewrite origin_flag_prefix in Ha. discriminate.
Qed.

Lemma chrome_experimental_options dir headless dws domains incognito :
  experimental_options
    (chrome_options_of dir headless dws domains incognito)
  = <["useAutomationExtension" := OptBool false]>
      (<["prefs" :=
           OptPrefs
             {| download_default_directory := dir;
                download_prompt_for_download := false;
                download_directory_upgrade := true;
                profile_default_content_settings_popups := false;
                plugins_always_open_pdf_externally := true;
                pdfjs_disabled := true |}]>
         (<["excludeSwitches" := OptStrings ["enable-logging"]]> ∅)).
Proof.
  unfold chrome_options_of. cbv zeta.
  destruct incognito, headless, dws;
    try destruct domains as [[|d ds]|];
    cbv iota; cbn [experimental_options add_experimental_option];
    rewrite ?origin_flags_options, ?add_arguments_options;
    cbn [experimental_options add_experimental_option add_argument];
    rewrite ?add_arguments_options;
    cbn [experimental_options add_experimental_option add_argument];
    reflexivity.
Qed.

End FlagFacts.

(** ** The moves of a pass *)

Section PassMoves.
Context {W : Type} `{FileSystem W}.
Variables (folder_to_check folder_storage : string).
Variable (replace_filename : option string).

(** A pass that returns has moved every file to its output path. *)
Lemma process_files_moves files : forall w logger out r out',
  process_files folder_to_check folder_storage replace_filename files w
    logger out = r ->
  result r = Return out' ->
  pass_moves folder_to_check folder_storage replace_filename files w
    (final_world r).
Proof.
  induction files as [|f rest IH]; intros w logger out r out' <-.
  - intros _. constructor.
  - cbn [process_files].
    destruct (PyStr.rsplit1 "." (PyStr.lower f)) as [|a [|b [|c l]]] eqn:Hab;
      try (simpl; discriminate).
    destruct (shutil_move _ _ w) as [w1|e w1] eqn:Hmv; [|simpl; discriminate].
    intros Hr. apply (pass_moves_cons _ _ _ f rest w w1).
    + unfold output_path, result_row. rewrite Hab. exact Hmv.
    + unfold after_cleanup.
      destruct (os_path_exists _ w1).
      * destruct (os_remove _ w1) as [w2|e w2];
          exact (IH _ _ _ _ _ eq_refl Hr).
      * exact (IH _ _ _ _ _ eq_refl Hr).
Qed.

(** A call that returns did so from one pass, whose moves went
    through. *)
Lemma poll_return_moves max_waiting_download extension :
  forall fuel waiting_time w logger r out,
  poll folder_to_check folder_storage replace_filename max_waiting_download
    fuel extension waiting_time w logger = Some r ->
  result r = Return out ->
  exists w' names,
    os_listdir folder_to_check w' = inr names
    /\ matching_files folder_to_check extension names w' <> []
    /\ out = map (result_row folder_storage replace_filename)
               (matching_files folder_to_check extension names w')
    /\ pass_moves folder_to_check folder_storage replace_filename
         (matching_files folder_to_check extension names w') w'
         (final_world r).
Proof.
  induction fuel as [|fuel IH]; intros wt w logger r out; [discriminate|].
  rewrite poll_unfold.
  destruct (os_listdir folder_to_check w) as [e|names] eqn:Hls.
  - intros [= <-]. discriminate.
  - destruct (matching_files folder_to_check extension names w)
      as [|f fs] eqn:Hm.
    + cbv zeta.
      destruct (PyFloat.ge_int _ _).
      * intros [= <-]. discriminate.
      * apply IH.
    + intros Heq%(inj Some) Hr. exists w, names. split; [exact Hls|].
      rewrite Hm. split; [discriminate|]. split.
      * apply (process_files_return _ _ _ _ _ _ _ _ _ Heq Hr).
      * exact (process_files_moves _ _ _ _ _ out Heq Hr).
Qed.

(** One file of a pass whose move went through and left no source. *)
Lemma process_files_cons_moved extension f rest w w1 logger out :
  matched extension f ->
  shutil_move (os_path_join folder_to_check f)
    (output_path folder_storage replace_filename f) w = Ok w1 ->
  os_path_exists (os_path_join folder_to_check f) w1 = false ->
  process_files folder_to_check folder_storage replace_filename (f :: rest)
    w logger out
  = process_files folder_to_check folder_storage replace_filename rest w1
      (log_if logger w1 "wait_download_file"
         ("Moved file from " ++ os_path_join folder_to_check f ++ " to "
            ++ output_path folder_storage replace_filename f) false)
      (out ++ [result_row folder_storage replace_filename f]).
Proof.
  intros Hf Hmv Hex. destruct (matched_rsplit1 _ _ Hf) as (a & b & Hab & _).
  assert (Hdst : output_path folder_storage replace_filename f
                 = os_path_join folder_storage
                     (new_file_name_of replace_filename a ++ "." ++ b)).
  { unfold output_path, result_row. rewrite Hab. reflexivity. }
  assert (Hrow : result_row folder_storage replace_filename f
                 = [new_file_name_of replace_filename a;
                    output_path folder_storage replace_filename f; b]).
  { unfold result_row. rewrite Hab, Hdst. reflexivity. }
  cbn [process_files]. rewrite Hab. cbv zeta.
  rewrite <- Hdst, Hmv, Hrow, Hex. reflexivity.
Qed.

End PassMoves.

(** ** Moves on the in-memory file system *)

Section MemFSMoves.
Import MemFS.

Lemma read_file_stat p fs data :
  MemHost.read_file p fs = Some data <->
  stat (nodes fs) (resolve fs p) = Some (File data).
Proof.
  unfold MemHost.read_file.
  destruct (stat (nodes fs) (resolve fs p)) as [[d|]|]; split;
    congruence.
Qed.

Lemma stat_file_nonempty m r data : stat m r = Some (File data) -> r <> [].
Proof. intros Hs ->. discriminate. Qed.

Lemma stat_file_lookup m r data :
  stat m r = Some (File data) -> m !! r = Some (File data).
Proof. destruct r; [discriminate|]. intros Hs. exact Hs. Qed.

Lemma stat_nonempty m r : r <> [] -> stat m r = m !! r.
Proof. destruct r; [congruence|reflexivity]. Qed.

Lemma last_plain (r : list string) :
  r <> [] -> Forall (fun x => plain x = true) r -> plain (basename r) = true.
Proof.
  intros Hne HF. unfold basename.
  destruct (exists_last Hne) as (l & x & ->).
  rewrite last_last. apply Forall_app in HF. destruct HF as [_ HF].
  inversion HF; assumption.
Qed.

(** Where [shutil.move] leaves a regular file: at [dst], or inside [dst]
    under its own name when [dst] is a directory. *)
Lemma move_lands src dst fs fs' data :
  MemHost.read_file src fs = Some data ->
  move src dst fs = Ok fs' ->
  cwd fs' = cwd fs
  /\ (isdir dst fs = false ->
      nodes fs'
      = <[resolve fs dst := File data]> (delete (resolve fs src) (nodes fs))
      /\ MemHost.read_file dst fs' = Some data)
  /\ (isdir dst fs = true ->
      plain (basename (resolve fs src)) = true
      /\ nodes fs'
         = <[resolve fs dst ++ [basename (resolve fs src)] := File data]>
             (delete (resolve fs src) (nodes fs))
      /\ isdir dst fs' = true).
Proof.
  intros Hread%read_file_stat. unfold move, isdir. cbv zeta.
  rewrite Hread.
  set (rs := resolve fs src) in *. set (rd := resolve fs dst) in *.
  assert (Hrs : rs <> []) by exact (stat_file_nonempty _ _ _ Hread).
  destruct (stat (nodes fs) rd) as [[d|]|] eqn:Hd.
  - (* a regular file is replaced *)
    simpl andb. cbv iota.
    destruct (stat (nodes fs) (removelast rd)) as [[?|]|]; try discriminate.
    intros [= <-]. split; [reflexivity|]. split; [|discriminate].
    intros _. split; [reflexivity|].
    apply read_file_stat. rewrite resolve_with_nodes. fold rd.
    simpl nodes. rewrite stat_nonempty
      by exact (stat_file_nonempty _ _ _ Hd).
    apply lookup_insert_eq.
  - (* into the directory *)
    simpl andb.
    destruct (bool_decide (is_Some (stat (nodes fs) (rd ++ [basename rs]))))
      eqn:Hfree; [discriminate|].
    cbv iota. rewrite removelast_snoc, Hd.
    intros [= <-]. split; [reflexivity|]. split; [discriminate|].
    intros _. split.
    { apply last_plain; [exact Hrs|]. apply resolve_plain. }
    split; [reflexivity|].
    rewrite resolve_with_nodes. fold rd. simpl nodes.
    destruct rd as [|c rd']; [reflexivity|].
    cbn [stat] in *. set (k := c :: rd') in *.
    rewrite lookup_insert_ne.
    2:{ intros Heq. apply (f_equal (@length _)) in Heq.
        rewrite length_app in Heq. simpl in Heq. lia. }
    rewrite lookup_delete_ne.
    2:{ intros Heq. rewrite Heq in *.
        rewrite (stat_file_lookup _ _ _ Hread) in Hd. discriminate. }
    rewrite Hd. reflexivity.
  - (* a free name *)
    simpl andb. cbv iota.
    destruct (stat (nodes fs) (removelast rd)) as [[?|]|]; try discriminate.
    intros [= <-]. split; [reflexivity|]. split; [|discriminate].
    intros _. split; [reflexivity|].
    apply read_file_stat. rewrite resolve_with_nodes. fold rd.
    simpl nodes. rewrite stat_nonempty.
    + apply lookup_insert_eq.
    + intros ->. discriminate.
Qed.

End MemFSMoves.

(** ** Several files sent to one destination *)

Section MemFSOverwrite.
Import MemFS.
Variables (watchDir storageDir : string) (rf : option string).
Variables (ext name : string).
Hypothesis (Hw : watchDir <> "") (Hs : storageDir <> "").
Hypothesis (Hname : plain name = true).

Local Abbreviation dst := (os_path_join storageDir name).
Local Abbreviation to_overwrite :=
  (file_to_overwrite watchDir storageDir rf ext dst).

Lemma isfile_read p fs :
  isfile p fs = true -> exists data, MemHost.read_file p fs = Some data.
Proof.
  unfold isfile, MemHost.read_file.
  destruct (stat (nodes fs) (resolve fs p)) as [[d|]|]; try discriminate.
  eauto.
Qed.

Lemma pass_overwrites : forall files (fs : MemFS.t) logger out,
  isdir storageDir fs = true ->
  isdir dst fs = false ->
  NoDup files ->
  Forall (to_overwrite fs) files ->
  let r := process_files watchDir storageDir rf files fs logger out in
  result r = Return (out ++ map (result_row storageDir rf) files)
  /\ cwd (final_world r) = cwd fs
  /\ (forall k,
        k <> resolve fs dst ->
        (forall f, In f files -> k <> resolve fs (os_path_join watchDir f)) ->
        nodes (final_world r) !! k = nodes fs !! k)
  /\ Forall
       (fun f => exists_ (os_path_join watchDir f) (final_world r) = false)
       files
  /\ (forall f0, files <> [] ->
        MemHost.read_file dst (final_world r)
        = MemHost.read_file (os_path_join watchDir (List.last files f0)) fs
        /\ isfile dst (final_world r) = true).
Proof.
  induction files as [|f rest IH]; intros fs logger out Hsd Hdd Hnd HF;
    cbv zeta.
  { cbn [process_files result final_world map]. rewrite app_nil_r.
    repeat split; try constructor; congruence. }
  inversion HF as [|? ? Hf HF']; subst.
  destruct Hf as (Hpf & Hm & Hout & Hfile & Hneq).
  apply NoDup_cons in Hnd. destruct Hnd as [Hnotin Hnd].
  set (rw := resolve fs watchDir) in *.
  set (rd := resolve fs storageDir) in *.
  pose proof (resolve_join fs storageDir name Hs Hname) as Hrdst.
  fold rd in Hrdst.
  assert (Hsrc : forall g, plain g = true ->
            resolve fs (os_path_join watchDir g) = rw ++ [g]).
  { intros g Hg. apply (resolve_join fs watchDir g Hw Hg). }
  destruct (isfile_read _ _ Hfile) as [data Hread].
  pose proof Hread as Hstat. apply read_file_stat in Hstat.
  rewrite (Hsrc f Hpf) in Hstat, Hneq. rewrite Hrdst in Hneq.
  assert (Hdir : stat (nodes fs) rd = Some Dir).
  { unfold isdir in Hsd. fold rd in Hsd.
    destruct (stat (nodes fs) rd) as [[?|]|]; try discriminate.
    reflexivity. }
  assert (Hnd1 : nodes fs !! (rd ++ [name]) <> Some Dir).
  { unfold isdir in Hdd. rewrite Hrdst, stat_lookup in Hdd.
    intros Heq. rewrite Heq in Hdd. discriminate. }
  set (fs1 := with_nodes fs
                (<[rd ++ [name] := File data]>
                   (delete (rw ++ [f]) (nodes fs)))).
  assert (Hmv : move (os_path_join watchDir f) dst fs = Ok fs1).
  { apply move_file; [apply Hsrc, Hpf | exact Hrdst | exact Hstat
                     | exact Hnd1 | exact Hdir]. }
  assert (Hres : forall p, resolve fs1 p = resolve fs p)
    by (intros p; reflexivity).
  assert (Hgone : exists_ (os_path_join watchDir f) fs1 = false).
  { unfold exists_. rewrite Hres, (Hsrc f Hpf), stat_lookup.
    simpl nodes. rewrite lookup_insert_ne by congruence.
    rewrite lookup_delete_eq. reflexivity. }
  assert (Hkeep : forall k, k <> rd ++ [name] -> k <> rw ++ [f] ->
            nodes fs1 !! k = nodes fs !! k).
  { intros k Hk1 Hk2. simpl nodes.
    rewrite lookup_insert_ne by congruence.
    rewrite lookup_delete_ne by congruence. reflexivity. }
  rewrite (process_files_cons_moved watchDir storageDir rf ext f rest fs fs1
             logger out Hm).
  2:{ rewrite Hout. exact Hmv. }
  2:{ exact Hgone. }
  assert (Hsd1 : isdir storageDir fs1 = true).
  { unfold isdir. rewrite Hres. fold rd.
    destruct rd as [|c rd'] eqn:Erd; [reflexivity|].
    rewrite stat_nonempty by discriminate.
    rewrite Hkeep.
    - rewrite stat_nonempty in Hdir by discriminate. rewrite Hdir.
      reflexivity.
    - intros Heq. apply (f_equal (@length _)) in Heq.
      rewrite length_app in Heq. simpl in Heq. lia.
    - intros Heq. rewrite Heq in Hdir.
      rewrite stat_lookup, (stat_file_lookup _ _ _ Hstat) in Hdir.
      discriminate. }
  assert (Hdd1 : isdir dst fs1 = false).
  { unfold isdir. rewrite Hres, Hrdst, stat_lookup. simpl nodes.
    rewrite lookup_insert_eq. reflexivity. }
  assert (HF1 : Forall (to_overwrite fs1) rest).
  { rewrite Forall_forall in HF' |- *. intros g Hg.
    destruct (HF' g Hg) as (Hpg & Hmg & Hog & Hfg & Hng).
    repeat split; try assumption.
    unfold isfile in Hfg |- *. rewrite Hres.
    rewrite (Hsrc g Hpg), stat_lookup in Hfg |- *.
    rewrite Hkeep; [exact Hfg| |].
    - rewrite (Hsrc g Hpg), Hrdst in Hng. exact Hng.
    - intros Heq. apply app_inj_tail in Heq. destruct Heq as [_ ->].
      apply Hnotin. exact Hg. }
  match goal with
  | |- context [process_files _ _ _ rest fs1 ?lg ?o] =>
      destruct (IH fs1 lg o Hsd1 Hdd1 Hnd HF1)
        as (Hr & Hcwd & Hframe & Hgone' & Hlast)
  end.
  split.
  { etransitivity; [exact Hr|]. rewrite <- app_assoc. reflexivity. }
  split; [exact Hcwd|].
  split.
  { intros k Hk1 Hk2. rewrite Hframe.
    - apply Hkeep; [rewrite <- Hrdst; exact Hk1|].
      rewrite <- (Hsrc f Hpf). apply Hk2. left. reflexivity.
    - exact Hk1.
    - intros g Hg. apply Hk2. right. exact Hg. }
  split.
  { constructor; [|exact Hgone'].
    unfold exists_. rewrite (resolve_cwd fs1 _ _ Hcwd), Hres.
    rewrite (Hsrc f Hpf), stat_lookup, Hframe.
    - simpl nodes. rewrite lookup_insert_ne by congruence.
      rewrite lookup_delete_eq. reflexivity.
    - rewrite Hres, Hrdst. congruence.
    - intros g Hg. rewrite Hres.
      rewrite Forall_forall in HF'.
      destruct (HF' g (proj2 (list_elem_of_In _ _) Hg)) as (Hpg & _).
      rewrite (Hsrc g Hpg). intros Heq.
      apply app_inj_tail in Heq. destruct Heq as [_ ->].
      apply Hnotin, list_elem_of_In. exact Hg. }
  intros f0 _. destruct rest as [|g rest'].
  { cbn [process_files final_world List.last]. rewrite Hread.
    split.
    - apply read_file_stat. rewrite Hres, Hrdst, stat_lookup. simpl nodes.
      apply lookup_insert_eq.
    - unfold isfile. rewrite Hres, Hrdst, stat_lookup. simpl nodes.
      rewrite lookup_insert_eq. reflexivity. }
  destruct (Hlast f0 ltac:(discriminate)) as [Hl1 Hl2].
  split; [|exact Hl2].
  etransitivity; [exact Hl1|].
  change (List.last (f :: g :: rest') f0) with (List.last (g :: rest') f0).
  assert (Hin : List.last (g :: rest') f0 ∈ g :: rest').
  { apply list_elem_of_In.
    destruct (exists_last (l := g :: rest') ltac:(discriminate))
      as (l & x & Hx).
    rewrite Hx, last_last. apply in_or_app. right. left. reflexivity. }
  set (fl := List.last (g :: rest') f0) in *.
  rewrite Forall_forall in HF'.
  destruct (HF' fl Hin) as (Hpl & _ & _ & _ & Hnl).
  unfold MemHost.read_file. rewrite Hres, (Hsrc fl Hpl), !stat_lookup.
  rewrite Hkeep; [reflexivity| |].
  - rewrite (Hsrc fl Hpl), Hrdst in Hnl. exact Hnl.
  - intros Heq. apply app_inj_tail in Heq. destruct Heq as [_ Heq].
    apply Hnotin. rewrite <- Heq. exact Hin.
Qed.

End MemFSOverwrite.
(** * The claims *)

(** C1, as the code has it. In the in-memory POSIX file system:
    watchDir and storageDir are not empty and have no "." or ".."
    component, watchDir is a directory whose listing is exactly
    report.PDF, a regular file, storageDir exists as a directory or can
    be created, and join(storageDir, "report.pdf") is not an existing
    directory. Then [wait(watchDir, "pdf", storageDir, 5)] returns, in its
    first pass, exactly [["report", join(storageDir, "report.pdf"), "pdf"]];
    afterwards the source path no longer exists and the destination is a
    regular file. The joined path is storageDir followed by "/report.pdf"
    unless storageDir already ends with the separator. *)
Theorem C1_single_report
    (fs fs1 : MemFS.t) (watchDir storageDir : string)
    (logger : option Logger.t) (fuel : nat) :
  watchDir <> "" -> storageDir <> "" ->
  dotless watchDir = true -> dotless storageDir = true ->
  os_listdir watchDir fs = inr ["report.PDF"] ->
  os_path_isfile (os_path_join watchDir "report.PDF") fs = true ->
  os_makedirs storageDir fs = Ok fs1 ->
  os_path_isdir (os_path_join storageDir "report.pdf") fs = false ->
  exists r,
    wait_download_file watchDir "pdf" storageDir None 5 logger (S fuel) fs
    = Some r
    /\ result r
       = Return [["report"; os_path_join storageDir "report.pdf"; "pdf"]]
    /\ os_path_exists (os_path_join watchDir "report.PDF") (final_world r)
       = false
    /\ os_path_isfile (os_path_join storageDir "report.pdf") (final_world r)
       = true
    /\ (PyStr.endswith storageDir "/" = false ->
        os_path_join storageDir "report.pdf"
        = (storageDir ++ "/report.pdf")%string).
Proof.
  intros Hw Hs _ _ Hls Hfile Hmk Hnd.
  change (MemFS.listdir watchDir fs = inr ["report.PDF"]) in Hls.
  change (MemFS.isfile (os_path_join watchDir "report.PDF") fs = true)
    in Hfile.
  change (MemFS.makedirs storageDir fs = Ok fs1) in Hmk.
  change (MemFS.isdir (os_path_join storageDir "report.pdf") fs = false)
    in Hnd.
  assert (Hp1 : MemFS.plain "report.PDF" = true) by reflexivity.
  assert (Hp2 : MemFS.plain "report.pdf" = true) by reflexivity.
  set (rw := MemFS.resolve fs watchDir) in *.
  set (rs := MemFS.resolve fs storageDir) in *.
  (* the watched folder *)
  unfold MemFS.listdir in Hls. fold rw in Hls.
  destruct (MemFS.stat (MemFS.nodes fs) rw) as [[d|]|] eqn:Hst;
    try discriminate.
  injection Hls as Hch.
  pose proof (resolve_join fs watchDir _ Hw Hp1) as Hsrc. fold rw in Hsrc.
  pose proof (resolve_join fs storageDir _ Hs Hp2) as Hdst. fold rs in Hdst.
  unfold MemFS.isfile in Hfile. rewrite Hsrc, stat_lookup in Hfile.
  destruct (MemFS.nodes fs !! (rw ++ ["report.PDF"])) as [[data|]|] eqn:Hf;
    try discriminate.
  clear Hfile.
  unfold MemFS.isdir in Hnd. rewrite Hdst, stat_lookup in Hnd.
  assert (Hmkw : MemFS.makedirs watchDir fs = Ok fs).
  { unfold MemFS.makedirs. fold rw. rewrite Hst. reflexivity. }
  (* the storage folder *)
  destruct (makedirs_spec _ _ _ Hmk) as (Hcwd & P1 & P2 & P3).
  fold rs in P2, P3.
  assert (Hres : forall p, MemFS.resolve fs1 p = MemFS.resolve fs p).
  { intros p. apply resolve_cwd, Hcwd. }
  assert (Hst1 : MemFS.stat (MemFS.nodes fs1) rw = Some MemFS.Dir).
  { apply (stat_mono _ _ _ _ P1 Hst). }
  assert (Hf1 : MemFS.nodes fs1 !! (rw ++ ["report.PDF"])
                = Some (MemFS.File data)) by (apply P1, Hf).
  assert (Hnd1 : MemFS.nodes fs1 !! (rs ++ ["report.pdf"])
                 <> Some MemFS.Dir).
  { intros Hd. destruct (P2 _ _ Hd) as [Hd0|(_ & a & b & Ha & Hab & Hk)].
    - rewrite Hd0 in Hnd. discriminate.
    - subst a. apply (f_equal (@length _)) in Hab.
      rewrite !length_app in Hab. simpl in Hab. lia. }
  (* the pass finds the one file *)
  assert (Hmatch :
    matching_files watchDir "pdf" (MemFS.children rw (MemFS.nodes fs1)) fs1
    = ["report.PDF"]).
  { unfold matching_files. apply filter_single.
    - apply NoDup_children.
    - apply elem_of_children. rewrite Hf1. eauto.
    - change (MemFS.isfile (os_path_join watchDir "report.PDF") fs1
              && true = true).
      unfold MemFS.isfile. rewrite Hres, Hsrc, stat_lookup, Hf1. reflexivity.
    - intros y Hy Hpy. apply andb_prop in Hpy. destruct Hpy as [Hyf _].
      change (MemFS.isfile (os_path_join watchDir y) fs1 = true) in Hyf.
      apply elem_of_children in Hy. destruct Hy as [v Hv].
      destruct (P2 _ _ Hv) as [Hv0|(-> & a & b & Ha & Hab & Hk)].
      + assert (Hin : y ∈ MemFS.children rw (MemFS.nodes fs)).
        { apply elem_of_children. eauto. }
        rewrite Hch in Hin. apply list_elem_of_singleton in Hin. exact Hin.
      + exfalso. assert (Hpy : MemFS.plain y = true).
        { pose proof (resolve_plain fs storageDir) as Hall. fold rs in Hall.
          rewrite Hab, <- Hk in Hall. apply Forall_app in Hall.
          destruct Hall as [Hall _]. apply Forall_app in Hall.
          destruct Hall as [_ Hall]. inversion Hall; assumption. }
        unfold MemFS.isfile in Hyf.
        rewrite Hres, (resolve_join fs watchDir y Hw Hpy) in Hyf.
        fold rw in Hyf. rewrite stat_lookup, Hv in Hyf. discriminate. }
  (* the run *)
  assert (Hmv :
    MemFS.move (os_path_join watchDir "report.PDF")
      (os_path_join storageDir "report.pdf") fs1
    = Ok (MemFS.with_nodes fs1
            (<[rs ++ ["report.pdf"] := MemFS.File data]>
               (delete (rw ++ ["report.PDF"]) (MemFS.nodes fs1))))).
  { apply move_file.
    - rewrite Hres. exact Hsrc.
    - rewrite Hres. exact Hdst.
    - rewrite stat_lookup. exact Hf1.
    - exact Hnd1.
    - exact P3. }
  assert (Hne : rs ++ ["report.pdf"] <> rw ++ ["report.PDF"]).
  { intros Heq. apply app_inj_tail in Heq. destruct Heq as [_ Heq].
    discriminate. }
  eexists. split.
  { rewrite (wait_polls watchDir "pdf" storageDir None 5 logger (S fuel)
               fs fs fs1 Hw Hs ltac:(discriminate) Hmkw Hmk).
    - rewrite poll_unfold.
      change (os_listdir watchDir fs1) with (MemFS.listdir watchDir fs1).
      unfold MemFS.listdir. rewrite Hres. fold rw. rewrite Hst1.
      change (normalized "pdf") with "pdf". rewrite Hmatch.
      cbn [process_files].
      change (PyStr.rsplit1 "." (PyStr.lower "report.PDF"))
        with ["report"; "pdf"].
      cbv iota.
      change (new_file_name_of None "report") with "report".
      change ("report" ++ "." ++ "pdf")%string with "report.pdf".
      change (shutil_move (os_path_join watchDir "report.PDF")
                (os_path_join storageDir "report.pdf") fs1)
        with (MemFS.move (os_path_join watchDir "report.PDF")
                (os_path_join storageDir "report.pdf") fs1).
      rewrite Hmv.
      match goal with
      | |- context [os_path_exists ?p ?w] =>
          change (os_path_exists p w) with (MemFS.exists_ p w);
          assert (Hex : MemFS.exists_ p w = false)
      end.
      { unfold MemFS.exists_. rewrite resolve_with_nodes.
        rewrite Hres, Hsrc, stat_lookup. simpl MemFS.nodes.
        rewrite lookup_insert_ne by exact Hne.
        rewrite lookup_delete_eq. reflexivity. }
      rewrite Hex. reflexivity.
    - change (MemFS.isdir watchDir fs1 = true). unfold MemFS.isdir.
      rewrite Hres. fold rw. rewrite Hst1. reflexivity.
    - change (MemFS.isdir storageDir fs1 = true). unfold MemFS.isdir.
      rewrite Hres. fold rs. rewrite P3. reflexivity. }
  cbn [result final_world].
  split; [reflexivity|]. split; [|split].
  - change (MemFS.exists_ (os_path_join watchDir "report.PDF")
              (MemFS.with_nodes fs1
                 (<[rs ++ ["report.pdf"] := MemFS.File data]>
                    (delete (rw ++ ["report.PDF"]) (MemFS.nodes fs1))))
            = false).
    unfold MemFS.exists_. rewrite resolve_with_nodes.
    rewrite Hres, Hsrc, stat_lookup. simpl MemFS.nodes.
    rewrite lookup_insert_ne by exact Hne.
    rewrite lookup_delete_eq. reflexivity.
  - change (MemFS.isfile (os_path_join storageDir "report.pdf")
              (MemFS.with_nodes fs1
                 (<[rs ++ ["report.pdf"] := MemFS.File data]>
                    (delete (rw ++ ["report.PDF"]) (MemFS.nodes fs1))))
            = true).
    unfold MemFS.isfile. rewrite resolve_with_nodes.
    rewrite Hres, Hdst, stat_lookup. simpl MemFS.nodes.
    rewrite lookup_insert_eq. reflexivity.
  - intros Hend. unfold os_path_join.
    rewrite (eqb_empty_false _ Hs), Hend. reflexivity.
Qed.

Lemma C1_single_report_witness :
  exists r,
    wait_download_file "downloads" "pdf" "storage" None 5
      (Some Logger.new) 1 Examples.home_fs = Some r
    /\ result r
       = Return [["report"; os_path_join "storage" "report.pdf"; "pdf"]]
    /\ os_path_exists (os_path_join "downloads" "report.PDF") (final_world r)
       = false
    /\ os_path_isfile (os_path_join "storage" "report.pdf") (final_world r)
       = true
    /\ (PyStr.endswith "storage" "/" = false ->
        os_path_join "storage" "report.pdf"
        = ("storage" ++ "/report.pdf")%string).
Proof.
  apply (C1_single_report Examples.home_fs
           (MemFS.with_nodes Examples.home_fs
              (<[ ["home"; "storage"] := MemFS.Dir ]>
                 (MemFS.nodes Examples.home_fs)))
           "downloads" "storage" (Some Logger.new) 0).
  - discriminate.
  - discriminate.
  - reflexivity.
  - reflexivity.
  - vm_compute. reflexivity.
  - vm_compute. reflexivity.
  - vm_compute. reflexivity.
  - vm_compute. reflexivity.
Defined.

(** C1 fails as stated when the name the download would get is taken by
    a directory: storage/report.pdf is a directory, the one file
    report.PDF waits in downloads, and the call returns the triple of the
    claim, but no regular file storage/report.pdf exists afterwards:
    [shutil.move] has put the download inside that directory under its
    old name, storage/report.pdf/report.PDF. *)
Lemma C1_counterexample :
  exists r,
    os_listdir "downloads" Examples.taken_fs = inr ["report.PDF"]
    /\ os_path_isfile "downloads/report.PDF" Examples.taken_fs = true
    /\ os_path_isdir "storage" Examples.taken_fs = true
    /\ wait_download_file "downloads" "pdf" "storage" None 5 None 1
         Examples.taken_fs = Some r
    /\ result r = Return [["report"; "storage/report.pdf"; "pdf"]]
    /\ os_path_exists "downloads/report.PDF" (final_world r) = false
    /\ os_path_isfile "storage/report.pdf" (final_world r) = false
    /\ os_path_isdir "storage/report.pdf" (final_world r) = true
    /\ os_listdir "storage" (final_world r) = inr ["report.pdf"]
    /\ MemHost.read_file "storage/report.pdf/report.PDF" (final_world r)
       = Some "%PDF-1.7".
Proof.
  eexists. split; [vm_compute; reflexivity|].
  split; [vm_compute; reflexivity|].
  split; [vm_compute; reflexivity|].
  split; [vm_compute; reflexivity|].
  repeat split; vm_compute; reflexivity.
Qed.

(** C2, as the code has it. A run with a logger [l] that raises ends in
    one of three ways. (1) It raised before or while listing: one of the
    three ValueErrors, "Failed to create folders: <cause>" after a failed
    makedirs, or the OSError of a failed listdir; the logger is exactly
    [l], nothing was logged. (2) It raised TimeoutError and the logger is
    [l] plus one entry, the error entry of the timeout. (3) A move failed:
    the run raises that OSError and the last entry logged is the error
    entry "Failed to move file <src>: <cause>"; any error entry logged
    before it in this run records a failed clean-up. *)
Theorem C2_error_paths_logging
    (W : Type) (FS : FileSystem W)
    (folder_to_check extension folder_storage : string)
    (replace_filename : option string) (max_waiting_download : Z)
    (l : Logger.t) (fuel : nat) (w : W) (r : run W) (e : exn) :
  wait_download_file folder_to_check extension folder_storage
    replace_filename max_waiting_download (Some l) fuel w = Some r ->
  result r = Raise e ->
  (final_logger r = Some l
   /\ (e = ValueError "Folder paths cannot be empty"
       \/ e = ValueError "Extension cannot be empty"
       \/ e = ValueError "Invalid folder paths"
       \/ (exists cause w0 w1,
             (os_makedirs folder_to_check w0 = Err cause w1
              \/ os_makedirs folder_storage w0 = Err cause w1)
             /\ e = OSError ("Failed to create folders: " ++ cause))
       \/ (exists cause w0,
             os_listdir folder_to_check w0 = inl cause
             /\ e = OSError cause)))
  \/ (e = TimeoutError "Timeout waiting for download"
      /\ final_logger r =
           Some (l ++ [timeout_entry (datetime_now (final_world r))
                         max_waiting_download]))
  \/ (exists pre f w0 w1 cause,
        shutil_move (os_path_join folder_to_check f)
          (output_path folder_storage replace_filename f) w0 = Err cause w1
        /\ e = OSError cause
        /\ final_logger r =
             Some (l ++ pre ++ [move_failure_entry (datetime_now w1)
                                  (os_path_join folder_to_check f) cause])
        /\ only_remove_failures pre).
Proof.
  intros Hrun Hr.
  destruct (wait_inv _ _ _ _ _ _ _ _ _ Hrun)
    as [[Hl Hcase] | [_ [w2 Hpoll]]].
  - left. split; [exact Hl|]. rewrite Hr in Hcase.
    destruct Hcase as [[= ->] | [[= ->] | [[= ->] | Hmk]]]; auto.
    destruct Hmk as (cause & w0 & w1 & Hmk & [= ->]).
    do 3 right. left. exists cause, w0, w1. auto.
  - destruct (poll_raise _ _ _ _ _ _ _ _ _ _ _ Hpoll Hr)
      as [(cause & w' & Hls & He & Hl) | [Ht | Hmv]].
    + left. split; [exact Hl|]. do 4 right. exists cause, w'. auto.
    + right. left. exact Ht.
    + right. right. exact Hmv.
Qed.

Lemma C2_error_paths_logging_witness :
  let r := Run (world_at Examples.idle_fs 4) (Some [timeout_entry 4 1])
             (Raise (TimeoutError "Timeout waiting for download")) in
  wait_download_file "downloads" "pdf" "storage" None 1
    (Some Logger.new) 5 Examples.idle_fs = Some r
  /\ final_logger r =
       Some (Logger.new ++ [timeout_entry (datetime_now (final_world r)) 1]).
Proof.
  cbv zeta.
  assert (Hrun :
    wait_download_file "downloads" "pdf" "storage" None 1
      (Some Logger.new) 5 Examples.idle_fs
    = Some (Run (world_at Examples.idle_fs 4) (Some [timeout_entry 4 1])
              (Raise (TimeoutError "Timeout waiting for download"))))
    by (vm_compute; reflexivity).
  split; [exact Hrun|].
  destruct (C2_error_paths_logging MemFS.t _ "downloads" "pdf" "storage"
              None 1 Logger.new 5 Examples.idle_fs _ _ Hrun eq_refl)
    as [[_ Hc] | [[_ Hl] | (pre & f & w0 & w1 & cause & _ & He & _)]].
  - exfalso.
    destruct Hc as [Hc | [Hc | [Hc | [(c & ? & ? & _ & Hc)
                                     | (c & ? & _ & Hc)]]]];
      discriminate Hc.
  - exact Hl.
  - discriminate He.
Defined.

(** C2 fails as stated: a call with an empty folder path and a logger
    raises ValueError and leaves no error entry in the logger. *)
Lemma C2_counterexample :
  exists r,
    wait_download_file "" "pdf" "storage" None 5 (Some Logger.new) 1
      Examples.home_fs = Some r
    /\ result r = Raise (ValueError "Folder paths cannot be empty")
    /\ ~ logs_one_error_on_raise Logger.new r.
Proof.
  eexists. split; [reflexivity|]. split; [reflexivity|].
  unfold logs_one_error_on_raise. simpl. intros Hone.
  specialize (Hone (ex_intro _ _ eq_refl)). discriminate.
Qed.

(** C3 on the code. In the in-memory POSIX file system, when watchDir
    names an existing entry that is not a directory, or watchDir is fine
    and storageDir names such an entry, the call raises the OSError
    "Failed to create folders: ..." of line 100: makedirs refuses the path
    before the directory check of line 102 is reached, so the ValueError
    "Invalid folder paths" is not what the caller gets. *)
Theorem C3_existing_file_raises_oserror
    (fs fs1 : MemFS.t) (watchDir extension storageDir bad : string)
    (replace_filename : option string) (max_waiting_download : Z)
    (logger : option Logger.t) (fuel : nat) :
  watchDir <> "" -> storageDir <> "" -> extension <> "" ->
  (bad = watchDir /\ fs1 = fs)
  \/ (bad = storageDir /\ os_makedirs watchDir fs = Ok fs1) ->
  os_path_exists bad fs1 = true ->
  os_path_isdir bad fs1 = false ->
  wait_download_file watchDir extension storageDir replace_filename
    max_waiting_download logger fuel fs
  = Some (Run fs1 logger
            (Raise (OSError ("Failed to create folders: "
                               ++ MemFS.eexist bad)))).
Proof.
  intros Hw Hs He Hbad Hex Hnd.
  change (MemFS.exists_ bad fs1 = true) in Hex.
  change (MemFS.isdir bad fs1 = false) in Hnd.
  unfold MemFS.exists_ in Hex. unfold MemFS.isdir in Hnd.
  assert (Hmk : MemFS.makedirs bad fs1 = Err (MemFS.eexist bad) fs1).
  { unfold MemFS.makedirs.
    destruct (MemFS.stat (MemFS.nodes fs1) (MemFS.resolve fs1 bad))
      as [[data|]|]; try discriminate.
    reflexivity. }
  unfold wait_download_file.
  rewrite (eqb_empty_false _ Hw), (eqb_empty_false _ Hs),
    (eqb_empty_false _ He). simpl orb. cbv iota.
  destruct Hbad as [[-> ->] | [-> Hmkw]].
  - change (os_makedirs watchDir fs) with (MemFS.makedirs watchDir fs).
    rewrite Hmk. reflexivity.
  - rewrite Hmkw.
    change (os_makedirs storageDir fs1) with (MemFS.makedirs storageDir fs1).
    rewrite Hmk. reflexivity.
Qed.

Lemma C3_existing_file_raises_oserror_witness :
  wait_download_file "downloads" "pdf" "storage" None 5
    (Some Logger.new) 1 Examples.blocked_fs
  = Some (Run Examples.blocked_fs (Some Logger.new)
            (Raise (OSError ("Failed to create folders: "
                               ++ MemFS.eexist "downloads"))))
  /\ wait_download_file "downloads" "pdf" "downloads/report.PDF" None 5
       (Some Logger.new) 1 Examples.home_fs
     = Some (Run Examples.home_fs (Some Logger.new)
               (Raise (OSError ("Failed to create folders: "
                                  ++ MemFS.eexist "downloads/report.PDF")))).
Proof.
  split.
  - apply (C3_existing_file_raises_oserror Examples.blocked_fs
             Examples.blocked_fs "downloads" "pdf" "storage" "downloads").
    + discriminate.
    + discriminate.
    + discriminate.
    + left. split; reflexivity.
    + vm_compute. reflexivity.
    + vm_compute. reflexivity.
  - apply (C3_existing_file_raises_oserror Examples.home_fs
             Examples.home_fs "downloads" "pdf" "downloads/report.PDF"
             "downloads/report.PDF").
    + discriminate.
    + discriminate.
    + discriminate.
    + right. split; [reflexivity | vm_compute; reflexivity].
    + vm_compute. reflexivity.
    + vm_compute. reflexivity.
Defined.

(** C4, as the code has it. A successful call returns the triples of
    the files matched by one listing, in order, and each triple is
    [name, path, ext] with path = os.path.join(storageDir, name.ext), the
    destination that the [shutil.move] of that file was called with and
    returned from. The path is absolute exactly when storageDir is
    absolute or the name is, so it is absolute for every absolute
    storageDir, and relative otherwise. In the in-memory POSIX file
    system a regular file moved by [shutil.move] is afterwards at the
    destination, unless the destination was a directory: then the
    destination still is that directory and the file is inside it under
    its own name. *)
Theorem C4_path_is_joined_storage
    (W : Type) (FS : FileSystem W)
    (folder_to_check extension folder_storage : string)
    (replace_filename : option string) (max_waiting_download : Z)
    (logger : option Logger.t) (fuel : nat) (w : W) (r : run W)
    (out : list (list string)) :
  wait_download_file folder_to_check extension folder_storage
    replace_filename max_waiting_download logger fuel w = Some r ->
  result r = Return out ->
  Forall
    (fun triple =>
       exists name path ext,
         triple = [name; path; ext]
         /\ path = os_path_join folder_storage (name ++ "." ++ ext)
         /\ os_path_isabs path
            = os_path_isabs name || os_path_isabs folder_storage
         /\ (os_path_isabs folder_storage = true ->
             os_path_isabs path = true))
    out
  /\ (exists w' names,
        let found :=
          matching_files folder_to_check (normalized extension) names w' in
        os_listdir folder_to_check w' = inr names
        /\ Forall2
             (fun f triple =>
                exists name ext,
                  triple
                  = [name; output_path folder_storage replace_filename f;
                     ext])
             found out
        /\ pass_moves folder_to_check folder_storage replace_filename
             found w' (final_world r))
  /\ (forall (fs fs' : MemFS.t) (src dst data : string),
        file_path src = true -> file_path dst = true ->
        MemHost.read_file src fs = Some data ->
        shutil_move src dst fs = Ok fs' ->
        if os_path_isdir dst fs
        then os_path_isdir dst fs' = true
             /\ os_path_isfile dst fs' = false
             /\ MemHost.read_file
                  (os_path_join dst (MemFS.basename (MemFS.resolve fs src)))
                  fs' = Some data
        else MemHost.read_file dst fs' = Some data).
Proof.
  intros Hrun Hr.
  destruct (wait_inv _ _ _ _ _ _ _ _ _ Hrun)
    as [[_ Hcase] | [_ [w2 Hpoll]]].
  { rewrite Hr in Hcase.
    destruct Hcase as [Hc | [Hc | [Hc | (? & ? & ? & _ & Hc)]]];
      discriminate Hc. }
  destruct (poll_return_moves _ _ _ _ _ _ _ _ _ _ _ Hpoll Hr)
    as (w' & names & Hls & _ & -> & Hmoves).
  pose proof (matching_files_matched folder_to_check
                (normalized extension) names w') as HF.
  split; [|split].
  - apply Forall_forall. intros triple Hin.
    apply list_elem_of_fmap in Hin. destruct Hin as (f & -> & Hf).
    rewrite Forall_forall in HF. specialize (HF f Hf).
    destruct (result_row_matched folder_storage replace_filename _ _ HF)
      as (base & e & _ & _ & Hrow).
    eexists _, _, _. split; [exact Hrow|]. split; [reflexivity|].
    rewrite isabs_join, isabs_name_dot. split; [reflexivity|].
    intros ->. apply orb_true_r.
  - exists w', names. cbv zeta. split; [exact Hls|]. split; [|exact Hmoves].
    clear Hmoves Hr Hpoll Hls.
    induction HF as [|f fs Hf HF IH]; [constructor|].
    rewrite fmap_cons. constructor; [|exact IH].
    destruct (result_row_matched folder_storage replace_filename _ _ Hf)
      as (base & e & _ & _ & Hrow).
    unfold output_path. rewrite Hrow. eexists _, _. reflexivity.
  - intros fs fs' src dst data _ Hdst Hread Hmv.
    change (MemFS.move src dst fs = Ok fs') in Hmv.
    change (os_path_isdir dst fs) with (MemFS.isdir dst fs).
    destruct (move_lands _ _ _ _ _ Hread Hmv) as (Hcwd & Hfile & Hdir).
    destruct (MemFS.isdir dst fs) eqn:Hd.
    + destruct (Hdir eq_refl) as (Hb & Hnodes & Hd').
      change (MemFS.isdir dst fs' = true
              /\ MemFS.isfile dst fs' = false
              /\ MemHost.read_file
                   (os_path_join dst
                      (MemFS.basename (MemFS.resolve fs src)))
                   fs' = Some data).
      split; [exact Hd'|]. split.
      { unfold MemFS.isdir in Hd'. unfold MemFS.isfile.
        destruct (MemFS.stat (MemFS.nodes fs') (MemFS.resolve fs' dst))
          as [[?|]|]; try discriminate. reflexivity. }
      assert (Hne : dst <> "").
      { intros ->. vm_compute in Hdst. discriminate Hdst. }
      apply read_file_stat.
      rewrite (resolve_join fs' dst _ Hne Hb), (resolve_cwd _ _ _ Hcwd).
      rewrite stat_lookup, Hnodes. apply lookup_insert_eq.
    + exact (proj2 (Hfile eq_refl)).
Qed.

Lemma C4_path_is_joined_storage_witness :
  let r := Run
             (MemFS.with_nodes Examples.home_fs
                (list_to_map
                   [(["home"], MemFS.Dir);
                    (["home"; "downloads"], MemFS.Dir);
                    (["srv"], MemFS.Dir);
                    (["srv"; "storage"], MemFS.Dir);
                    (["srv"; "storage"; "report.pdf"],
                     MemFS.File "%PDF-1.7")]))
             None
             (Return [["report"; "/srv/storage/report.pdf"; "pdf"]]) in
  wait_download_file "downloads" "pdf" "/srv/storage" None 5 None 1
    Examples.home_fs = Some r
  /\ Forall
       (fun triple =>
          exists name path ext,
            triple = [name; path; ext]
            /\ path = os_path_join "/srv/storage" (name ++ "." ++ ext)
            /\ os_path_isabs path
               = os_path_isabs name || os_path_isabs "/srv/storage"
            /\ (os_path_isabs "/srv/storage" = true ->
                os_path_isabs path = true))
       [["report"; "/srv/storage/report.pdf"; "pdf"]]
  /\ (exists (w' : MemFS.t) names,
        os_listdir "downloads" w' = inr names
        /\ pass_moves "downloads" "/srv/storage" None
             (matching_files "downloads" (normalized "pdf") names w') w'
             (final_world r))
  /\ (exists fs' : MemFS.t,
        shutil_move "downloads/report.PDF" "storage/report.pdf"
          Examples.taken_fs = Ok fs'
        /\ os_path_isdir "storage/report.pdf" fs' = true
        /\ os_path_isfile "storage/report.pdf" fs' = false
        /\ MemHost.read_file "storage/report.pdf/report.PDF" fs'
           = Some "%PDF-1.7").
Proof.
  cbv zeta.
  assert (Hrun :
    wait_download_file "downloads" "pdf" "/srv/storage" None 5 None 1
      Examples.home_fs
    = Some (Run
              (MemFS.with_nodes Examples.home_fs
                 (list_to_map
                    [(["home"], MemFS.Dir);
                     (["home"; "downloads"], MemFS.Dir);
                     (["srv"], MemFS.Dir);
                     (["srv"; "storage"], MemFS.Dir);
                     (["srv"; "storage"; "report.pdf"],
                      MemFS.File "%PDF-1.7")]))
              None
              (Return [["report"; "/srv/storage/report.pdf"; "pdf"]])))
    by (vm_compute; reflexivity).
  split; [exact Hrun|].
  destruct (C4_path_is_joined_storage MemFS.t _ "downloads" "pdf"
              "/srv/storage" None 5 None 1 Examples.home_fs _ _ Hrun
              eq_refl)
    as (Hall & (w' & names & Hls & _ & Hmoves) & Hlands).
  split; [exact Hall|].
  split; [exists w', names; split; [exact Hls|exact Hmoves]|].
  assert (Hmv :
    shutil_move "downloads/report.PDF" "storage/report.pdf"
      Examples.taken_fs
    = Ok (MemFS.with_nodes Examples.taken_fs
            (list_to_map
               [(["home"], MemFS.Dir);
                (["home"; "downloads"], MemFS.Dir);
                (["home"; "storage"], MemFS.Dir);
                (["home"; "storage"; "report.pdf"], MemFS.Dir);
                (["home"; "storage"; "report.pdf"; "report.PDF"],
                 MemFS.File "%PDF-1.7")])))
    by (vm_compute; reflexivity).
  eexists. split; [exact Hmv|].
  exact (Hlands Examples.taken_fs _ "downloads/report.PDF"
           "storage/report.pdf" "%PDF-1.7" eq_refl eq_refl eq_refl Hmv).
Defined.

(** C4 fails as stated: with the relative storageDir "storage" the call
    succeeds and the second component of its triple, "storage/report.pdf",
    is not an absolute path. *)
Lemma C4_counterexample :
  exists r path,
    wait_download_file "downloads" "pdf" "storage" None 5 None 1
      Examples.home_fs = Some r
    /\ result r = Return [["report"; path; "pdf"]]
    /\ os_path_isabs path = false.
Proof.
  eexists _, _. split; [vm_compute; reflexivity|].
  split; reflexivity.
Qed.

(** C5. Validation and set-up pass, the passes 0..n each list the folder
    and find no matching file, and the time accumulated after pass n (one
    0.2 per empty pass, added in binary64) has reached
    max_waiting_download. Then, given fuel for it, the call raises
    TimeoutError at pass j, the first pass after which the accumulated
    time reaches the limit; a supplied logger gets exactly one more entry,
    an error entry whose message names "Timeout" and the limit. The check
    sits at the end of a pass: the call ends in the world of pass j, with
    no sleep after the last listing. *)
Theorem C5_timeout
    (W : Type) (FS : FileSystem W)
    (folder_to_check extension folder_storage : string)
    (replace_filename : option string) (max_waiting_download : Z)
    (logger : option Logger.t) (w w1 w2 : W) (n : nat) :
  folder_to_check <> "" -> folder_storage <> "" -> extension <> "" ->
  os_makedirs folder_to_check w = Ok w1 ->
  os_makedirs folder_storage w1 = Ok w2 ->
  os_path_isdir folder_to_check w2 = true ->
  os_path_isdir folder_storage w2 = true ->
  (forall k, k <= n ->
     no_match folder_to_check (normalized extension) (world_at w2 k) = true) ->
  PyFloat.ge_int (accumulated (S n)) max_waiting_download = true ->
  exists j,
    j <= n
    /\ (forall k, k < j ->
          PyFloat.ge_int (accumulated (S k)) max_waiting_download = false)
    /\ PyFloat.ge_int (accumulated (S j)) max_waiting_download = true
    /\ forall fuel, j < fuel ->
         wait_download_file folder_to_check extension folder_storage
           replace_filename max_waiting_download logger fuel w
         = Some
             (Run (world_at w2 j)
                (option_map
                   (fun l =>
                      l ++ [ {| Logger.timestamp :=
                                  datetime_now (world_at w2 j);
                                Logger.function := "wait_download_file";
                                Logger.message :=
                                  "Timeout waiting for download after "
                                    ++ PyStr.str_of_int max_waiting_download
                                    ++ " seconds";
                                Logger.is_error := true |} ])
                   logger)
                (Raise (TimeoutError "Timeout waiting for download"))).
Proof.
  intros Hc Hs He Hm1 Hm2 Hd1 Hd2 Hno Hge.
  destruct (poll_timeout folder_to_check folder_storage replace_filename
              max_waiting_download (normalized extension) logger w2 n n 0
              eq_refl
              ltac:(intros k Hk; apply Hno; lia) Hge)
    as (j & Hj & Hlt & Hgj & Hrun).
  exists j. split; [lia|]. split; [intros k Hk; apply Hlt; lia|].
  split; [exact Hgj|]. intros fuel Hf.
  rewrite (wait_polls _ _ _ _ _ _ _ _ _ _ Hc Hs He Hm1 Hm2 Hd1 Hd2).
  change PyFloat.zero with (accumulated 0).
  change w2 with (world_at w2 0) at 1.
  rewrite Hrun by lia. destruct logger; reflexivity.
Qed.

Lemma C5_timeout_witness :
  exists j,
    j <= 4
    /\ (forall k, k < j -> PyFloat.ge_int (accumulated (S k)) 1 = false)
    /\ PyFloat.ge_int (accumulated (S j)) 1 = true
    /\ forall fuel, j < fuel ->
         wait_download_file "downloads" "pdf" "storage" None 1
           (Some Logger.new) fuel Examples.idle_fs
         = Some
             (Run (world_at Examples.idle_fs j)
                (option_map
                   (fun l =>
                      l ++ [ {| Logger.timestamp :=
                                  datetime_now (world_at Examples.idle_fs j);
                                Logger.function := "wait_download_file";
                                Logger.message :=
                                  "Timeout waiting for download after "
                                    ++ PyStr.str_of_int 1 ++ " seconds";
                                Logger.is_error := true |} ])
                   (Some Logger.new))
                (Raise (TimeoutError "Timeout waiting for download"))).
Proof.
  apply (C5_timeout MemFS.t _ "downloads" "pdf" "storage" None 1
           (Some Logger.new) Examples.idle_fs Examples.idle_fs
           Examples.idle_fs 4).
  - discriminate.
  - discriminate.
  - discriminate.
  - reflexivity.
  - reflexivity.
  - reflexivity.
  - reflexivity.
  - intros k Hk.
    do 5 (destruct k as [|k]; [vm_compute; reflexivity|]). lia.
  - vm_compute. reflexivity.
Defined.

(** C6, as the code has it. A call that returns found its files in one
    pass over a listing and returns one triple per matched file, in
    listing order. For a matched file whose lowercased name is base.ext
    (ext after the last dot) the triple is
    [targetName, join(storageDir, targetName.ext), ext], where targetName
    is renameTo when that is a non-empty string and base when renameTo is
    absent or empty; the join is storageDir/targetName.ext for a relative
    targetName and targetName.ext alone for an absolute one. With
    renameTo "final" the file a.csv gives
    ["final", join(storageDir, "final.csv"), "csv"], and matched files of
    one dot-free extension all get the same destination under a
    renameTo. In the in-memory POSIX file system, a pass over distinct
    regular files of the watched folder that are all sent to the one
    destination, a proper name in the existing storage folder that is
    not a directory and not one of the files, returns one triple per
    file, leaves none of the sources, and leaves at the destination a
    regular file with the contents of the file moved last: each later
    move has overwritten the earlier one. So with a.csv and b.csv waiting
    and renameTo "final" the call returns two triples while storage holds
    the single file final.csv. *)
Theorem C6_rename_and_destination
    (W : Type) (FS : FileSystem W)
    (folder_to_check extension folder_storage : string)
    (replace_filename : option string) (max_waiting_download : Z)
    (logger : option Logger.t) (fuel : nat) (w : W) (r : run W)
    (out : list (list string)) :
  wait_download_file folder_to_check extension folder_storage
    replace_filename max_waiting_download logger fuel w = Some r ->
  result r = Return out ->
  (exists w' names,
     let found :=
       matching_files folder_to_check (normalized extension) names w' in
     os_listdir folder_to_check w' = inr names
     /\ found <> []
     /\ length out = length found
     /\ Forall2
          (fun f triple =>
             exists base ext,
               PyStr.lower f = (base ++ "." ++ ext)%string
               /\ PyStr.contains "." ext = false
               /\ let targetName :=
                    match replace_filename with
                    | Some renameTo =>
                        if String.eqb renameTo "" then base else renameTo
                    | None => base
                    end in
                  triple = [targetName;
                            os_path_join folder_storage
                              (targetName ++ "." ++ ext);
                            ext])
          found out)
  /\ (forall storageDir targetName ext,
        (os_path_isabs targetName = true ->
         os_path_join storageDir (targetName ++ "." ++ ext)
         = (targetName ++ "." ++ ext)%string)
        /\ (os_path_isabs targetName = false ->
            storageDir <> "" -> PyStr.endswith storageDir "/" = false ->
            os_path_join storageDir (targetName ++ "." ++ ext)
            = (storageDir ++ "/" ++ targetName ++ "." ++ ext)%string))
  /\ (forall storageDir,
        result_row storageDir (Some "final") "a.csv"
        = ["final"; os_path_join storageDir "final.csv"; "csv"])
  /\ (forall storageDir renameTo ext f1 f2,
        renameTo <> "" -> PyStr.contains "." ext = false ->
        matched ext f1 -> matched ext f2 ->
        output_path storageDir (Some renameTo) f1
        = os_path_join storageDir (renameTo ++ "." ++ ext)
        /\ output_path storageDir (Some renameTo) f2
           = output_path storageDir (Some renameTo) f1)
  /\ (forall (fs : MemFS.t) watchDir storageDir renameTo ext files
             (lg : option Logger.t) (acc : list (list string)) f0,
        let dst := os_path_join storageDir (renameTo ++ "." ++ ext) in
        watchDir <> "" -> storageDir <> "" -> renameTo <> "" ->
        dotless watchDir = true -> dotless storageDir = true ->
        PyStr.contains "." ext = false ->
        MemFS.plain (renameTo ++ "." ++ ext) = true ->
        os_path_isdir storageDir fs = true ->
        os_path_isdir dst fs = false ->
        files <> [] -> NoDup files ->
        Forall
          (fun f =>
             MemFS.plain f = true
             /\ matched ext f
             /\ os_path_isfile (os_path_join watchDir f) fs = true
             /\ MemFS.resolve fs (os_path_join watchDir f)
                <> MemFS.resolve fs dst)
          files ->
        let pass :=
          process_files watchDir storageDir (Some renameTo) files fs lg
            acc in
        result pass
        = Return (acc ++ map (fun _ => [renameTo; dst; ext]) files)
        /\ Forall
             (fun f =>
                os_path_exists (os_path_join watchDir f) (final_world pass)
                = false)
             files
        /\ os_path_isfile dst (final_world pass) = true
        /\ MemHost.read_file dst (final_world pass)
           = MemHost.read_file
               (os_path_join watchDir (List.last files f0)) fs)
  /\ (exists r2,
        os_listdir "downloads" Examples.csv_fs = inr ["b.csv"; "a.csv"]
        /\ wait_download_file "downloads" "csv" "storage" (Some "final") 5
             None 1 Examples.csv_fs = Some r2
        /\ result r2 = Return [["final"; "storage/final.csv"; "csv"];
                               ["final"; "storage/final.csv"; "csv"]]
        /\ os_listdir "storage" (final_world r2) = inr ["final.csv"]
        /\ MemFS.nodes (final_world r2) !! ["home"; "storage"; "final.csv"]
           = Some (MemFS.File "alpha")
        /\ os_listdir "downloads" (final_world r2) = inr []).
Proof.
  intros Hrun Hr.
  assert (Hp : forall storageDir renameTo ext f,
            renameTo <> "" -> PyStr.contains "." ext = false ->
            matched ext f ->
            result_row storageDir (Some renameTo) f
            = [renameTo; os_path_join storageDir (renameTo ++ "." ++ ext);
               ext]).
  { intros storageDir renameTo ext f Hrn Hext Hf.
    destruct (result_row_plain storageDir (Some renameTo) _ _ Hext Hf)
      as (base & _ & Hrow).
    rewrite Hrow. simpl. rewrite (eqb_empty_false _ Hrn). reflexivity. }
  split; [|split; [|split; [|split; [|split]]]].
  - destruct (wait_inv _ _ _ _ _ _ _ _ _ Hrun)
      as [[_ Hcase] | [_ [w2 Hpoll]]].
    { rewrite Hr in Hcase.
      destruct Hcase as [Hc | [Hc | [Hc | (? & ? & ? & _ & Hc)]]];
        discriminate Hc. }
    destruct (poll_return _ _ _ _ _ _ _ _ _ _ _ Hpoll Hr)
      as (w' & names & Hls & Hne & ->).
    exists w', names. cbv zeta. split; [exact Hls|]. split; [exact Hne|].
    split; [apply length_map|].
    pose proof (matching_files_matched folder_to_check
                  (normalized extension) names w') as HF.
    clear Hr Hne Hls.
    induction HF as [|f fs Hf HF IH]; [constructor|].
    rewrite fmap_cons. constructor; [|exact IH].
    destruct (result_row_matched folder_storage replace_filename _ _ Hf)
      as (base & e & Hl & He & Hrow).
    exists base, e. split; [exact Hl|]. split; [exact He|]. exact Hrow.
  - intros storageDir targetName ext. unfold os_path_join.
    change (PyStr.startswith (targetName ++ "." ++ ext) "/")
      with (os_path_isabs (targetName ++ "." ++ ext)).
    rewrite isabs_name_dot. split.
    + intros ->. reflexivity.
    + intros -> Hs Hend. rewrite (eqb_empty_false _ Hs), Hend.
      reflexivity.
  - intros storageDir. reflexivity.
  - intros storageDir renameTo ext f1 f2 Hrn Hext H1 H2.
    unfold output_path.
    rewrite (Hp storageDir renameTo ext f1 Hrn Hext H1).
    rewrite (Hp storageDir renameTo ext f2 Hrn Hext H2).
    split; reflexivity.
  - intros fs watchDir storageDir renameTo ext files lg acc f0 dst
      Hw Hs Hrn _ _ Hext Hname Hsd Hdd Hne Hnd HF pass.
    assert (HF' : Forall
                    (file_to_overwrite watchDir storageDir (Some renameTo)
                       ext dst fs)
                    files).
    { rewrite Forall_forall in HF |- *. intros f Hf.
      destruct (HF f Hf) as (H1 & H2 & H3 & H4).
      repeat split; try assumption.
      unfold output_path. rewrite (Hp storageDir renameTo ext f Hrn Hext H2).
      reflexivity. }
    destruct (pass_overwrites watchDir storageDir (Some renameTo) ext
                (renameTo ++ "." ++ ext) Hw Hs Hname files fs lg acc
                Hsd Hdd Hnd HF')
      as (Hres & _ & _ & Hgone & Hlast).
    destruct (Hlast f0 Hne) as [Hl1 Hl2].
    split; [|split; [exact Hgone|split; [exact Hl2|exact Hl1]]].
    etransitivity; [exact Hres|]. do 2 f_equal.
    apply map_ext_in. intros f Hf. rewrite Forall_forall in HF.
    destruct (HF f (proj2 (list_elem_of_In _ _) Hf)) as (_ & H2 & _).
    exact (Hp storageDir renameTo ext f Hrn Hext H2).
  - eexists. split; [vm_compute; reflexivity|].
    split; [vm_compute; reflexivity|].
    repeat split; vm_compute; reflexivity.
Qed.

Lemma C6_rename_and_destination_witness :
  let r := Run
             (MemFS.with_nodes Examples.one_csv_fs
                (list_to_map
                   [(["home"], MemFS.Dir);
                    (["home"; "downloads"], MemFS.Dir);
                    (["home"; "storage"], MemFS.Dir);
                    (["home"; "storage"; "final.csv"],
                     MemFS.File "alpha")]))
             None
             (Return [["final"; "storage/final.csv"; "csv"]]) in
  let fs := MemFS.with_nodes Examples.csv_fs
              (<[ ["home"; "storage"] := MemFS.Dir ]>
                 (MemFS.nodes Examples.csv_fs)) in
  let pass :=
    process_files "downloads" "storage" (Some "final") ["b.csv"; "a.csv"]
      fs None [] in
  wait_download_file "downloads" "csv" "storage" (Some "final") 5 None 1
    Examples.one_csv_fs = Some r
  /\ (exists (w' : MemFS.t) names,
        let found :=
          matching_files "downloads" (normalized "csv") names w' in
        os_listdir "downloads" w' = inr names
        /\ found <> []
        /\ length [["final"; "storage/final.csv"; "csv"]] = length found)
  /\ result pass
     = Return [["final"; "storage/final.csv"; "csv"];
               ["final"; "storage/final.csv"; "csv"]]
  /\ MemHost.read_file "storage/final.csv" (final_world pass)
     = Some "alpha".
Proof.
  cbv zeta.
  assert (Hrun :
    wait_download_file "downloads" "csv" "storage" (Some "final") 5 None 1
      Examples.one_csv_fs
    = Some (Run
              (MemFS.with_nodes Examples.one_csv_fs
                 (list_to_map
                    [(["home"], MemFS.Dir);
                     (["home"; "downloads"], MemFS.Dir);
                     (["home"; "storage"], MemFS.Dir);
                     (["home"; "storage"; "final.csv"],
                      MemFS.File "alpha")]))
              None
              (Return [["final"; "storage/final.csv"; "csv"]])))
    by (vm_compute; reflexivity).
  split; [exact Hrun|].
  destruct (C6_rename_and_destination MemFS.t _ "downloads" "csv"
              "storage" (Some "final") 5 None 1 Examples.one_csv_fs
              _ _ Hrun eq_refl)
    as ((w' & names & Hls & Hne & Hlen & _) & _ & _ & _ & Hover & _).
  split; [exists w', names; auto|].
  destruct (Hover
              (MemFS.with_nodes Examples.csv_fs
                 (<[ ["home"; "storage"] := MemFS.Dir ]>
                    (MemFS.nodes Examples.csv_fs)))
              "downloads" "storage" "final" "csv" ["b.csv"; "a.csv"]
              None [] "")
    as (Hres & _ & _ & Hlast).
  - discriminate.
  - discriminate.
  - discriminate.
  - reflexivity.
  - reflexivity.
  - reflexivity.
  - reflexivity.
  - vm_compute. reflexivity.
  - vm_compute. reflexivity.
  - discriminate.
  - apply NoDup_cons. split.
    + intros Hin. apply list_elem_of_singleton in Hin. discriminate Hin.
    + apply NoDup_singleton.
  - repeat constructor; try (vm_compute; reflexivity);
      vm_compute; discriminate.
  - split; [exact Hres|].
    etransitivity; [exact Hlast|]. vm_compute. reflexivity.
Defined.

(** C6 fails as stated for a renameTo that is provided but empty: line
    126 tests the truth value of replace_filename, so the base name is
    used. *)
Lemma C6_counterexample :
  exists r targetName,
    wait_download_file "downloads" "csv" "storage" (Some "") 5 None 1
      Examples.one_csv_fs = Some r
    /\ result r = Return [[targetName; "storage/a.csv"; "csv"]]
    /\ targetName <> "".
Proof.
  eexists _, _. split; [vm_compute; reflexivity|].
  split; [reflexivity | discriminate].
Qed.

(** C7. In the processing pass, for a matched file [f] followed by the
    files [rest]: if moving [f] fails, the pass ends at once in the world
    that move left, raising the same OSError, with the error entry
    "Failed to move file <src>: <cause>" appended to a supplied logger,
    and [rest] is not touched; if the move succeeds, the source still
    exists and deleting it fails, the error entry
    "Failed to remove file <src>: <cause>" is appended, the triple of [f]
    is kept and the pass goes on with [rest] (it is the pass over [rest]
    from there), so that with no file left it returns. *)
Theorem C7_move_aborts_remove_swallowed
    (W : Type) (FS : FileSystem W)
    (folder_to_check folder_storage : string)
    (replace_filename : option string) (extension f : string)
    (rest : list string) (w : W) (logger : option Logger.t)
    (out : list (list string)) :
  matched extension f ->
  let src := os_path_join folder_to_check f in
  let dst := output_path folder_storage replace_filename f in
  (forall cause w1,
     shutil_move src dst w = Err cause w1 ->
     process_files folder_to_check folder_storage replace_filename
       (f :: rest) w logger out
     = Run w1
         (option_map
            (fun l => l ++ [move_failure_entry (datetime_now w1) src cause])
            logger)
         (Raise (OSError cause)))
  /\ (forall w1 cause w2,
        shutil_move src dst w = Ok w1 ->
        os_path_exists src w1 = true ->
        os_remove src w1 = Err cause w2 ->
        let logger2 :=
          option_map
            (fun l => l ++ [remove_failure_entry (datetime_now w2) src cause])
            (log_if logger w1 "wait_download_file"
               ("Moved file from " ++ src ++ " to " ++ dst) false) in
        let out2 := out ++ [result_row folder_storage replace_filename f] in
        process_files folder_to_check folder_storage replace_filename
          (f :: rest) w logger out
        = process_files folder_to_check folder_storage replace_filename
            rest w2 logger2 out2
        /\ (rest = [] ->
            process_files folder_to_check folder_storage replace_filename
              (f :: rest) w logger out
            = Run w2 logger2 (Return out2))).
Proof.
  intros Hf src dst.
  destruct (matched_rsplit1 _ _ Hf) as (a & b & Hab & _).
  assert (Hdst : dst = os_path_join folder_storage
                         (new_file_name_of replace_filename a ++ "." ++ b)).
  { unfold dst, output_path, result_row. rewrite Hab. reflexivity. }
  assert (Hrow : result_row folder_storage replace_filename f
                 = [new_file_name_of replace_filename a; dst; b]).
  { unfold result_row. rewrite Hab, Hdst. reflexivity. }
  split.
  - intros cause w1 Hmv. cbn [process_files]. rewrite Hab.
    fold src. rewrite <- Hdst, Hmv. destruct logger; reflexivity.
  - intros w1 cause w2 Hmv Hex Hrm logger2 out2.
    assert (Hstep :
      process_files folder_to_check folder_storage replace_filename
        (f :: rest) w logger out
      = process_files folder_to_check folder_storage replace_filename
          rest w2 logger2 out2).
    { cbn [process_files]. rewrite Hab. fold src.
      rewrite <- Hdst, Hmv, Hex, Hrm. unfold logger2, out2.
      rewrite Hrow. destruct logger; reflexivity. }
    split; [exact Hstep|]. intros ->. rewrite Hstep. reflexivity.
Qed.

Lemma C7_move_aborts_remove_swallowed_witness :
  (let r := process_files "downloads" "storage" None ["b.csv"; "a.csv"]
              Examples.clash_fs (Some Logger.new) [] in
   result r
   = Raise (OSError "Destination path 'storage/b.csv/b.csv' already exists")
   /\ final_world r = Examples.clash_fs
   /\ final_logger r
      = Some [move_failure_entry 0 "downloads/b.csv"
                "Destination path 'storage/b.csv/b.csv' already exists"])
  /\ (let r := process_files "downloads" "storage" None ["a.csv"]
                 Examples.sticky_fs (Some Logger.new) [] in
      result r = Return [["a"; "storage/a.csv"; "csv"]]
      /\ error_entries (received Logger.new (final_logger r))
         = [remove_failure_entry 0 "downloads/a.csv"
              "[Errno 13] Permission denied: 'downloads/a.csv'"]).
Proof.
  split; cbv zeta.
  - rewrite (proj1 (C7_move_aborts_remove_swallowed MemFS.t MemFS.file_system
                      "downloads" "storage" None "csv" "b.csv" ["a.csv"]
                      Examples.clash_fs (Some Logger.new) [] eq_refl)
               "Destination path 'storage/b.csv/b.csv' already exists"
               Examples.clash_fs ltac:(vm_compute; reflexivity)).
    repeat split.
  - destruct (proj2 (C7_move_aborts_remove_swallowed CopyFS.t
                       CopyFS.file_system
                       "downloads" "storage" None "csv" "a.csv" []
                       Examples.sticky_fs (Some Logger.new) [] eq_refl)
                (CopyFS.Build
                   (MemFS.write_file (CopyFS.disk Examples.sticky_fs)
                      ("storage/a.csv", "alpha")) true)
                "[Errno 13] Permission denied: 'downloads/a.csv'"
                (CopyFS.Build
                   (MemFS.write_file (CopyFS.disk Examples.sticky_fs)
                      ("storage/a.csv", "alpha")) true)
                ltac:(vm_compute; reflexivity)
                ltac:(vm_compute; reflexivity)
                ltac:(vm_compute; reflexivity)) as [_ Hret].
    rewrite (Hret eq_refl). split; vm_compute; reflexivity.
Defined.

(** C8, as the code has it. For a non-empty extension [e], calling the
    waiter with [e], with "." followed by [e], or with a case variant of
    [e] gives the same outcome, world and log, whatever the provider, the
    folders, the other arguments and the fuel; X.PDF passes the filter for
    the requests "pdf" and ".pdf". *)
Theorem C8_extension_normalization
    (W : Type) (FS : FileSystem W)
    (folder_to_check folder_storage e e' : string)
    (replace_filename : option string) (max_waiting_download : Z)
    (logger : option Logger.t) (fuel : nat) (w : W) :
  e <> "" ->
  e' = ("." ++ e)%string \/ PyStr.lower e' = PyStr.lower e ->
  wait_download_file folder_to_check e' folder_storage replace_filename
    max_waiting_download logger fuel w
  = wait_download_file folder_to_check e folder_storage replace_filename
      max_waiting_download logger fuel w
  /\ matched (normalized "pdf") "X.PDF"
  /\ matched (normalized ".pdf") "X.PDF".
Proof.
  intros He Hv. split; [|split; reflexivity].
  assert (He' : e' <> "").
  { destruct Hv as [-> | Hl]; [discriminate|].
    intros ->. apply He. destruct e; [reflexivity | discriminate]. }
  assert (Hn : PyStr.lower (PyStr.lstrip "." e')
               = PyStr.lower (PyStr.lstrip "." e)).
  { destruct Hv as [-> | Hl]; [reflexivity|].
    rewrite !lower_lstrip, Hl. reflexivity. }
  unfold wait_download_file.
  rewrite (eqb_empty_false _ He), (eqb_empty_false _ He'), Hn.
  reflexivity.
Qed.

Lemma C8_extension_normalization_witness :
  wait_download_file "downloads" ".PDF" "storage" None 5
    (Some Logger.new) 1 Examples.home_fs
  = wait_download_file "downloads" ".pdf" "storage" None 5
      (Some Logger.new) 1 Examples.home_fs
  /\ matched (normalized "pdf") "X.PDF"
  /\ matched (normalized ".pdf") "X.PDF".
Proof.
  apply (C8_extension_normalization _ _ "downloads" "storage" ".pdf" ".PDF").
  - discriminate.
  - right. reflexivity.
Defined.

(** C8 fails as stated for the empty extension: the empty request is
    rejected by the check of line 91, while "." passes it and is only
    then normalized to the empty extension, so that the call polls. *)
Lemma C8_counterexample :
  wait_download_file "downloads" ("." ++ "") "storage" None 1
    (Some Logger.new) 5 Examples.idle_fs
  <> wait_download_file "downloads" "" "storage" None 1
       (Some Logger.new) 5 Examples.idle_fs.
Proof. vm_compute. discriminate. Qed.

(** C9. The table of a fresh logger has no rows and exactly the columns
    Date, Function, Message, IsError, in that order; after one [log] call
    on it the table has exactly one row, which carries the supplied
    function, message and error flag under their columns and a non-null
    date; each further [log] call adds its row after the rows already
    there and keeps the columns. *)
Theorem C9_log_table :
  Logger.get_log_dataframe Logger.new
  = {| Logger.columns := ["Date"; "Function"; "Message"; "IsError"];
       Logger.rows := [] |}
  /\ (forall now fn msg err,
        let df := Logger.get_log_dataframe
                    (Logger.log now fn msg err Logger.new) in
        Logger.columns df = ["Date"; "Function"; "Message"; "IsError"]
        /\ exists row,
             Logger.rows df = [row]
             /\ Logger.cell_at (Logger.columns df) row "Function"
                = Some (Logger.CStr fn)
             /\ Logger.cell_at (Logger.columns df) row "Message"
                = Some (Logger.CStr msg)
             /\ Logger.cell_at (Logger.columns df) row "IsError"
                = Some (Logger.CBool err)
             /\ Logger.cell_at (Logger.columns df) row "Date"
                = Some (Logger.CDate now)
             /\ Logger.cell_at (Logger.columns df) row "Date"
                <> Some Logger.CNull)
  /\ (forall l now fn msg err,
        Logger.columns (Logger.get_log_dataframe (Logger.log now fn msg err l))
        = Logger.columns (Logger.get_log_dataframe l)
        /\ Logger.rows (Logger.get_log_dataframe (Logger.log now fn msg err l))
           = Logger.rows (Logger.get_log_dataframe l)
               ++ [[Logger.CDate now; Logger.CStr fn; Logger.CStr msg;
                    Logger.CBool err]]).
Proof.
  split; [reflexivity|]. split.
  - intros now fn msg err. cbv zeta. split; [reflexivity|].
    eexists. split; [reflexivity|]. simpl.
    repeat split; try reflexivity. discriminate.
  - intros l now fn msg err. split; [reflexivity|].
    unfold Logger.get_log_dataframe, Logger.log. simpl.
    rewrite map_app. reflexivity.
Qed.

(** C10. A directory-entry name accepted by the filter of lines 109-112
    (its lowercased form ends with "." followed by the extension) splits
    at its last dot into exactly two pieces, the second free of dots, so
    the two-way unpacking of line 124 cannot fail: the processing pass
    never ends in the unpacking error. The name ".pdf" gives the empty
    base name. *)
Theorem C10_matched_name_unpacks :
  (forall f extension,
     matched extension f ->
     exists name ext,
       PyStr.rsplit1 "." (PyStr.lower f) = [name; ext]
       /\ PyStr.lower f = (name ++ "." ++ ext)%string
       /\ PyStr.contains "." ext = false)
  /\ (forall (W : Type) (FS : FileSystem W) folder_to_check folder_storage
        replace_filename extension names w logger out msg,
        result (process_files folder_to_check folder_storage replace_filename
                  (matching_files folder_to_check extension names w)
                  w logger out) <> Raise (ValueError msg))
  /\ PyStr.rsplit1 "." (PyStr.lower ".pdf") = [""; "pdf"].
Proof.
  split; [|split].
  - intros f extension Hm. exact (matched_rsplit1 f extension Hm).
  - intros W FS ft fs rf ext names w logger out msg.
    apply (process_files_unpacks ft fs rf ext).
    apply matching_files_matched.
  - reflexivity.
Qed.

Lemma C10_matched_name_unpacks_witness :
  exists name ext,
    PyStr.rsplit1 "." (PyStr.lower "Report.Final.PDF") = [name; ext]
    /\ PyStr.lower "Report.Final.PDF" = (name ++ "." ++ ext)%string
    /\ PyStr.contains "." ext = false.
Proof.
  apply (proj1 C10_matched_name_unpacks "Report.Final.PDF" "pdf").
  reflexivity.
Defined.

(** * Further properties *)

(** X1. The waiter treats the logger as append-only: whatever way the
    call ends, the entries the logger held are still there, in place, and
    every entry added carries the function name "wait_download_file";
    called without a logger it ends without one. *)
Theorem wait_log_append_only
    (W : Type) (FS : FileSystem W)
    (folder_to_check extension folder_storage : string)
    (replace_filename : option string) (max_waiting_download : Z)
    (logger : option Logger.t) (fuel : nat) (w : W) (r : run W) :
  wait_download_file folder_to_check extension folder_storage
    replace_filename max_waiting_download logger fuel w = Some r ->
  match logger with
  | None => final_logger r = None
  | Some l =>
      exists added,
        final_logger r = Some (l ++ added) /\ Forall by_waiter added
  end.
Proof.
  intros Hrun.
  destruct (wait_inv _ _ _ _ _ _ _ _ _ Hrun) as [[Hl _] | [_ [w2 Hpoll]]].
  - destruct logger as [l|]; [|exact Hl].
    exists []. rewrite app_nil_r. split; [exact Hl | constructor].
  - destruct logger as [l|].
    + exact (poll_appends _ _ _ _ _ _ _ _ _ _ Hpoll).
    + exact (poll_no_logger _ _ _ _ _ _ _ _ _ Hpoll).
Qed.

Lemma wait_log_append_only_witness :
  exists added,
    final_logger
      (Run (world_at Examples.idle_fs 4)
         (Some (Logger.log 7 "main" "start" false Logger.new
                  ++ [timeout_entry 4 1]))
         (Raise (TimeoutError "Timeout waiting for download")))
    = Some (Logger.log 7 "main" "start" false Logger.new ++ added)
    /\ Forall by_waiter added.
Proof.
  assert (Hrun :
    wait_download_file "downloads" "pdf" "storage" None 1
      (Some (Logger.log 7 "main" "start" false Logger.new)) 5
      Examples.idle_fs
    = Some (Run (world_at Examples.idle_fs 4)
              (Some (Logger.log 7 "main" "start" false Logger.new
                       ++ [timeout_entry 4 1]))
              (Raise (TimeoutError "Timeout waiting for download"))))
    by (vm_compute; reflexivity).
  exact (wait_log_append_only MemFS.t _ "downloads" "pdf" "storage" None 1
           (Some (Logger.log 7 "main" "start" false Logger.new)) 5
           Examples.idle_fs _ Hrun).
Defined.

(** X2. The audit trail of a successful call with a logger: the call
    adds, after the entries already there, one entry
    "Found downloaded files: <list>" naming the matched files of the pass
    and then, for each of them in order, the entry
    "Moved file from <src> to <dst>", followed by at most one entry about
    the removal of that source; the triples returned are those of the
    same files. *)
Theorem wait_success_log
    (W : Type) (FS : FileSystem W)
    (folder_to_check extension folder_storage : string)
    (replace_filename : option string) (max_waiting_download : Z)
    (l : Logger.t) (fuel : nat) (w : W) (r : run W)
    (out : list (list string)) :
  wait_download_file folder_to_check extension folder_storage
    replace_filename max_waiting_download (Some l) fuel w = Some r ->
  result r = Return out ->
  exists w' names rest,
    let found :=
      matching_files folder_to_check (normalized extension) names w' in
    os_listdir folder_to_check w' = inr names
    /\ final_logger r
       = Some (l ++ found_entry (datetime_now w') found :: rest)
    /\ pass_log folder_to_check folder_storage replace_filename found rest
    /\ out = map (result_row folder_storage replace_filename) found.
Proof.
  intros Hrun Hr.
  destruct (wait_inv _ _ _ _ _ _ _ _ _ Hrun)
    as [[_ Hcase] | [_ [w2 Hpoll]]].
  - rewrite Hr in Hcase.
    destruct Hcase as [Hc | [Hc | [Hc | (? & ? & ? & _ & Hc)]]];
      discriminate Hc.
  - exact (poll_return_log _ _ _ _ _ _ _ _ _ _ _ Hpoll Hr).
Qed.

Lemma wait_success_log_witness :
  exists (w' : MemFS.t) names rest,
    let found := matching_files "downloads" (normalized "pdf") names w' in
    os_listdir "downloads" w' = inr names
    /\ Some [found_entry 0 ["report.PDF"];
             moved_entry 0 "downloads/report.PDF" "storage/report.pdf"]
       = Some (Logger.new ++ found_entry (datetime_now w') found :: rest)
    /\ pass_log "downloads" "storage" None found rest
    /\ [["report"; "storage/report.pdf"; "pdf"]]
       = map (result_row "storage" None) found.
Proof.
  assert (Hrun :
    wait_download_file "downloads" "pdf" "storage" None 5
      (Some Logger.new) 1 Examples.home_fs
    = Some (Run
              (MemFS.with_nodes Examples.home_fs
                 (list_to_map
                    [(["home"], MemFS.Dir);
                     (["home"; "downloads"], MemFS.Dir);
                     (["home"; "storage"], MemFS.Dir);
                     (["home"; "storage"; "report.pdf"],
                      MemFS.File "%PDF-1.7")]))
              (Some [found_entry 0 ["report.PDF"];
                     moved_entry 0 "downloads/report.PDF"
                       "storage/report.pdf"])
              (Return [["report"; "storage/report.pdf"; "pdf"]])))
    by (vm_compute; reflexivity).
  exact (wait_success_log MemFS.t _ "downloads" "pdf" "storage" None 5
           Logger.new 1 Examples.home_fs _ _ Hrun eq_refl).
Defined.

(** X3. A file that shows up while the call waits is picked up by the
    first pass that lists it: when validation and set-up pass, the passes
    0..k-1 find nothing without exhausting the time, and pass k finds
    matching files, the call (given fuel for k+1 passes) is exactly the
    processing pass over those files, in the world after k sleeps; it
    lists the folder k+1 times and never looks again. *)
Theorem wait_picks_up_first_match
    (W : Type) (FS : FileSystem W)
    (folder_to_check extension folder_storage : string)
    (replace_filename : option string) (max_waiting_download : Z)
    (logger : option Logger.t) (w w1 w2 : W) (k : nat)
    (names : list string) :
  folder_to_check <> "" -> folder_storage <> "" -> extension <> "" ->
  os_makedirs folder_to_check w = Ok w1 ->
  os_makedirs folder_storage w1 = Ok w2 ->
  os_path_isdir folder_to_check w2 = true ->
  os_path_isdir folder_storage w2 = true ->
  (forall j, j < k ->
     no_match folder_to_check (normalized extension) (world_at w2 j) = true
     /\ PyFloat.ge_int (accumulated (S j)) max_waiting_download = false) ->
  os_listdir folder_to_check (world_at w2 k) = inr names ->
  matching_files folder_to_check (normalized extension) names
    (world_at w2 k) <> [] ->
  forall fuel, k < fuel ->
    let found :=
      matching_files folder_to_check (normalized extension) names
        (world_at w2 k) in
    wait_download_file folder_to_check extension folder_storage
      replace_filename max_waiting_download logger fuel w
    = Some (process_files folder_to_check folder_storage replace_filename
              found (world_at w2 k)
              (option_map
                 (fun l => l ++ [found_entry (datetime_now (world_at w2 k))
                                   found])
                 logger)
              []).
Proof.
  intros Hc Hs He Hm1 Hm2 Hd1 Hd2 Hno Hls Hne fuel Hf found.
  rewrite (wait_polls _ _ _ _ _ _ _ _ _ _ Hc Hs He Hm1 Hm2 Hd1 Hd2).
  change PyFloat.zero with (accumulated 0).
  change w2 with (world_at w2 0) at 1.
  rewrite (poll_found folder_to_check folder_storage replace_filename
             max_waiting_download (normalized extension) logger w2 k names
             k 0 eq_refl ltac:(intros j Hj; apply Hno; lia) Hls Hne fuel Hf).
  destruct logger; reflexivity.
Qed.

Lemma wait_picks_up_first_match_witness :
  wait_download_file "downloads" "pdf" "storage" None 5 None 3
    Examples.late_fs
  = Some (process_files "downloads" "storage" None
            (matching_files "downloads" (normalized "pdf") ["report.pdf"]
               (world_at
                  (MemFS.with_nodes Examples.late_fs
                     (<[ ["home"; "storage"] := MemFS.Dir ]>
                        (MemFS.nodes Examples.late_fs))) 2))
            (world_at
               (MemFS.with_nodes Examples.late_fs
                  (<[ ["home"; "storage"] := MemFS.Dir ]>
                     (MemFS.nodes Examples.late_fs))) 2)
            None []).
Proof.
  apply (wait_picks_up_first_match MemFS.t _ "downloads" "pdf" "storage"
           None 5 None Examples.late_fs Examples.late_fs
           (MemFS.with_nodes Examples.late_fs
              (<[ ["home"; "storage"] := MemFS.Dir ]>
                 (MemFS.nodes Examples.late_fs)))
           2 ["report.pdf"]).
  - discriminate.
  - discriminate.
  - discriminate.
  - vm_compute. reflexivity.
  - vm_compute. reflexivity.
  - vm_compute. reflexivity.
  - vm_compute. reflexivity.
  - intros j Hj.
    do 2 (destruct j as [|j]; [split; vm_compute; reflexivity|]). lia.
  - vm_compute. reflexivity.
  - vm_compute. discriminate.
  - lia.
Defined.

(** X4. How long the call waits: for every limit from 1 to 300 seconds
    (300 is the default), a call that passes validation and set-up and
    never finds a file raises TimeoutError on its pass number 5 x limit
    or 5 x limit + 1 (0.2 is not exact in binary, so the sum can fall
    short of the limit after 5 x limit additions), after one sleep less
    than that. *)
Theorem wait_timeout_pass_count
    (W : Type) (FS : FileSystem W)
    (folder_to_check extension folder_storage : string)
    (replace_filename : option string) (max_waiting_download : Z)
    (logger : option Logger.t) (w w1 w2 : W) :
  folder_to_check <> "" -> folder_storage <> "" -> extension <> "" ->
  os_makedirs folder_to_check w = Ok w1 ->
  os_makedirs folder_storage w1 = Ok w2 ->
  os_path_isdir folder_to_check w2 = true ->
  os_path_isdir folder_storage w2 = true ->
  (1 <= max_waiting_download <= 300)%Z ->
  (forall k, k <= 5 * Z.to_nat max_waiting_download ->
     no_match folder_to_check (normalized extension) (world_at w2 k) = true) ->
  exists j,
    (S j = 5 * Z.to_nat max_waiting_download
     \/ S j = 5 * Z.to_nat max_waiting_download + 1)
    /\ forall fuel, j < fuel ->
         exists r,
           wait_download_file folder_to_check extension folder_storage
             replace_filename max_waiting_download logger fuel w = Some r
           /\ result r = Raise (TimeoutError "Timeout waiting for download")
           /\ final_world r = world_at w2 j.
Proof.
  intros Hc Hs He Hm1 Hm2 Hd1 Hd2 Hl Hno.
  destruct (first_timeout_in_range _ Hl) as (j & Hj & Hlt & Hge).
  exists j. split; [exact Hj|]. intros fuel Hf.
  destruct (poll_timeout folder_to_check folder_storage replace_filename
              max_waiting_download (normalized extension) logger w2 j j 0
              eq_refl ltac:(intros k Hk; apply Hno; lia) Hge)
    as (j' & Hj' & Hlt' & Hge' & Hrun).
  assert (j' = j).
  { destruct (decide (j' = j)) as [|Hne]; [assumption|].
    rewrite Hlt in Hge' by lia. discriminate. }
  subst j'. eexists. split.
  - rewrite (wait_polls _ _ _ _ _ _ _ _ _ _ Hc Hs He Hm1 Hm2 Hd1 Hd2).
    change PyFloat.zero with (accumulated 0).
    change w2 with (world_at w2 0) at 1.
    apply Hrun. lia.
  - split; reflexivity.
Qed.

Lemma wait_timeout_pass_count_witness :
  exists j,
    (S j = 5 * Z.to_nat 2 \/ S j = 5 * Z.to_nat 2 + 1)
    /\ forall fuel, j < fuel ->
         exists r,
           wait_download_file "downloads" "pdf" "storage" None 2 None fuel
             Examples.idle_fs = Some r
           /\ result r = Raise (TimeoutError "Timeout waiting for download")
           /\ final_world r = world_at Examples.idle_fs j.
Proof.
  apply (wait_timeout_pass_count MemFS.t _ "downloads" "pdf" "storage" None
           2 None Examples.idle_fs Examples.idle_fs Examples.idle_fs).
  - discriminate.
  - discriminate.
  - discriminate.
  - reflexivity.
  - reflexivity.
  - reflexivity.
  - reflexivity.
  - lia.
  - intros k Hk.
    do 11 (destruct k as [|k]; [vm_compute; reflexivity|]).
    simpl in Hk. lia.
Defined.

(** X5. A limit of zero or less still allows one pass: when validation
    and set-up pass and the first listing has no matching file, the call
    raises TimeoutError at once, in the world set-up left, without
    sleeping, and logs the timeout when it has a logger. *)
Theorem wait_nonpositive_limit
    (W : Type) (FS : FileSystem W)
    (folder_to_check extension folder_storage : string)
    (replace_filename : option string) (max_waiting_download : Z)
    (logger : option Logger.t) (w w1 w2 : W) (fuel : nat) :
  folder_to_check <> "" -> folder_storage <> "" -> extension <> "" ->
  os_makedirs folder_to_check w = Ok w1 ->
  os_makedirs folder_storage w1 = Ok w2 ->
  os_path_isdir folder_to_check w2 = true ->
  os_path_isdir folder_storage w2 = true ->
  (max_waiting_download <= 0)%Z ->
  no_match folder_to_check (normalized extension) w2 = true ->
  wait_download_file folder_to_check extension folder_storage
    replace_filename max_waiting_download logger (S fuel) w
  = Some (Run w2
            (option_map
               (fun l => l ++ [timeout_entry (datetime_now w2)
                                 max_waiting_download])
               logger)
            (Raise (TimeoutError "Timeout waiting for download"))).
Proof.
  intros Hc Hs He Hm1 Hm2 Hd1 Hd2 Hl Hno.
  rewrite (wait_polls _ _ _ _ _ _ _ _ _ _ Hc Hs He Hm1 Hm2 Hd1 Hd2).
  rewrite poll_unfold. unfold no_match in Hno.
  destruct (os_listdir folder_to_check w2); [discriminate|].
  destruct (matching_files _ _ _ w2); [|discriminate].
  cbv zeta.
  change (PyFloat.add PyFloat.zero PyFloat.poll_interval)
    with (accumulated 1).
  rewrite (ge_int_first_nonpositive _ Hl). destruct logger; reflexivity.
Qed.

Lemma wait_nonpositive_limit_witness :
  wait_download_file "downloads" "pdf" "storage" None 0
    (Some Logger.new) 1 Examples.idle_fs
  = Some (Run Examples.idle_fs
            (option_map
               (fun l => l ++ [timeout_entry (datetime_now Examples.idle_fs)
                                 0])
               (Some Logger.new))
            (Raise (TimeoutError "Timeout waiting for download"))).
Proof.
  apply (wait_nonpositive_limit MemFS.t _ "downloads" "pdf" "storage" None
           0 (Some Logger.new) Examples.idle_fs Examples.idle_fs
           Examples.idle_fs 0).
  - discriminate.
  - discriminate.
  - discriminate.
  - reflexivity.
  - reflexivity.
  - reflexivity.
  - reflexivity.
  - lia.
  - vm_compute. reflexivity.
Defined.

(** X6. Moving one file, on the in-memory POSIX file system. The watched
    folder lists one regular file [f] with contents [data] that matches
    the extension; the storage folder exists or can be created; the new
    file name is a proper name, is not taken by a directory and is not
    the source itself. Then the first pass returns the one triple of [f];
    afterwards the source is gone, the destination is a regular file with
    the contents [data], and no other path has changed since set-up. *)
Theorem wait_moves_single_file
    (fs fs1 : MemFS.t) (watchDir extension storageDir f data : string)
    (replace_filename : option string) (max_waiting_download : Z)
    (logger : option Logger.t) (fuel : nat) :
  watchDir <> "" -> storageDir <> "" -> extension <> "" ->
  os_listdir watchDir fs = inr [f] ->
  MemFS.plain f = true ->
  MemHost.read_file (os_path_join watchDir f) fs = Some data ->
  matched (normalized extension) f ->
  os_makedirs storageDir fs = Ok fs1 ->
  MemFS.plain (output_name replace_filename f) = true ->
  os_path_isdir (output_path storageDir replace_filename f) fs = false ->
  MemFS.resolve fs (os_path_join watchDir f)
  <> MemFS.resolve fs (output_path storageDir replace_filename f) ->
  exists r,
    wait_download_file watchDir extension storageDir replace_filename
      max_waiting_download logger (S fuel) fs = Some r
    /\ result r = Return [result_row storageDir replace_filename f]
    /\ os_path_exists (os_path_join watchDir f) (final_world r) = false
    /\ MemHost.read_file (output_path storageDir replace_filename f)
         (final_world r) = Some data
    /\ forall k,
         k <> MemFS.resolve fs (os_path_join watchDir f) ->
         k <> MemFS.resolve fs (output_path storageDir replace_filename f) ->
         MemFS.nodes (final_world r) !! k = MemFS.nodes fs1 !! k.
Proof.
  intros Hw Hs He Hls Hpf Hread Hmatch Hmk Hpn Hnd Hne.
  destruct (single_file_pass fs fs1 watchDir extension storageDir f data
              replace_filename max_waiting_download logger fuel
              Hw Hs He Hls Hpf Hread Hmatch Hmk)
    as (Hrun & Hres & Hf1 & Hst1 & P3 & P2).
  set (rw := MemFS.resolve fs watchDir) in *.
  set (rs := MemFS.resolve fs storageDir) in *.
  pose proof (resolve_join fs watchDir _ Hw Hpf) as Hsrc. fold rw in Hsrc.
  rewrite (output_path_name _ _ _ _ Hmatch) in *.
  pose proof (resolve_join fs storageDir _ Hs Hpn) as Hdst. fold rs in Hdst.
  rewrite Hsrc, Hdst in Hne.
  change (MemFS.isdir (os_path_join storageDir
                         (output_name replace_filename f)) fs = false)
    in Hnd.
  unfold MemFS.isdir in Hnd. rewrite Hdst, stat_lookup in Hnd.
  assert (Hnd1 : MemFS.nodes fs1 !! (rs ++ [output_name replace_filename f])
                 <> Some MemFS.Dir).
  { intros Hd. destruct (P2 _ _ Hd) as [Hd0|(_ & a & b & Ha & Hab & Hk)].
    - rewrite Hd0 in Hnd. discriminate.
    - subst a. apply (f_equal (@length _)) in Hab.
      rewrite !length_app in Hab. simpl in Hab. lia. }
  assert (Hmv :
    MemFS.move (os_path_join watchDir f)
      (os_path_join storageDir (output_name replace_filename f)) fs1
    = Ok (MemFS.with_nodes fs1
            (<[rs ++ [output_name replace_filename f] := MemFS.File data]>
               (delete (rw ++ [f]) (MemFS.nodes fs1))))).
  { apply move_file.
    - rewrite Hres. exact Hsrc.
    - rewrite Hres. exact Hdst.
    - rewrite stat_lookup. exact Hf1.
    - exact Hnd1.
    - exact P3. }
  assert (Hex :
    MemFS.exists_ (os_path_join watchDir f)
      (MemFS.with_nodes fs1
         (<[rs ++ [output_name replace_filename f] := MemFS.File data]>
            (delete (rw ++ [f]) (MemFS.nodes fs1)))) = false).
  { unfold MemFS.exists_. rewrite resolve_with_nodes.
    rewrite Hres, Hsrc, stat_lookup. simpl MemFS.nodes.
    rewrite lookup_insert_ne by congruence.
    rewrite lookup_delete_eq. reflexivity. }
  set (fs2 := MemFS.with_nodes fs1
                (<[rs ++ [output_name replace_filename f]
                   := MemFS.File data]>
                   (delete (rw ++ [f]) (MemFS.nodes fs1)))) in *.
  assert (Hmv' :
    shutil_move (os_path_join watchDir f)
      (output_path storageDir replace_filename f) fs1 = Ok fs2).
  { rewrite (output_path_name _ _ _ _ Hmatch). exact Hmv. }
  eexists. split.
  { rewrite Hrun.
    rewrite (process_one MemFS.t MemFS.file_system watchDir storageDir
               replace_filename (normalized extension) f fs1 fs2 _
               Hmatch Hmv').
    cbv zeta.
    change (os_path_exists (os_path_join watchDir f) fs2)
      with (MemFS.exists_ (os_path_join watchDir f) fs2).
    rewrite Hex. reflexivity. }
  cbn [result final_world].
  split; [reflexivity|]. split; [exact Hex|]. split.
  - unfold MemHost.read_file, fs2. rewrite resolve_with_nodes.
    rewrite Hres, Hdst, stat_lookup. simpl MemFS.nodes.
    rewrite lookup_insert_eq. reflexivity.
  - intros k Hk1 Hk2. rewrite Hsrc in Hk1. rewrite Hdst in Hk2.
    unfold fs2. simpl MemFS.nodes.
    rewrite lookup_insert_ne by congruence.
    rewrite lookup_delete_ne by congruence. reflexivity.
Qed.

Lemma wait_moves_single_file_witness :
  exists r,
    wait_download_file "downloads" ".CSV" "storage" (Some "final") 5
      None 1 Examples.one_csv_fs = Some r
    /\ result r = Return [result_row "storage" (Some "final") "a.csv"]
    /\ os_path_exists (os_path_join "downloads" "a.csv") (final_world r)
       = false
    /\ MemHost.read_file (output_path "storage" (Some "final") "a.csv")
         (final_world r) = Some "alpha"
    /\ forall k,
         k <> MemFS.resolve Examples.one_csv_fs
                (os_path_join "downloads" "a.csv") ->
         k <> MemFS.resolve Examples.one_csv_fs
                (output_path "storage" (Some "final") "a.csv") ->
         MemFS.nodes (final_world r) !! k
         = MemFS.nodes
             (MemFS.with_nodes Examples.one_csv_fs
                (<[ ["home"; "storage"] := MemFS.Dir ]>
                   (MemFS.nodes Examples.one_csv_fs))) !! k.
Proof.
  apply (wait_moves_single_file Examples.one_csv_fs
           (MemFS.with_nodes Examples.one_csv_fs
              (<[ ["home"; "storage"] := MemFS.Dir ]>
                 (MemFS.nodes Examples.one_csv_fs)))
           "downloads" ".CSV" "storage" "a.csv" "alpha" (Some "final") 5
           None 0).
  - discriminate.
  - discriminate.
  - discriminate.
  - vm_compute. reflexivity.
  - vm_compute. reflexivity.
  - vm_compute. reflexivity.
  - vm_compute. reflexivity.
  - vm_compute. reflexivity.
  - vm_compute. reflexivity.
  - vm_compute. reflexivity.
  - intros Heq. vm_compute in Heq. discriminate Heq.
Defined.

(** X7. Watching the storage folder itself loses the file, on the
    in-memory POSIX file system: when storageDir is the watched folder,
    no new name is given and the one matching regular file has a
    lower-case name, the file is moved onto itself, found to be still
    there and deleted; the call returns its triple, whose path no longer
    exists, and a logger gets the entries Found, Moved and Removed. *)
Theorem wait_same_folder_deletes_file
    (fs : MemFS.t) (watchDir extension f data : string)
    (max_waiting_download : Z) (logger : option Logger.t) (fuel : nat) :
  watchDir <> "" -> extension <> "" ->
  os_listdir watchDir fs = inr [f] ->
  MemFS.plain f = true ->
  MemHost.read_file (os_path_join watchDir f) fs = Some data ->
  matched (normalized extension) f ->
  PyStr.lower f = f ->
  exists r,
    wait_download_file watchDir extension watchDir None
      max_waiting_download logger (S fuel) fs = Some r
    /\ result r = Return [result_row watchDir None f]
    /\ output_path watchDir None f = os_path_join watchDir f
    /\ os_path_exists (output_path watchDir None f) (final_world r) = false
    /\ final_logger r
       = option_map
           (fun l =>
              l ++ [found_entry (MemFS.clock fs) [f];
                    moved_entry (MemFS.clock fs) (os_path_join watchDir f)
                      (os_path_join watchDir f);
                    removed_entry (MemFS.clock fs)
                      (os_path_join watchDir f)])
           logger.
Proof.
  intros Hw He Hls Hpf Hread Hmatch Hlow.
  assert (Hmk : MemFS.makedirs watchDir fs = Ok fs).
  { change (MemFS.listdir watchDir fs = inr [f]) in Hls.
    unfold MemFS.listdir in Hls. unfold MemFS.makedirs.
    destruct (MemFS.stat (MemFS.nodes fs) (MemFS.resolve fs watchDir))
      as [[d|]|]; try discriminate. reflexivity. }
  destruct (single_file_pass fs fs watchDir extension watchDir f data
              None max_waiting_download logger fuel
              Hw Hw He Hls Hpf Hread Hmatch Hmk)
    as (Hrun & _ & Hf1 & Hst1 & _ & _).
  set (rw := MemFS.resolve fs watchDir) in *.
  pose proof (resolve_join fs watchDir _ Hw Hpf) as Hsrc. fold rw in Hsrc.
  assert (Hname : output_name None f = f).
  { destruct (matched_rsplit1 _ _ Hmatch) as (a & b & Hab & Hl & _).
    unfold output_name. rewrite Hab. simpl new_file_name_of.
    rewrite <- Hl. exact Hlow. }
  assert (Hout : output_path watchDir None f = os_path_join watchDir f).
  { rewrite (output_path_name _ _ _ _ Hmatch), Hname. reflexivity. }
  assert (Hmv :
    MemFS.move (os_path_join watchDir f) (os_path_join watchDir f) fs
    = Ok (MemFS.with_nodes fs
            (<[rw ++ [f] := MemFS.File data]>
               (delete (rw ++ [f]) (MemFS.nodes fs))))).
  { apply move_file.
    - exact Hsrc.
    - exact Hsrc.
    - rewrite stat_lookup. exact Hf1.
    - rewrite Hf1. discriminate.
    - exact Hst1. }
  set (fs2 := MemFS.with_nodes fs
                (<[rw ++ [f] := MemFS.File data]>
                   (delete (rw ++ [f]) (MemFS.nodes fs)))) in *.
  assert (Hex : MemFS.exists_ (os_path_join watchDir f) fs2 = true).
  { unfold MemFS.exists_, fs2. rewrite resolve_with_nodes.
    rewrite Hsrc, stat_lookup. simpl MemFS.nodes.
    rewrite lookup_insert_eq. reflexivity. }
  assert (Hrm :
    MemFS.remove (os_path_join watchDir f) fs2
    = Ok (MemFS.with_nodes fs2 (delete (rw ++ [f]) (MemFS.nodes fs2)))).
  { assert (Hr2 : MemFS.resolve fs2 (os_path_join watchDir f) = rw ++ [f])
      by (unfold fs2; rewrite resolve_with_nodes; exact Hsrc).
    assert (Hs2 : MemFS.nodes fs2 !! (rw ++ [f]) = Some (MemFS.File data))
      by (unfold fs2; simpl MemFS.nodes; apply lookup_insert_eq).
    unfold MemFS.remove. rewrite Hr2, stat_lookup, Hs2. reflexivity. }
  assert (Hmv' :
    shutil_move (os_path_join watchDir f) (output_path watchDir None f) fs
    = Ok fs2).
  { rewrite Hout. exact Hmv. }
  eexists. split.
  { rewrite Hrun.
    rewrite (process_one MemFS.t MemFS.file_system watchDir watchDir
               None (normalized extension) f fs fs2 _ Hmatch Hmv').
    cbv zeta.
    change (os_path_exists (os_path_join watchDir f) fs2)
      with (MemFS.exists_ (os_path_join watchDir f) fs2).
    rewrite Hex.
    change (os_remove (os_path_join watchDir f) fs2)
      with (MemFS.remove (os_path_join watchDir f) fs2).
    rewrite Hrm. reflexivity. }
  cbn [result final_world final_logger].
  split; [reflexivity|]. split; [exact Hout|]. split.
  - rewrite Hout.
    change (MemFS.exists_ (os_path_join watchDir f)
              (MemFS.with_nodes fs2 (delete (rw ++ [f]) (MemFS.nodes fs2)))
            = false).
    unfold MemFS.exists_. rewrite resolve_with_nodes.
    unfold fs2. rewrite resolve_with_nodes, Hsrc, stat_lookup.
    simpl MemFS.nodes. rewrite lookup_delete_eq. reflexivity.
  - rewrite Hout. destruct logger as [l|]; [|reflexivity].
    rewrite !log_if_some. simpl option_map. rewrite <- !app_assoc.
    reflexivity.
Qed.

Lemma wait_same_folder_deletes_file_witness :
  exists r,
    wait_download_file "downloads" "csv" "downloads" None 5 None 1
      Examples.one_csv_fs = Some r
    /\ result r = Return [result_row "downloads" None "a.csv"]
    /\ output_path "downloads" None "a.csv"
       = os_path_join "downloads" "a.csv"
    /\ os_path_exists (output_path "downloads" None "a.csv") (final_world r)
       = false
    /\ final_logger r
       = option_map
           (fun l =>
              l ++ [found_entry (MemFS.clock Examples.one_csv_fs) ["a.csv"];
                    moved_entry (MemFS.clock Examples.one_csv_fs)
                      (os_path_join "downloads" "a.csv")
                      (os_path_join "downloads" "a.csv");
                    removed_entry (MemFS.clock Examples.one_csv_fs)
                      (os_path_join "downloads" "a.csv")])
           None.
Proof.
  apply (wait_same_folder_deletes_file Examples.one_csv_fs "downloads" "csv"
           "a.csv" "alpha" 5 None 0).
  - discriminate.
  - discriminate.
  - vm_compute. reflexivity.
  - vm_compute. reflexivity.
  - vm_compute. reflexivity.
  - vm_compute. reflexivity.
  - vm_compute. reflexivity.
Defined.


(** X8. On the in-memory POSIX file system the check of lines 102-103 is
    dead: the only ValueErrors wait_download_file raises are the two of
    lines 89-92, "Folder paths cannot be empty" for an empty folder path
    and "Extension cannot be empty" for an empty extension;
    "Invalid folder paths" is never raised, because a makedirs that
    returns has left a directory. *)
Theorem wait_value_errors_posix
    (fs : MemFS.t) (folder_to_check extension folder_storage : string)
    (replace_filename : option string) (max_waiting_download : Z)
    (logger : option Logger.t) (fuel : nat) (r : run MemFS.t)
    (msg : string) :
  wait_download_file folder_to_check extension folder_storage
    replace_filename max_waiting_download logger fuel fs = Some r ->
  result r = Raise (ValueError msg) ->
  (msg = "Folder paths cannot be empty"
   /\ (folder_to_check = "" \/ folder_storage = ""))
  \/ (msg = "Extension cannot be empty" /\ extension = "").
Proof.
  unfold wait_download_file.
  destruct (String.eqb folder_to_check "") eqn:E1.
  { intros [= <-] [= <-]. left. apply String.eqb_eq in E1. auto. }
  destruct (String.eqb folder_storage "") eqn:E2.
  { intros [= <-] [= <-]. left. apply String.eqb_eq in E2. auto. }
  simpl orb. cbv iota.
  destruct (String.eqb extension "") eqn:E3.
  { intros [= <-] [= <-]. right. apply String.eqb_eq in E3. auto. }
  change (os_makedirs folder_to_check fs)
    with (MemFS.makedirs folder_to_check fs).
  destruct (MemFS.makedirs folder_to_check fs) as [w1|c w1] eqn:Hm1.
  2:{ intros [= <-]. discriminate. }
  change (os_makedirs folder_storage w1)
    with (MemFS.makedirs folder_storage w1).
  destruct (MemFS.makedirs folder_storage w1) as [w2|c w2] eqn:Hm2.
  2:{ intros [= <-]. discriminate. }
  change (os_path_isdir folder_to_check w2)
    with (MemFS.isdir folder_to_check w2).
  change (os_path_isdir folder_storage w2)
    with (MemFS.isdir folder_storage w2).
  rewrite (makedirs_keeps_isdir _ _ _ _ Hm2 (makedirs_isdir _ _ _ Hm1)).
  rewrite (makedirs_isdir _ _ _ Hm2). simpl orb. cbv iota.
  intros Hpoll Hr. exfalso.
  exact (poll_no_value_error _ _ _ _ _ _ _ _ _ _ _ Hpoll Hr).
Qed.

Lemma wait_value_errors_posix_witness :
  ("Extension cannot be empty" = "Folder paths cannot be empty"
   /\ ("downloads" = "" \/ "storage" = ""))
  \/ ("Extension cannot be empty" = "Extension cannot be empty"
      /\ "" = "").
Proof.
  exact (wait_value_errors_posix Examples.idle_fs "downloads" "" "storage"
           None 5 None 1
           (Run Examples.idle_fs None
              (Raise (ValueError "Extension cannot be empty")))
           "Extension cannot be empty" eq_refl eq_refl).
Defined.

(** * enable_download_headless *)

(** X9. enable_download_headless writes to the logger exactly when it
    returns normally: then it has appended one entry, not an error, under
    the name "enable_download_headless" with the message
    "Enabled downloads to <download_dir>", and the browser is the one
    left by registering "send_command" and executing it; on every raising
    path the logger is left exactly as it was. *)
Theorem headless_logs_only_on_success
    (W B : Type) (FS : FileSystem W) (OH : OsHost W) (WD : WebDriver B)
    (browser : B) (download_dir : string) (logger : option Logger.t)
    (w : W) :
  let r := enable_download_headless browser download_dir logger w in
  match hr_raised r with
  | Some _ => hr_logger r = logger
  | None =>
      hr_logger r
      = option_map
          (fun l =>
             l ++ [ {| Logger.timestamp := datetime_now (hr_world r);
                       Logger.function := "enable_download_headless";
                       Logger.message :=
                         "Enabled downloads to " ++ download_dir;
                       Logger.is_error := false |} ])
          logger
      /\ download_dir <> ""
      /\ os_makedirs download_dir w = Ok (hr_world r)
      /\ exists b1 params,
           set_command "send_command"
             ("POST", "/session/$sessionId/chromium/send_command") browser
           = Ok b1
           /\ execute "send_command" params b1 = Ok (hr_browser r)
  end.
Proof.
  cbv zeta. unfold enable_download_headless.
  destruct (String.eqb download_dir "") eqn:Ed; [reflexivity|].
  apply String.eqb_neq in Ed.
  destruct (os_makedirs download_dir w) as [w1|e w1]; [|reflexivity].
  destruct (os_path_isdir download_dir w1); [|reflexivity]. cbv iota.
  simpl negb. cbv iota.
  destruct (set_command _ _ browser) as [b1|e b1]; [|reflexivity].
  cbv zeta.
  destruct (execute _ _ b1) as [b2|e b2] eqn:Hex; [|reflexivity].
  cbn [hr_raised hr_logger hr_world hr_browser].
  split; [destruct logger; reflexivity|]. split; [exact Ed|].
  split; [reflexivity|]. eauto.
Qed.

(** X10. On the in-memory POSIX file system the only ValueError of
    enable_download_headless is the one for an empty download_dir: the
    check of lines 41-42 never fires, and a download_dir that exists
    without being a directory gives the OSError
    "Failed to create download directory '<dir>': ..." of line 39
    instead of the "is not a directory" ValueError the docstring
    announces. *)
Theorem headless_value_error_posix
    (B : Type) (WD : WebDriver B) (browser : B) (download_dir : string)
    (logger : option Logger.t) (fs : MemFS.t) :
  let r := enable_download_headless browser download_dir logger fs in
  (forall msg,
     hr_raised r = Some (Builtin (ValueError msg)) ->
     msg = "Download directory cannot be empty" /\ download_dir = "")
  /\ (download_dir <> "" ->
      os_path_exists download_dir fs = true ->
      os_path_isdir download_dir fs = false ->
      hr_raised r
      = Some (Builtin
                (OSError ("Failed to create download directory '"
                            ++ download_dir ++ "': "
                            ++ MemFS.eexist download_dir)))).
Proof.
  cbv zeta. unfold enable_download_headless.
  destruct (String.eqb download_dir "") eqn:Ed.
  { apply String.eqb_eq in Ed. split.
    - intros msg [= <-]. auto.
    - congruence. }
  change (os_makedirs download_dir fs) with (MemFS.makedirs download_dir fs).
  split.
  - intros msg.
    destruct (MemFS.makedirs download_dir fs) as [w1|e w1] eqn:Hmk;
      [|discriminate].
    change (os_path_isdir download_dir w1) with (MemFS.isdir download_dir w1).
    rewrite (makedirs_isdir _ _ _ Hmk). simpl negb. cbv iota.
    destruct (set_command _ _ browser) as [b1|e b1]; [|discriminate].
    cbv zeta. destruct (execute _ _ b1); discriminate.
  - intros _ Hex Hnd.
    change (MemFS.exists_ download_dir fs = true) in Hex.
    change (MemFS.isdir download_dir fs = false) in Hnd.
    unfold MemFS.exists_ in Hex. unfold MemFS.isdir in Hnd.
    unfold MemFS.makedirs.
    destruct (MemFS.stat (MemFS.nodes fs) (MemFS.resolve fs download_dir))
      as [[d|]|]; try discriminate.
    reflexivity.
Qed.

Lemma headless_value_error_posix_witness :
  hr_raised
    (enable_download_headless MemHost.blank "downloads" None
       Examples.blocked_fs)
  = Some (Builtin
            (OSError ("Failed to create download directory '"
                        ++ "downloads" ++ "': "
                        ++ MemFS.eexist "downloads"))).
Proof.
  apply (proj2 (headless_value_error_posix MemHost.browser _ MemHost.blank
                  "downloads" None Examples.blocked_fs)).
  - discriminate.
  - vm_compute. reflexivity.
  - vm_compute. reflexivity.
Defined.

(** X11. The browser is told an absolute path: when the working
    directory of the process is absolute (as os.getcwd() always is), a
    call of enable_download_headless that returns normally has executed
    "send_command" with cmd "Page.setDownloadBehavior", behavior "allow"
    and a downloadPath that is an absolute path, namely
    os.path.abspath(download_dir), also for a relative download_dir. *)
Theorem headless_sends_absolute_path
    (W B : Type) (FS : FileSystem W) (OH : OsHost W) (WD : WebDriver B)
    (browser : B) (download_dir : string) (logger : option Logger.t)
    (w : W) :
  let r := enable_download_headless browser download_dir logger w in
  os_path_isabs (os_getcwd (hr_world r)) = true ->
  hr_raised r = None ->
  exists b1 params,
    execute "send_command" params b1 = Ok (hr_browser r)
    /\ cmd params = "Page.setDownloadBehavior"
    /\ behavior params = "allow"
    /\ downloadPath params = os_path_abspath download_dir (hr_world r)
    /\ os_path_isabs (downloadPath params) = true.
Proof.
  cbv zeta. unfold enable_download_headless.
  destruct (String.eqb download_dir ""); [discriminate|].
  destruct (os_makedirs download_dir w) as [w1|e w1]; [|discriminate].
  destruct (os_path_isdir download_dir w1); [|discriminate].
  simpl negb. cbv iota.
  destruct (set_command _ _ browser) as [b1|e b1]; [|discriminate].
  cbv zeta.
  destruct (execute _ _ b1) as [b2|e b2] eqn:Hex; [|discriminate].
  cbn [hr_browser hr_world]. intros Hcwd _.
  eexists b1, _. split; [exact Hex|].
  cbn [cmd behavior downloadPath].
  repeat split. unfold os_path_abspath. apply abspath_isabs, Hcwd.
Qed.

Lemma headless_sends_absolute_path_witness :
  exists b1 params,
    execute "send_command" params b1
    = Ok (hr_browser
            (enable_download_headless MemHost.blank "downloads/../dl" None
               Examples.idle_fs))
    /\ cmd params = "Page.setDownloadBehavior"
    /\ behavior params = "allow"
    /\ downloadPath params
       = os_path_abspath "downloads/../dl"
           (hr_world
              (enable_download_headless MemHost.blank "downloads/../dl"
                 None Examples.idle_fs))
    /\ os_path_isabs (downloadPath params) = true.
Proof.
  apply (headless_sends_absolute_path MemFS.t MemHost.browser
           MemFS.file_system MemHost.os_host MemHost.web_driver
           MemHost.blank "downloads/../dl" None Examples.idle_fs).
  - vm_compute. reflexivity.
  - vm_compute. reflexivity.
Defined.

(** X12. Nothing is rolled back when the browser refuses: on the
    in-memory POSIX file system, whenever enable_download_headless gets
    past its own checks (it returns normally, or it raises the Exception
    "Failed to configure browser for downloads: ..."), download_dir is a
    directory afterwards, whether or not it existed before. *)
Theorem headless_directory_stays
    (B : Type) (WD : WebDriver B) (browser : B) (download_dir : string)
    (logger : option Logger.t) (fs : MemFS.t) :
  let r := enable_download_headless browser download_dir logger fs in
  (hr_raised r = None
   \/ exists e,
        hr_raised r
        = Some (Exception
                  ("Failed to configure browser for downloads: " ++ e))) ->
  os_path_isdir download_dir (hr_world r) = true.
Proof.
  cbv zeta. unfold enable_download_headless.
  destruct (String.eqb download_dir "").
  { intros [?|[e ?]]; discriminate. }
  change (os_makedirs download_dir fs) with (MemFS.makedirs download_dir fs).
  destruct (MemFS.makedirs download_dir fs) as [w1|e w1] eqn:Hmk.
  2:{ intros [?|[e' ?]]; discriminate. }
  change (os_path_isdir download_dir w1) with (MemFS.isdir download_dir w1).
  rewrite (makedirs_isdir _ _ _ Hmk). simpl negb. cbv iota.
  intros _.
  destruct (set_command _ _ browser) as [b1|e b1];
    [|exact (makedirs_isdir _ _ _ Hmk)].
  cbv zeta.
  destruct (execute _ _ b1); exact (makedirs_isdir _ _ _ Hmk).
Qed.

Lemma headless_directory_stays_witness :
  os_path_isdir "new/dl" Examples.home_fs = false
  /\ os_path_isdir "new/dl"
       (hr_world
          (enable_download_headless MemHost.broken "new/dl" None
             Examples.home_fs)) = true.
Proof.
  split; [vm_compute; reflexivity|].
  apply (headless_directory_stays MemHost.browser MemHost.web_driver
           MemHost.broken "new/dl" None Examples.home_fs).
  right. exists "session not created". vm_compute. reflexivity.
Defined.

(** X13. The command line Chrome gets (lines 216-263).  Whatever the
    download directory and the domains: "--headless=new" is passed
    exactly when headless is set, "--incognito" exactly when
    enable_incognito is set and "--disable-web-security" exactly when
    disable_web_security is set; the seventeen unconditional flags come
    first; and the "--unsafely-treat-insecure-origin-as-secure=" flags are
    exactly one per domain of domain_skip_security, in its order, each
    with an origin that starts with "http://" or "https://" (a domain that
    has a scheme is passed as it is), and none at all unless
    disable_web_security is set: without it domain_skip_security is
    ignored. *)
Theorem chrome_flags
    (dir : string) (headless dws : bool) (domains : option (list string))
    (incognito : bool) :
  let o := chrome_options_of dir headless dws domains incognito in
  has_argument "--headless=new" o = headless
  /\ has_argument "--incognito" o = incognito
  /\ has_argument "--disable-web-security" o = dws
  /\ firstn 17 (arguments o) = base_arguments
  /\ List.filter is_origin_flag (arguments o)
     = (if dws then map origin_flag (default [] domains) else [])
  /\ forall d,
       origin_flag d
       = ("--unsafely-treat-insecure-origin-as-secure=" ++ origin_of d)%string
       /\ has_scheme (origin_of d) = true
       /\ (if has_scheme d then origin_of d = d
           else origin_of d = ("http://" ++ d)%string).
Proof.
  cbv zeta. unfold has_argument. rewrite chrome_arguments.
  assert (Hflag : forall a,
            PyStr.startswith a "--u" = false ->
            existsb (String.eqb a)
              (base_arguments
                 ++ (if incognito then ["--incognito"] else [])
                 ++ (if headless then ["--headless=new"] else [])
                 ++ (if dws
                     then web_security_arguments
                            ++ map origin_flag (default [] domains)
                     else []))
            = existsb (String.eqb a)
                (base_arguments
                   ++ (if incognito then ["--incognito"] else [])
                   ++ (if headless then ["--headless=new"] else [])
                   ++ (if dws then web_security_arguments else []))).
  { intros a Ha. rewrite !existsb_app. destruct dws; [|reflexivity].
    rewrite existsb_app, existsb_origin_flags, orb_false_r by exact Ha.
    reflexivity. }
  refine (conj _ (conj _ (conj _ (conj _ (conj _ _))))).
  - rewrite Hflag by reflexivity. destruct incognito, headless, dws;
      reflexivity.
  - rewrite Hflag by reflexivity. destruct incognito, headless, dws;
      reflexivity.
  - rewrite Hflag by reflexivity. destruct incognito, headless, dws;
      reflexivity.
  - reflexivity.
  - rewrite !List.filter_app.
    destruct incognito, headless, dws;
      rewrite ?List.filter_app, ?filter_origin_flags; reflexivity.
  - intros d. split; [reflexivity|]. split; [apply origin_of_has_scheme|].
    unfold has_scheme, origin_of.
    destruct (PyStr.startswith d "http://" || PyStr.startswith d "https://");
      reflexivity.
Qed.

(** X14. What create_chrome_driver logs, by outcome.  When it returns a
    driver it has appended exactly one entry, not an error, under
    "create_chrome_driver": "Created Chrome WebDriver with download
    directory <download_dir>", with the directory as given (or the default
    one), not the absolute one of the preferences.  When the start of the
    driver fails with <ex> it has appended exactly one error entry,
    "Failed to create Chrome WebDriver: <ex>", and raises an Exception
    with that same text.  When clear_folder raises, or the directory is
    not writable (an OSError "Download directory '<dir>' is not
    writable"), the logger is untouched and no driver was started.  With
    no logger none appears. *)
Theorem driver_log_outcome
    (W D : Type) (FS : FileSystem W) (OH : OsHost W) (CH : ChromeHost W D)
    (download_dir : option string)
    (headless clear_download_dir disable_web_security : bool)
    (domain_skip_security : option (list string))
    (enable_incognito : bool) (logger : option Logger.t) (w : W) :
  let r :=
    create_chrome_driver (D := D) download_dir headless clear_download_dir
      disable_web_security domain_skip_security enable_incognito logger w in
  let dir := download_dir_of download_dir w in
  let entry msg err :=
    {| Logger.timestamp := datetime_now (dr_world r);
       Logger.function := "create_chrome_driver";
       Logger.message := msg;
       Logger.is_error := err |} in
  match dr_result r with
  | inr driver =>
      dr_logger r
      = option_map
          (fun l =>
             l ++ [entry ("Created Chrome WebDriver with download directory "
                            ++ dir)%string false])
          logger
  | inl e =>
      (dr_logger r = logger
       /\ (clear_folder dir clear_download_dir w = (Some e, dr_world r)
           \/ (e = Builtin (OSError ("Download directory '" ++ dir
                                       ++ "' is not writable")%string)
               /\ clear_folder dir clear_download_dir w
                  = (None, dr_world r)
               /\ os_access_w_ok dir (dr_world r) = false)))
      \/ (exists ex o w1,
            webdriver_chrome o w1 = (inl ex, dr_world r)
            /\ e = Exception
                     ("Failed to create Chrome WebDriver: " ++ ex)%string
            /\ dr_logger r
               = option_map
                   (fun l =>
                      l ++ [entry ("Failed to create Chrome WebDriver: "
                                     ++ ex)%string true])
                   logger)
  end.
Proof.
  cbv zeta. unfold create_chrome_driver. cbv zeta.
  destruct (clear_folder _ clear_download_dir w) as [[e|] w1] eqn:Hc.
  { cbn [dr_result dr_logger dr_world]. left. split; [reflexivity|].
    left. reflexivity. }
  destruct (os_access_w_ok _ w1) eqn:Ha; simpl negb; cbv iota.
  2:{ cbn [dr_result dr_logger dr_world]. left. split; [reflexivity|].
      right. auto. }
  destruct (webdriver_chrome _ w1) as [[ex|driver] w2] eqn:Hs;
    cbn [dr_result dr_logger dr_world].
  - right. exists ex. eexists _, w1. split; [exact Hs|].
    split; [reflexivity|]. destruct logger; reflexivity.
  - destruct logger; reflexivity.
Qed.

(** X15. What the driver is started with.  A call of create_chrome_driver
    that returns a driver has cleared the folder without error, found it
    writable, and started the driver exactly once with options whose
    experimental options are the three keys "excludeSwitches"
    (["enable-logging"]), "useAutomationExtension" (False) and "prefs",
    where download.default_directory is os.path.abspath of the download
    directory (an absolute path when the working directory is), prompts
    and popups are off and PDFs are opened externally; and with
    download_dir None the directory is <cwd>/data/download. *)
Theorem driver_started_with_prefs
    (W D : Type) (FS : FileSystem W) (OH : OsHost W) (CH : ChromeHost W D)
    (download_dir : option string)
    (headless clear_download_dir disable_web_security : bool)
    (domain_skip_security : option (list string))
    (enable_incognito : bool) (logger : option Logger.t) (w : W)
    (driver : D) :
  let r :=
    create_chrome_driver (D := D) download_dir headless clear_download_dir
      disable_web_security domain_skip_security enable_incognito logger w in
  let dir := download_dir_of download_dir w in
  dr_result r = inr driver ->
  (download_dir = None ->
   dir = os_path_join (os_path_join (os_getcwd w) "data") "download")
  /\ exists w1 o,
       clear_folder dir clear_download_dir w = (None, w1)
       /\ os_access_w_ok dir w1 = true
       /\ webdriver_chrome o w1 = (inr driver, dr_world r)
       /\ arguments o
          = arguments
              (chrome_options_of "" headless disable_web_security
                 domain_skip_security enable_incognito)
       /\ dom (experimental_options o)
          = ({["excludeSwitches"; "useAutomationExtension"; "prefs"]}
               : gset string)
       /\ experimental_options o !! "excludeSwitches"
          = Some (OptStrings ["enable-logging"])
       /\ experimental_options o !! "useAutomationExtension"
          = Some (OptBool false)
       /\ experimental_options o !! "prefs"
          = Some (OptPrefs
                    {| download_default_directory :=
                         os_path_abspath dir w1;
                       download_prompt_for_download := false;
                       download_directory_upgrade := true;
                       profile_default_content_settings_popups := false;
                       plugins_always_open_pdf_externally := true;
                       pdfjs_disabled := true |})
       /\ (os_path_isabs (os_getcwd w1) = true ->
           os_path_isabs (os_path_abspath dir w1) = true).
Proof.
  cbv zeta. unfold create_chrome_driver. cbv zeta.
  destruct (clear_folder _ clear_download_dir w) as [[e|] w1] eqn:Hc;
    [discriminate|].
  destruct (os_access_w_ok _ w1) eqn:Ha; simpl negb; cbv iota;
    [|discriminate].
  destruct (webdriver_chrome _ w1) as [[ex|d] w2] eqn:Hs;
    cbn [dr_result dr_world]; [discriminate|].
  intros [= ->]. split.
  { intros ->. reflexivity. }
  exists w1. eexists. split; [first [exact Hc | reflexivity]|].
  split; [first [exact Ha | reflexivity]|].
  split; [exact Hs|].
  split; [rewrite !chrome_arguments; reflexivity|].
  rewrite chrome_experimental_options.
  split.
  { rewrite !dom_insert_L, dom_empty_L. set_solver. }
  split.
  { rewrite lookup_insert_ne by discriminate.
    rewrite lookup_insert_ne by discriminate.
    apply lookup_insert_eq. }
  split; [apply lookup_insert_eq|].
  split.
  { rewrite lookup_insert_ne by discriminate. apply lookup_insert_eq. }
  intros Hcwd. unfold os_path_abspath. apply abspath_isabs, Hcwd.
Qed.

Lemma driver_started_with_prefs_witness :
  exists o : Options,
    webdriver_chrome o MemHost.driver_fs
    = (inr (arguments o) : string + list string, MemHost.driver_fs)
    /\ experimental_options o !! "prefs"
       = Some (OptPrefs
                 {| download_default_directory := "/home/downloads";
                    download_prompt_for_download := false;
                    download_directory_upgrade := true;
                    profile_default_content_settings_popups := false;
                    plugins_always_open_pdf_externally := true;
                    pdfjs_disabled := true |}).
Proof.
  pose proof (driver_started_with_prefs MemFS.t (list string)
                MemFS.file_system MemHost.os_host MemHost.chrome_host
                (Some "downloads") true true false None true None
                MemHost.driver_fs
                (base_arguments ++ ["--incognito"; "--headless=new"]))
    as H.
  cbv zeta in H.
  destruct (H ltac:(vm_compute; reflexivity))
    as (_ & w1 & o & Hc & _ & Hs & Harg & _ & _ & _ & Hp & _).
  assert (Hw : w1 = MemHost.driver_fs).
  { assert (Hc' : clear_folder (W := MemFS.t) (D := list string)
                    "downloads" true MemHost.driver_fs
                  = (None, MemHost.driver_fs)) by (vm_compute; reflexivity).
    change (download_dir_of (Some "downloads") MemHost.driver_fs)
      with "downloads" in Hc.
    congruence. }
  subst w1. exists o. split.
  - etransitivity; [exact Hs|]. rewrite Harg. vm_compute. reflexivity.
  - etransitivity; [exact Hp|]. vm_compute. reflexivity.
Defined.
